(** * Skill intelligence backend: extraction matcher and trend engine

    A shallow embedding of

    - [backend/app/services/skill_extraction_service.py]
      (class [SkillExtractionService]) and
    - [backend/app/services/trend_engine_service.py]
      (class [TrendEngineService]),

    followed by the properties the design document states about them;
    and of the code around them,

    - [backend/app/services/job_posting_service.py]
      (class [JobPostingIngestionService]),
    - [backend/app/services/github_ingestion_service.py]
      (class [GitHubIngestionService], which runs on its built-in data),
    - [backend/app/services/analysis_service.py]
      (class [AnalysisService]) and
    - [backend/app/routes/helpers.py],

    with properties read off the code.

    Conventions of the embedding:

    - Python [int] is [Z]; Python [float] is an IEEE 754 binary64 value,
      represented by [spec_float] with [prec = 53] and [emax = 1024];
    - Python [str] is [string]; the character functions ([lower], [\s],
      [\w]) are the ASCII ones, so the extraction model speaks about ASCII
      text;
    - a [dict] whose iteration order is observable (the skill catalog, the
      alias map) is an association list in insertion order; a [dict] used
      as a plain mapping (skill counts, the stored history, the result of
      the trend analysis) is a [gmap];
    - a raised exception is the [Raise] case of [result];
    - the JSON files are part of the environment: a file is absent, holds
      text that [json.load] rejects, or holds a decoded value. *)

From Stdlib Require Import ZArith Bool Ascii String List Lia Sorted Permutation.
From Stdlib Require Import Floats.SpecFloat.
From stdpp Require Import gmap strings list sorting fin_maps fin_sets.

Local Open Scope Z_scope.

(** ** Python basics *)

Module Py.

Inductive exn :=
| FileNotFoundError
| ValueError
| KeyError
| IndexError
| ZeroDivisionError
| OverflowError
| IOError.

Inductive result (A : Type) :=
| Ok (a : A)
| Raise (e : exn).
Global Arguments Ok {A} a.
Global Arguments Raise {A} e.

(** Sequencing: the first exception raised ends the computation. *)
Global Instance result_ret : MRet result := fun A a => Ok a.
Global Instance result_bind : MBind result := fun A B k m =>
  match m with
  | Ok a => k a
  | Raise e => Raise e
  end.

(** Truth value of an [Optional[str]]: [None] and the empty string are
    false. *)
Definition truthy (o : option string) : bool :=
  match o with
  | None => false
  | Some s => negb (String.eqb s "")
  end.

(** The value an [if arg:] test lets through: [None] when the argument
    is [None] or empty. *)
Definition given (o : option string) : option string :=
  if truthy o then o else None.

(** [list.sort] and [sorted] are stable.  [precedes y x] says that [y]
    has to come before [x]; elements that neither precede the other keep
    their input order.  For [key=k] it is [k y < k x], for [key=k,
    reverse=True] it is [k x < k y]. *)
Section Sort.
Context {A : Type} (precedes : A -> A -> bool).

Fixpoint insert_stable (x : A) (l : list A) : list A :=
  match l with
  | [] => [x]
  | y :: l' =>
      if precedes y x then y :: insert_stable x l' else x :: y :: l'
  end.

Definition sort_stable (l : list A) : list A :=
  foldr insert_stable [] l.
End Sort.

(** [seq[i]] with Python's negative indices. *)
Definition index {A : Type} (l : list A) (i : Z) : result A :=
  let n := Z.of_nat (length l) in
  let j := if i <? 0 then i + n else i in
  if (j <? 0) || (n <=? j) then Raise IndexError
  else match l !! Z.to_nat j with
       | Some x => Ok x
       | None => Raise IndexError
       end.

(** [d.get(k, default)] and [d[k] = v] on an insertion-ordered dict. *)
Fixpoint dict_get {V : Type} (k : string) (d : list (string * V)) : option V :=
  match d with
  | [] => None
  | (k', v) :: d' => if String.eqb k' k then Some v else dict_get k d'
  end.

Fixpoint dict_set {V : Type} (k : string) (v : V) (d : list (string * V))
  : list (string * V) :=
  match d with
  | [] => [(k, v)]
  | (k', v') :: d' =>
      if String.eqb k' k then (k', v) :: d' else (k', v') :: dict_set k v d'
  end.

End Py.

(** ** binary64 arithmetic as CPython performs it *)

Module Float64.

Definition prec : Z := 53.
Definition emax : Z := 1024.

Abbreviation float := spec_float.

Definition is_infinite (x : float) : bool :=
  match x with
  | S754_infinity _ => true
  | _ => false
  end.

(** The binary64 value nearest to the rational [a / b] (ties to even),
    for [b <> 0]; an infinity when the quotient is out of range. The
    integers enter [SFdiv] as mantissas with exponent 0, so that the only
    rounding is the one of the quotient. *)
Definition of_ratio (a b : Z) : float :=
  match a, b with
  | _, Z0 => S754_nan
  | Z0, _ => S754_zero (b <? 0)
  | _, _ =>
      SFdiv prec emax
        (S754_finite (a <? 0) (Z.to_pos (Z.abs a)) 0)
        (S754_finite (b <? 0) (Z.to_pos (Z.abs b)) 0)
  end.

(** [a / b] on two [int]s: the correctly rounded quotient. *)
Definition int_true_div (a b : Z) : Py.result float :=
  if b =? 0 then Py.Raise Py.ZeroDivisionError
  else
    let q := of_ratio a b in
    if is_infinite q then Py.Raise Py.OverflowError else Py.Ok q.

(** A decimal literal [d * 10^-k] of the source text. *)
Definition literal (d : Z) (k : nat) : float := of_ratio d (10 ^ Z.of_nat k).

(** [float(n)] for an [int] small enough to be converted. *)
Definition of_int (n : Z) : float := binary_normalize prec emax n 0 false.

Definition mul (x y : float) : float := SFmul prec emax x y.
Definition neg (x : float) : float := SFopp x.

(** [x >= y] and [x <= y]; both are false when an operand is a NaN. *)
Definition ge (x y : float) : bool := SFleb y x.
Definition le (x y : float) : bool := SFleb x y.

(** Nearest integer to [n / d], ties to even, for [0 <= n] and [0 < d]. *)
Definition div_half_even (n d : Z) : Z :=
  let q := n / d in
  let r := n mod d in
  match 2 * r ?= d with
  | Lt => q
  | Gt => q + 1
  | Eq => if Z.even q then q else q + 1
  end.

(** [round(x, ndigits)] for [0 <= ndigits]: the exact value of [x] is
    rounded (ties to even) to a multiple of [10^-ndigits], and the
    decimal obtained is converted back to the nearest double. *)
Definition round (x : float) (ndigits : nat) : Py.result float :=
  match x with
  | S754_finite s m e =>
      let scale := 10 ^ Z.of_nat ndigits in
      let n := match e with
               | Zneg p => div_half_even (scale * Zpos m) (2 ^ Zpos p)
               | _ => scale * Zpos m * 2 ^ e
               end in
      if n =? 0 then Py.Ok (S754_zero s)
      else
        let r := of_ratio (if s then - n else n) scale in
        if is_infinite r then Py.Raise Py.OverflowError else Py.Ok r
  | _ => Py.Ok x
  end.

(** These are evaluated as a whole ([vm_compute]), never step by step. *)
Global Arguments of_ratio : simpl never.
Global Arguments literal : simpl never.
Global Arguments of_int : simpl never.
Global Arguments int_true_div : simpl never.
Global Arguments mul : simpl never.
Global Arguments round : simpl never.
Global Arguments ge : simpl never.
Global Arguments le : simpl never.
Global Arguments neg : simpl never.

End Float64.

(** ** Files holding JSON *)

(** What [open] followed by [json.load] finds at a path. *)
Inductive json_file (A : Type) :=
| Absent                (* no such file *)
| Corrupt               (* the file exists, [json.load] raises JSONDecodeError *)
| Parsed (content : A). (* the decoded value *)
Arguments Absent {A}.
Arguments Corrupt {A}.
Arguments Parsed {A} content.

(** ** trend_engine_service.py *)

Module TrendEngineService.
Import Py.

(** The class attributes, read through [self]. *)
Record attributes := {
  RISING_THRESHOLD : Float64.float;
  DECLINING_THRESHOLD : Float64.float;
  STABLE_THRESHOLD_LOW : Float64.float;
  STABLE_THRESHOLD_HIGH : Float64.float
}.

Definition class_attributes : attributes := {|
  RISING_THRESHOLD := Float64.literal 15 2;
  DECLINING_THRESHOLD := Float64.neg (Float64.literal 15 2);
  STABLE_THRESHOLD_LOW := Float64.neg (Float64.literal 5 2);
  STABLE_THRESHOLD_HIGH := Float64.literal 5 2
|}.

(** One entry of [historical_data.json]. *)
Record snapshot := {
  period : string;
  timestamp : string;
  skill_counts : gmap string Z;
  total_occurrences : Z;
  unique_skills : Z
}.

(** One value of the mapping [analyze_trends] returns. *)
Record trend_record := {
  skill : string;
  current_count : Z;
  previous_count : Z;
  absolute_change : Z;
  percentage_change : Float64.float;
  trend : string
}.

Record summary := {
  rising : list trend_record;
  stable : list trend_record;
  declining : list trend_record
}.

(** [data_dir / 'historical_data.json'], and whether it can be opened for
    writing. *)
Record storage := {
  data_file : json_file (gmap string snapshot);
  writable : bool
}.

Definition _load_historical_data (st : storage) : gmap string snapshot :=
  match data_file st with
  | Absent => ∅
  | Corrupt => ∅
  | Parsed data => data
  end.

Definition _save_historical_data (st : storage) (data : gmap string snapshot)
  : result storage :=
  if writable st
  then Ok {| data_file := Parsed data; writable := writable st |}
  else Raise IOError.

(** [sum(skill_counts.values())] *)
Definition sum_values (skill_counts : gmap string Z) : Z :=
  map_fold (fun _ count acc => acc + count) 0 skill_counts.

(** [today] is [datetime.now().strftime('%Y-%m-%d')] and [stamp] is
    [datetime.now().isoformat()] at the time of the call. *)
Definition save_skill_frequencies (st : storage) (skill_counts : gmap string Z)
    (period : option string) (today stamp : string)
  : result (string * storage) :=
  let period :=
    match given period with
    | Some period => period
    | None => today
    end in
  let data_entry := {|
    period := period;
    timestamp := stamp;
    skill_counts := skill_counts;
    total_occurrences := sum_values skill_counts;
    unique_skills := Z.of_nat (size skill_counts)
  |} in
  let historical_data := _load_historical_data st in
  let historical_data := <[period := data_entry]> historical_data in
  st' ← _save_historical_data st historical_data;
  Ok (period, st').

Definition _classify_trend (self : attributes) (percentage_change : Float64.float)
  : string :=
  if Float64.ge percentage_change (RISING_THRESHOLD self) then "rising"
  else if Float64.le percentage_change (DECLINING_THRESHOLD self) then "declining"
  else "stable".

Definition _classify_all_as_new (skill_counts : gmap string Z)
  : gmap string trend_record :=
  map_fold
    (fun skill count trends =>
       <[skill := {| skill := skill;
                     current_count := count;
                     previous_count := 0;
                     absolute_change := count;
                     percentage_change := Float64.literal 1000 1;
                     trend := "rising" |}]> trends)
    ∅ skill_counts.

(** The [if previous_count == 0: ... else: ...] of the loop body: the
    fraction and the classification, or [None] for [continue]. *)
Definition change_of (self : attributes) (current_count previous_count : Z)
  : result (option (Float64.float * string)) :=
  if previous_count =? 0 then
    if 0 <? current_count
    then Ok (Some (Float64.literal 10 1, "rising"))
    else Ok None
  else
    percentage_change ← Float64.int_true_div (current_count - previous_count) previous_count;
    Ok (Some (percentage_change, _classify_trend self percentage_change)).

(** [for skill in all_skills: ...] *)
Fixpoint trends_loop (self : attributes)
    (current_skill_counts comparison_counts : gmap string Z)
    (all_skills : list string) (trends : gmap string trend_record)
  : result (gmap string trend_record) :=
  match all_skills with
  | [] => Ok trends
  | skill :: rest =>
      let current_count := default 0 (current_skill_counts !! skill) in
      let previous_count := default 0 (comparison_counts !! skill) in
      change ← change_of self current_count previous_count;
      match change with
      | None => trends_loop self current_skill_counts comparison_counts rest trends
      | Some (percentage_change, classification) =>
          let absolute_change := current_count - previous_count in
          rounded ← Float64.round (Float64.mul percentage_change (Float64.of_int 100)) 2;
          trends_loop self current_skill_counts comparison_counts rest
            (<[skill := {| skill := skill;
                           current_count := current_count;
                           previous_count := previous_count;
                           absolute_change := absolute_change;
                           percentage_change := rounded;
                           trend := classification |}]> trends)
      end
  end.

(** [sorted(historical_data.keys(), reverse=True)] *)
Definition sorted_desc (keys : list string) : list string :=
  sort_stable (fun y x => String.ltb x y) keys.

Definition keys (historical_data : gmap string snapshot) : list string :=
  (map_to_list historical_data).*1.

(** The comparison snapshot [analyze_trends] settles on; [None] stands
    for the early [return self._classify_all_as_new(...)].  A stored
    snapshot is a non-empty dict, so [if not comparison_data] only fires
    when the period is not in the history. *)
Definition comparison_counts_of (historical_data : gmap string snapshot)
    (comparison_period : option string) (periods_back : Z)
  : result (option (gmap string Z)) :=
  if decide (historical_data = ∅) then Ok None
  else
    match given comparison_period with
    | Some comparison_period =>
        match historical_data !! comparison_period with
        | None => Ok None
        | Some comparison_data => Ok (Some (skill_counts comparison_data))
        end
    | None =>
        let sorted_periods := sorted_desc (keys historical_data) in
        match sorted_periods with
        | [] => Ok None
        | _ =>
            let target_index :=
              Z.min (periods_back - 1) (Z.of_nat (length sorted_periods) - 1) in
            comparison_period_key ← index sorted_periods target_index;
            match historical_data !! comparison_period_key with
            | None => Raise KeyError
            | Some comparison_data => Ok (Some (skill_counts comparison_data))
            end
        end
    end.

Definition analyze_trends (self : attributes) (st : storage)
    (current_skill_counts : gmap string Z)
    (comparison_period : option string) (periods_back : Z)
  : result (gmap string trend_record) :=
  let historical_data := _load_historical_data st in
  found ← comparison_counts_of historical_data comparison_period periods_back;
  match found with
  | None => Ok (_classify_all_as_new current_skill_counts)
  | Some comparison_counts =>
      let all_skills : gset string :=
        dom current_skill_counts ∪ dom comparison_counts in
      trends_loop self current_skill_counts comparison_counts
        (elements all_skills) ∅
  end.

(** [summary[trend_type].append(skill_data)] *)
Definition summary_append (s : summary) (trend_type : string)
    (skill_data : trend_record) : result summary :=
  if String.eqb trend_type "rising" then
    Ok {| rising := rising s ++ [skill_data];
          stable := stable s; declining := declining s |}
  else if String.eqb trend_type "stable" then
    Ok {| rising := rising s;
          stable := stable s ++ [skill_data]; declining := declining s |}
  else if String.eqb trend_type "declining" then
    Ok {| rising := rising s; stable := stable s;
          declining := declining s ++ [skill_data] |}
  else Raise KeyError.

Fixpoint summary_loop (values : list trend_record) (s : summary)
  : result summary :=
  match values with
  | [] => Ok s
  | skill_data :: rest =>
      s' ← summary_append s (trend skill_data) skill_data;
      summary_loop rest s'
  end.

(** [.sort(key=lambda x: abs(x['absolute_change']), reverse=True)] *)
Definition sort_by_change (l : list trend_record) : list trend_record :=
  sort_stable
    (fun y x => Z.abs (absolute_change x) <? Z.abs (absolute_change y)) l.

(** [values] is [trends.values()], in the insertion order of the dict. *)
Definition get_trend_summary (values : list trend_record) : result summary :=
  s ← summary_loop values {| rising := []; stable := []; declining := [] |};
  Ok {| rising := sort_by_change (rising s);
        stable := sort_by_change (stable s);
        declining := sort_by_change (declining s) |}.

Definition get_historical_periods (st : storage) : list string :=
  sorted_desc (keys (_load_historical_data st)).

Definition clear_historical_data (st : storage) (before_period : option string)
  : result (Z * storage) :=
  let historical_data := _load_historical_data st in
  let '(count, historical_data) :=
    match given before_period with
    | None => (Z.of_nat (size historical_data), (∅ : gmap string snapshot))
    | Some before_period =>
        let periods_to_remove :=
          filter (fun p => String.ltb p before_period = true)
                 (keys historical_data) in
        (Z.of_nat (length periods_to_remove),
         foldl (fun data p => delete p data) historical_data periods_to_remove)
    end in
  st' ← _save_historical_data st historical_data;
  Ok (count, st').

End TrendEngineService.

(** ** skill_extraction_service.py *)

Module SkillExtractionService.
Import Py.

(** *** Text primitives (ASCII) *)

Definition code (c : ascii) : N := N_of_ascii c.

Definition is_upper (c : ascii) : bool := ((65 <=? code c) && (code c <=? 90))%N.
Definition is_lower (c : ascii) : bool := ((97 <=? code c) && (code c <=? 122))%N.
Definition is_digit (c : ascii) : bool := ((48 <=? code c) && (code c <=? 57))%N.

(** [str.lower] on one character. *)
Definition lower_char (c : ascii) : ascii :=
  if is_upper c then ascii_of_N (code c + 32) else c.

(** The characters [\s] matches and [str.strip] removes: TAB, LF, VT, FF,
    CR, the separators FS, GS, RS, US, and the space. *)
Definition is_space (c : ascii) : bool :=
  (((9 <=? code c) && (code c <=? 13))
   || ((28 <=? code c) && (code c <=? 31))
   || (code c =? 32))%N.

(** The characters [\w] matches. *)
Definition is_word (c : ascii) : bool :=
  is_upper c || is_lower c || is_digit c || (code c =? 95)%N.

Definition chars (s : string) : list ascii := list_ascii_of_string s.

Definition lower (s : string) : string :=
  string_of_list_ascii (map lower_char (chars s)).

Fixpoint lstrip (l : list ascii) : list ascii :=
  match l with
  | c :: l' => if is_space c then lstrip l' else l
  | [] => []
  end.

Definition strip (l : list ascii) : list ascii :=
  rev (lstrip (rev (lstrip l))).

(** [re.sub(r'\s+', ' ', _)]: every maximal run of white space becomes one
    space; [in_run] says that the previous character was white space. *)
Fixpoint sub_spaces (in_run : bool) (l : list ascii) : list ascii :=
  match l with
  | [] => []
  | c :: l' =>
      if is_space c
      then (if in_run then sub_spaces true l' else " "%char :: sub_spaces true l')
      else c :: sub_spaces false l'
  end.

(** [re.sub(r'\s+', ' ', input_text.lower().strip())] *)
Definition normalize_text (input_text : string) : list ascii :=
  sub_spaces false (strip (map lower_char (chars input_text))).

(** [\b] between [prev] and [next]; outside the text there is no word
    character. *)
Definition word_boundary (prev next : option ascii) : bool :=
  xorb (from_option is_word false prev) (from_option is_word false next).

(** The escaped variation followed by [\b], matched at the head of
    [text] under [re.IGNORECASE]; [prev] is the character before. *)
Fixpoint match_here (pattern : list ascii) (prev : option ascii)
    (text : list ascii) : bool :=
  match pattern with
  | [] => word_boundary prev (head text)
  | p :: pattern' =>
      match text with
      | [] => false
      | c :: text' =>
          Ascii.eqb (lower_char p) (lower_char c)
            && match_here pattern' (Some c) text'
      end
  end.

(** [re.search(r'\b' + re.escape(variation) + r'\b', text, re.IGNORECASE)]
    is not [None]: every start position is tried, from left to right. *)
Fixpoint search_from (pattern : list ascii) (prev : option ascii)
    (text : list ascii) : bool :=
  (word_boundary prev (head text) && match_here pattern prev text)
  || match text with
     | [] => false
     | c :: text' => search_from pattern (Some c) text'
     end.

Definition re_search_word (variation : string) (text : list ascii) : bool :=
  search_from (chars variation) None text.

(** *** The catalog *)

(** The value of one skill in [skills.json]; either key may be missing. *)
Record skill_metadata := {
  category : option string;
  variations : option (list string)
}.

(** The decoded [skills.json]: an object whose ['skills'] key, when
    present, maps skill names to their metadata (in file order). *)
Record skills_json := {
  skills : option (list (string * skill_metadata))
}.

Inductive log_level := DEBUG | INFO | WARNING | ERROR.

Record service := {
  skills_data : list (string * skill_metadata);
  skill_map : list (string * string)
}.

(** Returns the records logged and the outcome. *)
Definition _load_skills_data (skills_data_file : json_file skills_json)
  : list log_level * result (list (string * skill_metadata)) :=
  match skills_data_file with
  | Absent => ([ERROR], Raise FileNotFoundError)
  | Corrupt => ([ERROR], Raise ValueError)
  | Parsed json_data =>
      let skills_dict := default [] (skills json_data) in
      match skills_dict with
      | [] => ([WARNING], Ok skills_dict)
      | _ => ([], Ok skills_dict)
      end
  end.

(** [for variation in skill_variations: ...] *)
Fixpoint add_variations (normalized_skill_name : string)
    (skill_variations : list string) (map : list (string * string))
  : list (string * string) :=
  match skill_variations with
  | [] => map
  | variation :: rest =>
      add_variations normalized_skill_name rest
        (dict_set (lower variation) normalized_skill_name map)
  end.

(** [for normalized_skill_name, skill_metadata in self.skills_data.items(): ...] *)
Fixpoint build_loop (items : list (string * skill_metadata))
    (map : list (string * string)) : list (string * string) :=
  match items with
  | [] => map
  | (normalized_skill_name, skill_metadata) :: rest =>
      let skill_variations := default [] (variations skill_metadata) in
      let map := dict_set (lower normalized_skill_name) normalized_skill_name map in
      build_loop rest (add_variations normalized_skill_name skill_variations map)
  end.

Definition _build_skill_map (skills_data : list (string * skill_metadata))
  : list (string * string) :=
  build_loop skills_data [].

(** [SkillExtractionService()] *)
Definition __init__ (skills_data_file : json_file skills_json)
  : list log_level * result service :=
  match _load_skills_data skills_data_file with
  | (log, Ok skills_data) =>
      (log ++ [DEBUG; INFO],
       Ok {| skills_data := skills_data;
             skill_map := _build_skill_map skills_data |})
  | (log, Raise e) => (log ++ [ERROR], Raise e)
  end.

(** *** Extraction *)

(** The argument of [extract_skills], which callers do not always make a
    string. *)
Inductive py_value :=
| PyNone
| PyBool (b : bool)
| PyInt (n : Z)
| PyStr (s : string)
| PyBytes (b : list ascii).

Definition truth (v : py_value) : bool :=
  match v with
  | PyNone => false
  | PyBool b => b
  | PyInt n => negb (n =? 0)
  | PyStr s => negb (String.eqb s "")
  | PyBytes b => match b with [] => false | _ => true end
  end.

Definition isinstance_str (v : py_value) : bool :=
  match v with
  | PyStr _ => true
  | _ => false
  end.

Record extracted_skill := {
  skill : string;
  skill_category : string
}.

(** [for skill_variation, normalized_skill_name in sorted_skill_variations: ...] *)
Fixpoint extract_loop (self : service) (normalized_input_text : list ascii)
    (sorted_skill_variations : list (string * string))
    (discovered_skills_set : gset string)
    (extracted_skills_list : list extracted_skill)
  : result (list extracted_skill) :=
  match sorted_skill_variations with
  | [] => Ok extracted_skills_list
  | (skill_variation, normalized_skill_name) :: rest =>
      if decide (normalized_skill_name ∈ discovered_skills_set) then
        extract_loop self normalized_input_text rest
          discovered_skills_set extracted_skills_list
      else if re_search_word skill_variation normalized_input_text then
        match dict_get normalized_skill_name (skills_data self) with
        | None => Raise KeyError
        | Some skill_metadata =>
            let skill_category := default "Unknown" (category skill_metadata) in
            extract_loop self normalized_input_text rest
              ({[normalized_skill_name]} ∪ discovered_skills_set)
              (extracted_skills_list
                 ++ [{| skill := normalized_skill_name;
                        skill_category := skill_category |}])
        end
      else
        extract_loop self normalized_input_text rest
          discovered_skills_set extracted_skills_list
  end.

Definition extract_skills (self : service) (input_text : py_value)
  : result (list extracted_skill) :=
  if negb (truth input_text) || negb (isinstance_str input_text) then Ok []
  else
    match input_text with
    | PyStr input_text =>
        let normalized_input_text := normalize_text input_text in
        let sorted_skill_variations :=
          sort_stable
            (fun y x => (String.length (fst x) <? String.length (fst y))%nat)
            (skill_map self) in
        extracted_skills_list ←
          extract_loop self normalized_input_text sorted_skill_variations ∅ [];
        Ok (sort_stable (fun y x => String.ltb (skill y) (skill x))
                        extracted_skills_list)
    | _ => Ok []
    end.

End SkillExtractionService.

(** ** skill_extraction_service.py: the lookups *)

Module SkillLookup.
Import Py SkillExtractionService.

(** [skill.lower().strip()] *)
Definition lower_strip (skill : string) : string :=
  string_of_list_ascii (strip (chars (lower skill))).

(** [normalize_skill]: the argument comes back unchanged unless it is a
    non-empty string whose lowercased, stripped form is a key of the alias
    map with a non-empty value. *)
Definition normalize_skill (self : service) (skill : py_value) : py_value :=
  if negb (truth skill) || negb (isinstance_str skill) then skill
  else
    match skill with
    | PyStr s =>
        let normalized := dict_get (lower_strip s) (skill_map self) in
        match normalized with
        | Some n => if truthy (Some n) then PyStr n else skill
        | None => skill
        end
    | _ => skill
    end.

(** [sorted(list(self.skills_data.keys()))] *)
Definition get_all_skills (self : service) : list string :=
  sort_stable (fun y x => String.ltb y x) (map fst (skills_data self)).

End SkillLookup.

(** ** More of Python: [str] methods, slices, [Counter] *)

Module Builtins.
Import Py SkillExtractionService.

(** [needle in hay] on two [str]. *)
Fixpoint contains (needle hay : string) : bool :=
  String.prefix needle hay
  || match hay with
     | EmptyString => false
     | String _ hay' => contains needle hay'
     end.

(** [text.split()]: the maximal runs of characters that are not white
    space; [word] holds the run being read, last character first. *)
Fixpoint split_loop (word : list ascii) (text : list ascii) : list string :=
  match text with
  | [] =>
      match word with
      | [] => []
      | _ => [string_of_list_ascii (rev word)]
      end
  | c :: text' =>
      if is_space c then
        match word with
        | [] => split_loop [] text'
        | _ => string_of_list_ascii (rev word) :: split_loop [] text'
        end
      else split_loop (c :: word) text'
  end.

Definition split (text : string) : list string := split_loop [] (chars text).

(** [sep.join(parts)] *)
Definition join (sep : string) (parts : list string) : string :=
  String.concat sep parts.

(** A literal that spans several lines, line by line. *)
Definition text (lines : list string) : string :=
  join (String (ascii_of_N 10) EmptyString) lines.

(** [seq[:stop]] *)
Definition slice_to {A : Type} (seq : list A) (stop : Z) : list A :=
  if stop <? 0 then take (length seq - Z.to_nat (- stop)) seq
  else take (Z.to_nat stop) seq.

(** [Counter(elements)]: each element with the number of its occurrences,
    in the order of the first occurrences. *)
Definition Counter (elements : list string) : list (string * Z) :=
  foldl (fun counts x => dict_set x (default 0 (dict_get x counts) + 1) counts)
        [] elements.

(** [dict(pairs)] *)
Definition dict {V : Type} (pairs : list (string * V)) : list (string * V) :=
  foldl (fun d pair => dict_set (fst pair) (snd pair) d) [] pairs.

(** [dict(sorted(skill_counts.items(), key=lambda x: x[1], reverse=True))] *)
Definition sorted_by_count (skill_counts : list (string * Z))
  : list (string * Z) :=
  dict (sort_stable (fun y x => snd x <? snd y) skill_counts).

End Builtins.

(** ** job_posting_service.py *)

Module JobPostingIngestionService.
Import Py SkillExtractionService Builtins.

Record job_posting_service := {
  skill_extractor : service
}.

Definition extract_skills_from_job_description (self : job_posting_service)
    (job_description : py_value) : result (list extracted_skill) :=
  if negb (truth job_description) || negb (isinstance_str job_description)
  then Ok []
  else extract_skills (skill_extractor self) job_description.

(** [for job_description in job_descriptions: ...] *)
Fixpoint aggregate_loop (self : job_posting_service)
    (job_descriptions : list py_value) (all_skills : list string)
  : result (list string) :=
  match job_descriptions with
  | [] => Ok all_skills
  | job_description :: rest =>
      if negb (truth job_description) || negb (isinstance_str job_description)
      then aggregate_loop self rest all_skills
      else
        extracted_skills ←
          extract_skills_from_job_description self job_description;
        let skill_names := map skill extracted_skills in
        aggregate_loop self rest (all_skills ++ skill_names)
  end.

Definition aggregate_skill_counts (self : job_posting_service)
    (job_descriptions : list py_value) : result (list (string * Z)) :=
  all_skills ← aggregate_loop self job_descriptions [];
  let skill_counts := Counter all_skills in
  Ok (sorted_by_count skill_counts).

Definition mock_jobs : list string :=
  [
    text [
      "Backend Engineer - FinTech Startup";
      "";
      "We are seeking an experienced Backend Engineer to join our growing FinTech team. ";
      "You will be responsible for building scalable backend services using Python and FastAPI.";
      "";
      "Requirements:";
      "- 3+ years of experience with Python";
      "- Strong knowledge of REST API design";
      "- Experience with PostgreSQL databases";
      "- Familiarity with Docker and containerization";
      "- Understanding of microservices architecture";
      "- Knowledge of CI/CD pipelines";
      "- Experience with cloud platforms (AWS preferred)";
      "";
      "Nice to have:";
      "- Experience with Redis for caching";
      "- GraphQL API development";
      "- Experience in the financial services industry" ];

    text [
      "Senior Full Stack Developer - E-commerce Platform";
      "";
      "Join our dynamic team building the next-generation e-commerce platform. ";
      "We're looking for a Full Stack Developer with expertise in modern web technologies.";
      "";
      "Required Skills:";
      "- JavaScript and TypeScript";
      "- React.js for frontend development";
      "- Node.js and Express.js for backend";
      "- PostgreSQL database experience";
      "- REST API development";
      "- Git version control";
      "";
      "Additional Skills:";
      "- Next.js framework experience";
      "- Docker and Kubernetes";
      "- AWS cloud services";
      "- HTML and CSS expertise";
      "- Experience with Tailwind CSS" ];

    text [
      "Backend Developer - Cloud Services";
      "";
      "We're hiring a Backend Developer to build robust cloud-based solutions. ";
      "You'll work on distributed systems and API services.";
      "";
      "Technical Requirements:";
      "- Java programming experience";
      "- Spring Boot framework";
      "- Microservices architecture";
      "- Docker containerization";
      "- Kubernetes orchestration";
      "- REST API design";
      "- Database design with MySQL or PostgreSQL";
      "- Git and version control";
      "";
      "Bonus:";
      "- AWS or Azure cloud experience";
      "- CI/CD implementation experience";
      "- GraphQL knowledge" ];

    text [
      "Frontend Engineer - SaaS Product";
      "";
      "Looking for a Frontend Engineer to help build beautiful, responsive user interfaces ";
      "for our SaaS platform.";
      "";
      "Required:";
      "- React.js and TypeScript";
      "- HTML5 and CSS3";
      "- Next.js framework";
      "- JavaScript (ES6+)";
      "- REST API integration";
      "- Git workflow";
      "";
      "Preferred:";
      "- Tailwind CSS or SASS";
      "- Vue.js experience";
      "- GraphQL client experience";
      "- Docker basics" ];

    text [
      "DevOps Engineer - Infrastructure Team";
      "";
      "We need a DevOps Engineer to help maintain and scale our infrastructure.";
      "";
      "Must Have:";
      "- Docker containerization";
      "- Kubernetes experience";
      "- CI/CD pipeline setup";
      "- AWS cloud platform";
      "- Git version control";
      "- Linux system administration";
      "";
      "Nice to Have:";
      "- Azure or GCP experience";
      "- Microservices deployment experience";
      "- Infrastructure as Code (IaC)";
      "- Monitoring and observability tools" ];

    text [
      "Python Developer - Data Platform";
      "";
      "Join our data platform team building scalable data processing systems.";
      "";
      "Requirements:";
      "- Python programming (Python 3.x)";
      "- PostgreSQL database";
      "- REST API development";
      "- Docker containerization";
      "- Git version control";
      "- API design and development";
      "";
      "Additional:";
      "- FastAPI or Flask framework";
      "- Redis caching";
      "- AWS services";
      "- Microservices architecture" ];

    text [
      "Node.js Developer - Real-time Applications";
      "";
      "We're building real-time communication features and need a skilled Node.js developer.";
      "";
      "Technical Skills:";
      "- Node.js runtime";
      "- Express.js framework";
      "- JavaScript and TypeScript";
      "- REST API and GraphQL";
      "- PostgreSQL or MongoDB";
      "- Docker containers";
      "- Git workflow";
      "";
      "Preferred:";
      "- Microservices experience";
      "- Redis caching";
      "- AWS cloud services";
      "- CI/CD pipelines" ];

    text [
      "React Developer - Financial Dashboard";
      "";
      "Build beautiful financial dashboards and data visualization tools.";
      "";
      "Required Skills:";
      "- React.js framework";
      "- TypeScript";
      "- JavaScript";
      "- HTML and CSS";
      "- REST API integration";
      "- Git version control";
      "";
      "Additional:";
      "- Next.js experience";
      "- Tailwind CSS";
      "- PostgreSQL knowledge";
      "- Docker basics" ];

    text [
      "Java Backend Developer - Enterprise Software";
      "";
      "Develop robust enterprise-grade backend services using Java.";
      "";
      "Must Have:";
      "- Java programming (Java 8+)";
      "- Spring Boot framework";
      "- REST API development";
      "- PostgreSQL or MySQL";
      "- Docker and Kubernetes";
      "- Git version control";
      "- Microservices architecture";
      "";
      "Preferred:";
      "- AWS cloud experience";
      "- CI/CD experience";
      "- API gateway experience";
      "- GraphQL knowledge" ];

    text [
      "Full Stack Engineer - Startup";
      "";
      "Fast-growing startup seeking a Full Stack Engineer to build our core product.";
      "";
      "Tech Stack:";
      "- JavaScript and TypeScript";
      "- React.js frontend";
      "- Node.js backend";
      "- Express.js framework";
      "- PostgreSQL database";
      "- Docker containers";
      "- AWS cloud platform";
      "- Git version control";
      "";
      "Additional:";
      "- Next.js framework";
      "- REST API design";
      "- CI/CD pipelines";
      "- Microservices architecture" ]
  ].

(** [role], [industry]: [None] when the argument is omitted. *)
Definition get_mock_job_descriptions (role industry : option string)
    (count : Z) : list string :=
  let filtered_jobs :=
    match given role with
    | Some role =>
        let role_lower := lower role in
        if contains "backend" role_lower || contains "engineer" role_lower then
          List.filter (fun job => contains "backend" (lower job)
                                  || contains "engineer" (lower job)) mock_jobs
        else if contains "frontend" role_lower then
          List.filter (fun job => contains "frontend" (lower job)) mock_jobs
        else if contains "full" role_lower || contains "stack" role_lower then
          List.filter (fun job => contains "full" (lower job)
                                  || contains "stack" (lower job)) mock_jobs
        else if contains "devops" role_lower then
          List.filter (fun job => contains "devops" (lower job)) mock_jobs
        else mock_jobs
    | None => mock_jobs
    end in
  let filtered_jobs :=
    match given industry with
    | Some industry =>
        let industry_lower := lower industry in
        if contains "fintech" industry_lower || contains "finance" industry_lower
        then
          List.filter (fun job => contains "fintech" (lower job)
                                  || contains "financial" (lower job))
                      filtered_jobs
        else filtered_jobs
    | None => filtered_jobs
    end in
  let filtered_jobs :=
    match filtered_jobs with
    | [] => mock_jobs
    | _ => filtered_jobs
    end in
  slice_to filtered_jobs count.

End JobPostingIngestionService.

(** ** github_ingestion_service.py *)

Module GitHubIngestionService.
Import Py SkillExtractionService Builtins.

Record github_ingestion_service := {
  skill_extractor : service
}.

(** One repository of a search result.  A key that is missing from the
    dict is read with [repo.get] only, where it counts like an empty
    value: it is the empty string, or the empty list, here. *)
Record repository := {
  name : string;
  full_name : string;
  description : string;
  language : string;
  topics : list string;
  stars : Z;
  forks : Z
}.

Record search_results := {
  total_count : Z;
  incomplete_results : bool;
  items : list repository
}.

Definition stop_words : list string :=
  ["the"; "a"; "an"; "and"; "or"; "but"; "in"; "on"; "at"; "to"; "for";
   "of"; "with"; "by"].

Definition _extract_keywords (text : string) : list string :=
  if String.eqb text "" then []
  else
    let words := split (lower text) in
    List.filter
      (fun w => (2 <? String.length w)%nat
                && negb (existsb (String.eqb w) stop_words))
      words.

Definition _build_search_query (role industry : string) : string :=
  let role_keywords := _extract_keywords role in
  let industry_keywords := _extract_keywords industry in
  let query_parts := [] in
  let query_parts :=
    match industry_keywords with
    | [] => query_parts
    | _ =>
        query_parts
        ++ map (fun keyword => ("topic:" ++ lower keyword)%string)
               (slice_to industry_keywords 2)
    end in
  let query_parts :=
    match role_keywords with
    | [] => query_parts
    | _ =>
        let role_query := join " OR " (slice_to role_keywords 3) in
        query_parts ++ [("(" ++ role_query ++ ")")%string]
    end in
  match query_parts with
  | [] => "stars:>100"%string
  | _ => join " " query_parts
  end.

Definition base_repos : list repository :=
  [ {| name := "fintech-backend-api";
       full_name := "company/fintech-backend-api";
       description := "Backend API for financial services built with Python, FastAPI, and PostgreSQL";
       language := "Python";
       topics := ["fintech"; "api"; "python"; "fastapi"; "postgresql"; "backend"];
       stars := 450;
       forks := 120 |};
    {| name := "payment-processing-service";
       full_name := "fintech/payment-processing-service";
       description := "Microservices architecture with Node.js, Express.js, and Redis for payment processing";
       language := "JavaScript";
       topics := ["microservices"; "nodejs"; "express"; "redis"; "payments"; "fintech"];
       stars := 320;
       forks := 85 |};
    {| name := "react-fintech-dashboard";
       full_name := "fintech/react-dashboard";
       description := "Financial dashboard built with React, TypeScript, and Tailwind CSS";
       language := "TypeScript";
       topics := ["react"; "typescript"; "frontend"; "dashboard"; "fintech"];
       stars := 280;
       forks := 65 |};
    {| name := "backend-engineer-toolkit";
       full_name := "opensource/backend-toolkit";
       description := "Collection of backend tools and utilities using Python, Flask, Docker, and AWS";
       language := "Python";
       topics := ["backend"; "python"; "flask"; "docker"; "aws"; "devops"];
       stars := 210;
       forks := 45 |};
    {| name := "api-gateway-service";
       full_name := "company/api-gateway";
       description := "REST API gateway implementation with Java, Spring Boot, and Kubernetes";
       language := "Java";
       topics := ["java"; "spring"; "kubernetes"; "api-gateway"; "microservices"];
       stars := 180;
       forks := 38 |};
    {| name := "nextjs-finance-app";
       full_name := "fintech/nextjs-app";
       description := "Modern finance application with Next.js, React, and PostgreSQL";
       language := "TypeScript";
       topics := ["nextjs"; "react"; "typescript"; "postgresql"; "finance"];
       stars := 150;
       forks := 32 |};
    {| name := "backend-cache-layer";
       full_name := "backend/cache-service";
       description := "Distributed caching solution using Redis, Docker, and CI/CD pipelines";
       language := "Python";
       topics := ["redis"; "docker"; "cicd"; "backend"; "caching"];
       stars := 125;
       forks := 28 |};
    {| name := "graphql-api-server";
       full_name := "api/graphql-server";
       description := "GraphQL API server built with Node.js, Express.js, and MongoDB";
       language := "JavaScript";
       topics := ["graphql"; "nodejs"; "express"; "mongodb"; "api"];
       stars := 110;
       forks := 25 |} ].

(** [any(keyword in r['description'].lower() or keyword in ' '.join(r['topics'])
        for keyword in keywords)] *)
Definition mentions_any (keywords : list string) (r : repository) : bool :=
  existsb (fun keyword => contains keyword (lower (description r))
                          || contains keyword (join " " (topics r)))
          keywords.

Definition _get_mock_repositories (role industry : string) (count : Z)
  : search_results :=
  let role_lower := lower role in
  let industry_lower := lower industry in
  let selected :=
    if contains "backend" role_lower || contains "engineer" role_lower then
      List.filter (mentions_any ["backend"; "api"; "service"; "server"])
                  base_repos
    else if contains "frontend" role_lower then
      List.filter (mentions_any ["react"; "frontend"; "dashboard"; "ui"])
                  base_repos
    else base_repos in
  let selected :=
    if contains "fintech" industry_lower || contains "finance" industry_lower
    then
      let fintech_repos :=
        List.filter (fun r => contains "fintech" (lower (description r))
                              || contains "fintech" (join " " (topics r)))
                    base_repos in
      match fintech_repos with
      | [] => selected
      | _ => fintech_repos
      end
    else selected in
  let mock_repos :=
    match selected with
    | [] => slice_to base_repos count
    | _ => slice_to selected count
    end in
  {| total_count := Z.of_nat (length mock_repos);
     incomplete_results := false;
     items := mock_repos |}.

(** [USE_MOCK_DATA] is [True]: the request to the GitHub API is never
    made. *)
Definition search_repositories (self : github_ingestion_service)
    (role industry : string) (max_results : Z) : search_results :=
  _get_mock_repositories role industry max_results.

Definition _extract_skills_from_repo (self : github_ingestion_service)
    (repo : repository) : result (list string) :=
  let text_sources := [] in
  let text_sources :=
    if truthy (Some (name repo)) then text_sources ++ [name repo]
    else text_sources in
  let text_sources :=
    if truthy (Some (description repo)) then text_sources ++ [description repo]
    else text_sources in
  let text_sources :=
    if truthy (Some (language repo)) then text_sources ++ [language repo]
    else text_sources in
  let text_sources :=
    match topics repo with
    | [] => text_sources
    | _ => text_sources ++ topics repo
    end in
  let text_sources :=
    if truthy (Some (full_name repo)) then text_sources ++ [full_name repo]
    else text_sources in
  let combined_text := join " " text_sources in
  if truthy (Some combined_text) then
    extracted ← extract_skills (skill_extractor self) (PyStr combined_text);
    Ok (map skill extracted)
  else Ok [].

(** [for repo in repositories: ...] *)
Fixpoint repos_loop (self : github_ingestion_service)
    (repositories : list repository) (all_skills : list string)
  : result (list string) :=
  match repositories with
  | [] => Ok all_skills
  | repo :: rest =>
      repo_skills ← _extract_skills_from_repo self repo;
      repos_loop self rest (all_skills ++ repo_skills)
  end.

Definition extract_skills_from_repos (self : github_ingestion_service)
    (role industry : string) (max_repos : Z) : result (list (string * Z)) :=
  let search_results := search_repositories self role industry max_repos in
  let repositories := items search_results in
  all_skills ← repos_loop self repositories [];
  let skill_counts := Counter all_skills in
  Ok (sorted_by_count skill_counts).

End GitHubIngestionService.

(** ** analysis_service.py *)

Module AnalysisService.
Import Py SkillExtractionService Builtins.

Record response := {
  top_skills : list string;
  trending_skills : list string;
  recommended_skills : list string;
  role_recognized : bool;
  message : option string
}.

Definition known_patterns : list string :=
  ["backend"; "engineer"; "frontend"; "ui"; "full"; "stack";
   "data scientist"; "data engineer"; "devops"; "qa"; "tester";
   "product manager"; "designer"; "architect"].

Definition _is_role_recognized (role_category : string) : bool :=
  let role_keywords := lower role_category in
  existsb (fun pattern => contains pattern role_keywords) known_patterns.

Definition _get_top_skills (role_category industry_category : string)
  : list string :=
  let role_keywords := lower role_category in
  let industry_keywords := lower industry_category in
  if contains "backend" role_keywords
     || (contains "engineer" role_keywords
         && negb (contains "frontend" role_keywords)) then
    let base_skills :=
      ["Python"; "JavaScript"; "Java"; "API Development"; "Database Design"] in
    let base_skills :=
      if contains "fintech" industry_keywords
         || contains "finance" industry_keywords
      then base_skills
           ++ ["Security Best Practices"; "Financial APIs"; "Compliance"]
      else base_skills in
    slice_to base_skills 5
  else if contains "frontend" role_keywords || contains "ui" role_keywords then
    ["React"; "TypeScript"; "CSS"; "JavaScript"; "Next.js"]
  else if contains "full" role_keywords || contains "stack" role_keywords then
    ["Node.js"; "React"; "Python"; "PostgreSQL"; "Docker"]
  else if contains "data" role_keywords
          && (contains "scientist" role_keywords
              || contains "analyst" role_keywords) then
    ["Python"; "SQL"; "Machine Learning"; "Data Visualization"; "Statistics"]
  else if contains "devops" role_keywords || contains "sre" role_keywords then
    ["Docker"; "Kubernetes"; "CI/CD"; "Cloud Platforms"; "Monitoring"]
  else if contains "qa" role_keywords || contains "tester" role_keywords
          || contains "test" role_keywords then
    ["Test Automation"; "Quality Assurance"; "Selenium"; "API Testing";
     "Bug Tracking"]
  else ["Python"; "SQL"; "Git"; "Problem Solving"; "Communication"].

Definition _get_trending_skills
    (role_category industry_category region_category : string)
  : list string :=
  let trending_skills := [] in
  let trending_skills :=
    trending_skills ++ ["AI/ML Integration"; "Cloud Architecture"; "DevOps"] in
  let industry_keywords := lower industry_category in
  let trending_skills :=
    if contains "fintech" industry_keywords
       || contains "finance" industry_keywords
    then trending_skills ++ ["Blockchain Basics"; "RegTech"]
    else trending_skills in
  let role_keywords := lower role_category in
  let trending_skills :=
    if contains "backend" role_keywords || contains "engineer" role_keywords
    then trending_skills ++ ["Microservices"; "Container Orchestration"]
    else trending_skills in
  let region_keywords := lower region_category in
  let trending_skills :=
    if contains "global" region_keywords
    then trending_skills ++ ["Remote Collaboration Tools"]
    else trending_skills in
  slice_to trending_skills 5.

Definition _get_recommended_skills (role_category industry_category : string)
  : list string :=
  let recommended_skills := [] in
  let role_keywords := lower role_category in
  let industry_keywords := lower industry_category in
  let recommended_skills :=
    if contains "backend" role_keywords || contains "engineer" role_keywords
    then
      let recommended_skills :=
        recommended_skills
        ++ ["System Design"; "Performance Optimization"; "Testing Frameworks"] in
      let recommended_skills :=
        if contains "fintech" industry_keywords
           || contains "finance" industry_keywords
        then recommended_skills ++ ["Financial Regulations"; "Payment Systems"]
        else recommended_skills in
      recommended_skills ++ ["CI/CD"; "Monitoring & Observability"]
    else
      recommended_skills
      ++ ["Agile Methodologies"; "Code Review Practices"; "Documentation"] in
  slice_to recommended_skills 5.

Definition analyze_skills
    (role_category industry_category region_category : string) : response :=
  let role_recognized := _is_role_recognized role_category in
  let top_skills := _get_top_skills role_category industry_category in
  let trending_skills :=
    _get_trending_skills role_category industry_category region_category in
  let recommended_skills :=
    _get_recommended_skills role_category industry_category in
  {| top_skills := top_skills;
     trending_skills := trending_skills;
     recommended_skills := recommended_skills;
     role_recognized := role_recognized;
     message :=
       if negb role_recognized then
         Some ("The role '" ++ role_category
               ++ "' doesn't match our known patterns. Showing generic skills. Try roles like 'Backend Engineer', 'Frontend Developer', or 'Full Stack Developer' for more specific results.")%string
       else None |}.

End AnalysisService.

(** ** routes/helpers.py

    As elsewhere, the text is ASCII: [str.strip] removes the ASCII white
    space. *)

Module Helpers.
Import Py SkillExtractionService Builtins.



(** [isinstance(value, int)]: a [bool] is an [int]. *)
Definition int_value (value : py_value) : option Z :=
  match value with
  | PyInt n => Some n
  | PyBool b => Some (if b then 1 else 0)
  | _ => None
  end.

(** Returns [value] itself, or [default]. *)
Definition _validate_positive_integer (value : py_value)
    (default min_value max_value : Z) : py_value :=
  match int_value value with
  | None => PyInt default
  | Some n =>
      if (n <? min_value) || (max_value <? n) then PyInt default else value
  end.

End Helpers.

(** * Vocabulary of the statements *)

(** [may_precede precedes a b]: the order does not force [b] before [a]. *)
Definition may_precede {A : Type} (precedes : A -> A -> bool) (a b : A) : Prop :=
  precedes b a = false.

(** [sized k j x]: [x] is a zero, or a finite number whose significand
    and exponent satisfy [digits m + e <= k] (so [|x| < 2^k]) and
    [e <= j]. *)
Definition sized (k j : Z) (x : spec_float) : Prop :=
  match x with
  | S754_zero _ => True
  | S754_finite _ m e => Zpos (digits2_pos m) + e <= k /\ e <= j
  | _ => False
  end.

Section TrendVocabulary.
Import TrendEngineService.

(** The record carries one of the three classifications. *)
Definition classified (r : trend_record) : Prop :=
  trend r = "rising" \/ trend r = "stable" \/ trend r = "declining".

Definition has_trend (t : string) (r : trend_record) : Prop := trend r = t.

Global Instance has_trend_dec (t : string) (r : trend_record)
  : Decision (has_trend t r) := decide (trend r = t).

(** Descending absolute value of [absolute_change]. *)
Definition change_desc (a b : trend_record) : Prop :=
  Z.abs (absolute_change b) <= Z.abs (absolute_change a).

Definition sample_record (name : string) (change : Z) (t : string)
  : trend_record :=
  {| skill := name; current_count := 10 + change; previous_count := 10;
     absolute_change := change;
     percentage_change := Float64.of_int (10 * change); trend := t |}.

Definition sample_values : list trend_record :=
  [ sample_record "go" 2 "rising"; sample_record "perl" (-7) "declining";
    sample_record "rust" 9 "rising"; sample_record "java" 1 "stable";
    sample_record "cobol" (-3) "declining" ].

(** The period id [save_skill_frequencies] files the snapshot under. *)
Definition period_used (period : option string) (today : string) : string :=
  default today (Py.given period).

(** The entry it builds. *)
Definition entry_of (skill_counts : gmap string Z) (p stamp : string)
  : snapshot :=
  {| period := p; timestamp := stamp; skill_counts := skill_counts;
     total_occurrences := sum_values skill_counts;
     unique_skills := Z.of_nat (size skill_counts) |}.

Definition fresh_store : storage := {| data_file := Absent; writable := true |}.

Definition january_counts : gmap string Z :=
  {[ "Python" := 12; "Rust" := 3; "Docker" := 7 ]}.

Definition two_periods : storage :=
  {| data_file :=
       Parsed {[ "2024-01-09" := entry_of january_counts "2024-01-09" "t1";
                 "2024-01-10" := entry_of january_counts "2024-01-10" "t2";
                 "2024-01-11" := entry_of january_counts "2024-01-11" "t3" ]};
     writable := true |}.

(** The record the loop body files for one skill, [None] when it
    [continue]s. *)
Definition record_of (self : attributes) (name : string)
    (current_count previous_count : Z) : Py.result (option trend_record) :=
  change ← change_of self current_count previous_count;
  match change with
  | None => Py.Ok None
  | Some (percentage_change, classification) =>
      rounded ← Float64.round
                  (Float64.mul percentage_change (Float64.of_int 100)) 2;
      Py.Ok (Some {| skill := name;
                     current_count := current_count;
                     previous_count := previous_count;
                     absolute_change := current_count - previous_count;
                     percentage_change := rounded;
                     trend := classification |})
  end.

Definition file_record (name : string) (r : option trend_record)
    (trends : gmap string trend_record) : gmap string trend_record :=
  match r with
  | Some x => <[name := x]> trends
  | None => trends
  end.

(** What [_classify_all_as_new] files for a skill. *)
Definition new_record (name : string) (count : Z) : trend_record :=
  {| skill := name; current_count := count; previous_count := 0;
     absolute_change := count;
     percentage_change := Float64.of_int 100; trend := "rising" |}.

(** The service object with the class's rising and declining thresholds
    and an arbitrary stable band. *)
Definition with_stable_band (low high : Float64.float) : attributes :=
  {| RISING_THRESHOLD := Float64.literal 15 2;
     DECLINING_THRESHOLD := Float64.neg (Float64.literal 15 2);
     STABLE_THRESHOLD_LOW := low;
     STABLE_THRESHOLD_HIGH := high |}.

(** A store with one snapshot, and counts to compare with it. *)
Definition winter_counts : gmap string Z :=
  {[ "Python" := 100; "Go" := 100; "Rust" := 20 ]}.

Definition winter_store : storage :=
  {| data_file :=
       Parsed {[ "2024-01-15" := entry_of winter_counts "2024-01-15" "t" ]};
     writable := true |}.

Definition spring_counts : gmap string Z :=
  {[ "Python" := 115; "Go" := 85; "Rust" := 18; "Zig" := 5; "Cobol" := 0 ]}.

End TrendVocabulary.

Section ExtractionVocabulary.
Import SkillExtractionService.

Definition names (l : list extracted_skill) : list string := skill <$> l.

(** A service whose alias map only names skills of its catalog; the
    constructor builds such services. *)
Definition well_formed (self : service) : Prop :=
  forall a n, (a, n) ∈ skill_map self ->
              is_Some (Py.dict_get n (skills_data self)).

(** Ascending order of [str] on the skill names. *)
Definition by_name (a b : extracted_skill) : Prop :=
  String.leb (skill a) (skill b) = true.

Definition sort_by_name (l : list extracted_skill) : list extracted_skill :=
  Py.sort_stable (fun y x => String.ltb (skill y) (skill x)) l.

(** A catalog in which "Node" and "Node.js" are two skills. *)
Definition node_catalog : skills_json :=
  {| skills := Some
       [ ("Node.js", {| category := Some "Runtime";
                        variations := Some ["nodejs"] |});
         ("Node", {| category := Some "Data Structures";
                     variations := None |});
         ("Python", {| category := Some "Programming Language";
                       variations := Some ["py"; "python3"] |}) ] |}.

Definition node_service : service :=
  {| skills_data := default [] (skills node_catalog);
     skill_map := _build_skill_map (default [] (skills node_catalog)) |}.

Definition raises {A : Type} (r : Py.result A) : Prop :=
  exists e, r = Py.Raise e.

(** The decoded [{"skills": {}}] and [{}]. *)
Definition empty_skills : skills_json := {| skills := Some [] |}.
Definition no_skills_key : skills_json := {| skills := None |}.

Definition empty_service : service := {| skills_data := []; skill_map := [] |}.

End ExtractionVocabulary.

Section TrendVocabulary2.
Import TrendEngineService.

(** Descending order of [str], strictly. *)
Definition newer_first (a b : string) : Prop := String.ltb b a = true.

(** [key] is a stored period id and no stored id is above it, resp.
    below it, in the order of [str]. *)
Definition most_recent (h : gmap string snapshot) (key : string) : Prop :=
  is_Some (h !! key)
  /\ forall q, is_Some (h !! q) -> String.leb q key = true.

Definition oldest (h : gmap string snapshot) (key : string) : Prop :=
  is_Some (h !! key)
  /\ forall q, is_Some (h !! q) -> String.leb key q = true.

(** The record of a skill whose count [c] is compared with itself. *)
Definition unchanged_record (name : string) (c : Z) : trend_record :=
  {| skill := name; current_count := c; previous_count := c;
     absolute_change := 0;
     percentage_change := S754_zero (c <? 0); trend := "stable" |}.

End TrendVocabulary2.

Section ExtractionVocabulary2.
Import SkillExtractionService.

(** The writes [_build_skill_map] performs, in order: for each skill of
    the catalog its lowercased name, then its lowercased variations. *)
Definition alias_entries (skills_data : list (string * skill_metadata))
  : list (string * string) :=
  flat_map
    (fun item =>
       (lower (fst item), fst item)
       :: map (fun variation => (lower variation, fst item))
              (default [] (variations (snd item))))
    skills_data.

(** One write [map[key] = name] of [_build_skill_map]. *)
Definition write (map : list (string * string)) (entry : string * string)
  : list (string * string) :=
  Py.dict_set (fst entry) (snd entry) map.

(** [key] is the lowercased name, or a lowercased variation, of the skill
    [name] of the catalog. *)
Definition alias_of (skills_data : list (string * skill_metadata))
    (key name : string) : Prop :=
  exists meta alias,
    (name, meta) ∈ skills_data
    /\ alias ∈ name :: default [] (variations meta)
    /\ key = lower alias.

(** No skill of [later] has [alias], whatever the case of the letters. *)
Definition unclaimed (later : list (string * skill_metadata)) (alias : string)
  : Prop :=
  forall name meta alias',
    (name, meta) ∈ later ->
    alias' ∈ name :: default [] (variations meta) ->
    lower alias' <> lower alias.

(** The text has only white space. *)
Definition blank (s : string) : Prop :=
  Forall (fun c => is_space c = true) (chars s).

(** Ascending order of [str], strictly. *)
Definition ascending (a b : string) : Prop := String.ltb a b = true.

End ExtractionVocabulary2.

Section IngestionVocabulary.
Import SkillExtractionService.

(** How often [n] occurs in [l]. *)
Definition occurrences (n : string) (l : list string) : Z :=
  Z.of_nat (length (List.filter (String.eqb n) l)).

(** Descending order of the counts. *)
Definition by_count_desc (a b : string * Z) : Prop := snd b <= snd a.

(** The extraction from the job description returns a list with the
    skill [n]. *)
Definition job_mentions (self : JobPostingIngestionService.job_posting_service)
    (n : string) (job_description : py_value) : bool :=
  match JobPostingIngestionService.extract_skills_from_job_description
          self job_description with
  | Py.Ok l => bool_decide (n ∈ names l)
  | Py.Raise _ => false
  end.

(** The extraction from the texts of the repository returns a list with
    the skill [n]. *)
Definition repo_mentions (self : GitHubIngestionService.github_ingestion_service)
    (n : string) (repo : GitHubIngestionService.repository) : bool :=
  match GitHubIngestionService._extract_skills_from_repo self repo with
  | Py.Ok l => bool_decide (n ∈ l)
  | Py.Raise _ => false
  end.

(** The industry is a financial one for the mock data. *)
Definition financial (industry : string) : bool :=
  Builtins.contains "fintech" (lower industry)
  || Builtins.contains "finance" (lower industry).

(** The role is a backend or engineering one for the mock data. *)
Definition engineering (role : string) : bool :=
  Builtins.contains "backend" (lower role)
  || Builtins.contains "engineer" (lower role).

End IngestionVocabulary.

(** * Properties *)

(** ** Exceptions and sequencing *)

Section ResultFacts.
Context {A B : Type}.

Lemma bind_Ok (m : Py.result A) (k : A -> Py.result B) (b : B) :
  m ≫= k = Py.Ok b <-> exists a, m = Py.Ok a /\ k a = Py.Ok b.
Proof.
  destruct m as [a|e]; simpl; split.
  - intros H. exists a. auto.
  - intros (a' & Ha & Hk). congruence.
  - discriminate.
  - intros (a' & Ha & _). discriminate.
Qed.

Lemma given_Some (o : option string) (s : string) :
  Py.given o = Some s <-> o = Some s /\ s <> "".
Proof.
  unfold Py.given, Py.truthy. destruct o as [t|]; [|split; [discriminate|intros []; discriminate]].
  destruct (String.eqb_spec t ""); simpl; split.
  - discriminate.
  - intros [[= ->] Hne]. contradiction.
  - intros [= ->]. auto.
  - intros [[= ->] _]. reflexivity.
Qed.

Lemma given_None (o : option string) :
  Py.given o = None <-> o = None \/ o = Some "".
Proof.
  unfold Py.given, Py.truthy. destruct o as [t|]; [|split; auto].
  destruct (String.eqb_spec t "") as [->|Hne]; simpl; split.
  - intros _. by right.
  - done.
  - discriminate.
  - intros [H|H]; [discriminate|]. congruence.
Qed.
End ResultFacts.

(** ** Sizes of binary64 results

    [Zdigits2 m + e <= k] bounds the value [m * 2^e] by [2^k]; rounding
    adds one digit at most, which is enough to tell when a quotient, a
    product or a rounded decimal stays finite. *)

Section FloatSize.

Lemma digits2_pos_size (p : positive) : digits2_pos p = Pos.size p.
Proof. induction p; simpl; congruence. Qed.

(** [Zdigits2 m <= d] says [m < 2^d]. *)
Lemma Zdigits2_le (m d : Z) : 0 <= m -> 0 <= d -> (Zdigits2 m <= d <-> m < 2 ^ d).
Proof.
  intros Hm Hd. destruct m as [|p|p]; simpl; [|clear Hm|lia].
  - split; [intros _; apply Z.pow_pos_nonneg; lia|lia].
  - rewrite digits2_pos_size. split.
    + intros H. pose proof (Pos.size_gt p) as Hgt.
      apply Z.lt_le_trans with (2 ^ Zpos (Pos.size p)).
      * rewrite <- Pos2Z.inj_pow. apply Pos2Z.pos_lt_pos. exact Hgt.
      * apply Z.pow_le_mono_r; lia.
    + intros H. pose proof (Pos.size_le p) as Hle.
      destruct (Z.le_gt_cases (Zpos (Pos.size p)) d) as [|Hlt]; [assumption|exfalso].
      assert (2 ^ (d + 1) <= 2 ^ Zpos (Pos.size p)) by (apply Z.pow_le_mono_r; lia).
      assert (2 ^ Zpos (Pos.size p) <= Zpos p~0).
      { rewrite <- Pos2Z.inj_pow. apply Pos2Z.pos_le_pos. exact Hle. }
      rewrite Z.pow_add_r in * by lia. lia.
Qed.

Lemma Zdigits2_nonneg (m : Z) : 0 <= Zdigits2 m.
Proof. destruct m; simpl; lia. Qed.

Lemma Zdigits2_mono (a b : Z) : 0 <= a <= b -> Zdigits2 a <= Zdigits2 b.
Proof.
  intros [Ha Hab]. apply Zdigits2_le; [lia|apply Zdigits2_nonneg|].
  apply Z.le_lt_trans with b; [exact Hab|].
  apply Zdigits2_le; [lia|apply Zdigits2_nonneg|lia].
Qed.

Lemma Zdigits2_succ (m : Z) : 0 <= m -> Zdigits2 (m + 1) <= Zdigits2 m + 1.
Proof.
  intros Hm. pose proof (Zdigits2_nonneg m) as Hd.
  apply Zdigits2_le; [lia|lia|].
  assert (m < 2 ^ Zdigits2 m) by (apply Zdigits2_le; lia).
  rewrite Z.pow_add_r by lia. lia.
Qed.

Lemma Zdigits2_div (m n : Z) :
  0 <= m -> 0 <= n -> 0 < m / 2 ^ n -> Zdigits2 (m / 2 ^ n) + n <= Zdigits2 m.
Proof.
  intros Hm Hn Hq. pose proof (Zdigits2_nonneg m) as Hd.
  assert (Hpow : 0 < 2 ^ n) by (apply Z.pow_pos_nonneg; lia).
  assert (Hlt : m < 2 ^ Zdigits2 m) by (apply Zdigits2_le; lia).
  assert (Hge : 2 ^ n <= m).
  { destruct (Z.le_gt_cases (2 ^ n) m) as [|Hsmall]; [assumption|].
    rewrite Z.div_small in Hq by lia. lia. }
  assert (Hnd : n < Zdigits2 m).
  { destruct (Z.lt_ge_cases n (Zdigits2 m)) as [|Hbig]; [assumption|exfalso].
    assert (2 ^ Zdigits2 m <= 2 ^ n) by (apply Z.pow_le_mono_r; lia). lia. }
  assert (Zdigits2 (m / 2 ^ n) <= Zdigits2 m - n); [|lia].
  apply Zdigits2_le; [lia|lia|].
  apply Z.div_lt_upper_bound; [exact Hpow|].
  rewrite <- Z.pow_add_r by lia. replace (n + (Zdigits2 m - n)) with (Zdigits2 m) by lia.
  exact Hlt.
Qed.

Lemma round_nearest_even_bounds (m : Z) (l : location) :
  m <= round_nearest_even m l <= m + 1.
Proof. destruct l as [|[]]; simpl; try destruct (Z.even m); lia. Qed.

Lemma shr_1_m (mrs : shr_record) :
  0 <= shr_m mrs -> shr_m (shr_1 mrs) = shr_m mrs / 2.
Proof.
  destruct mrs as [m r s]. simpl. intros Hm.
  destruct m as [|[p|p|]|p]; simpl; try reflexivity; try lia.
  - rewrite Pos2Z.inj_xI. apply Z.div_unique with (r := 1); lia.
  - rewrite Pos2Z.inj_xO. apply Z.div_unique with (r := 0); lia.
Qed.

Lemma iter_shr_1_m (n : positive) :
  forall mrs, 0 <= shr_m mrs ->
    shr_m (SpecFloat.iter_pos shr_1 n mrs) = shr_m mrs / 2 ^ Zpos n.
Proof.
  assert (Hpos : forall q, 0 < 2 ^ Zpos q) by (intros; apply Z.pow_pos_nonneg; lia).
  assert (Hnn : forall mrs, 0 <= shr_m mrs -> 0 <= shr_m (shr_1 mrs)).
  { intros mrs H. rewrite shr_1_m by exact H. apply Z.div_pos; lia. }
  induction n as [n IH|n IH|]; intros mrs Hm; simpl SpecFloat.iter_pos.
  - rewrite IH, IH, shr_1_m by
      (try (rewrite IH by auto; apply Z.div_pos; [|apply Hpos]); auto).
    rewrite !Z.div_div by (try apply Hpos; pose proof (Hpos n); lia).
    f_equal. replace (Zpos n~1) with (Zpos n + Zpos n + 1) by lia.
    rewrite !Z.pow_add_r by lia. change (2 ^ 1) with 2. ring.
  - rewrite IH, IH by (try (rewrite IH by auto; apply Z.div_pos; [|apply Hpos]); auto).
    rewrite !Z.div_div by (try apply Hpos; pose proof (Hpos n); lia).
    f_equal. replace (Zpos n~0) with (Zpos n + Zpos n) by lia.
    rewrite Z.pow_add_r by lia. reflexivity.
  - rewrite shr_1_m by exact Hm. reflexivity.
Qed.

Lemma fexp_eq (x : Z) : fexp Float64.prec Float64.emax x = Z.max (x - 53) (-1074).
Proof. reflexivity. Qed.

Lemma shr_record_of_loc_m (m : Z) (l : location) : shr_m (shr_record_of_loc m l) = m.
Proof. destruct l as [|[]]; reflexivity. Qed.

Lemma shr_fexp_spec (m e : Z) (l : location) :
  0 <= m ->
  forall mrs e', shr_fexp Float64.prec Float64.emax m e l = (mrs, e') ->
    (e' = e /\ shr_m mrs = m /\ fexp Float64.prec Float64.emax (Zdigits2 m + e) <= e)
    \/ (e < e' /\ e' = fexp Float64.prec Float64.emax (Zdigits2 m + e)
        /\ shr_m mrs = m / 2 ^ (e' - e)).
Proof.
  intros Hm mrs e'. unfold shr_fexp, shr.
  destruct (fexp Float64.prec Float64.emax (Zdigits2 m + e) - e) as [|n|n] eqn:Hn;
    intros [= <- <-].
  - left. rewrite shr_record_of_loc_m. lia.
  - right. rewrite iter_shr_1_m by (rewrite shr_record_of_loc_m; exact Hm).
    rewrite shr_record_of_loc_m. replace (e + Zpos n - e) with (Zpos n) by lia. lia.
  - left. rewrite shr_record_of_loc_m. lia.
Qed.

Lemma shift_round_size (m e : Z) (l l' : location) (k j : Z) mrs e' :
  0 <= m -> Zdigits2 m + e <= k -> e <= j ->
  -1074 <= k -> k - 53 <= j -> -1074 <= j ->
  shr_fexp Float64.prec Float64.emax m e l = (mrs, e') ->
  0 <= shr_m mrs
  /\ Zdigits2 (shr_m mrs) + e' <= k
  /\ Zdigits2 (round_nearest_even (shr_m mrs) l') + e' <= k + 1
  /\ e' <= j.
Proof.
  intros Hm Hk Hj Hk0 Hkj Hj0 Hshr.
  pose proof (Zdigits2_nonneg m) as Hd.
  assert (Hround : forall x, 0 <= x ->
            Zdigits2 (round_nearest_even x l') <= Zdigits2 x + 1).
  { intros x Hx. pose proof (round_nearest_even_bounds x l').
    etransitivity; [apply Zdigits2_mono with (b := x + 1); lia|].
    by apply Zdigits2_succ. }
  destruct (shr_fexp_spec m e l Hm mrs e' Hshr)
    as [(-> & -> & _)|(Hlt & He' & ->)].
  - pose proof (Hround m Hm). lia.
  - rewrite fexp_eq in He'.
    assert (Hpow : 0 < 2 ^ (e' - e)) by (apply Z.pow_pos_nonneg; lia).
    assert (Hq : 0 <= m / 2 ^ (e' - e)) by (apply Z.div_pos; lia).
    pose proof (Hround _ Hq).
    destruct (Z.eq_dec (m / 2 ^ (e' - e)) 0) as [Hz|Hnz].
    + rewrite Hz in H |- *. change (Zdigits2 0) with 0 in *. lia.
    + pose proof (Zdigits2_div m (e' - e) Hm ltac:(lia) ltac:(lia)). lia.
Qed.

Lemma binary_round_aux_sized (s : bool) (m e : Z) (l : location) (k j : Z) :
  0 <= m -> Zdigits2 m + e <= k -> e <= j ->
  -1074 <= k -> k - 52 <= j -> -1074 <= j -> j <= 971 ->
  sized (k + 1) j (binary_round_aux Float64.prec Float64.emax s m e l).
Proof.
  intros Hm Hk Hj Hk0 Hkj Hj0 Hj1. unfold binary_round_aux.
  destruct (shr_fexp Float64.prec Float64.emax m e l) as [mrs' e'] eqn:H1.
  destruct (shift_round_size m e l (loc_of_shr_record mrs') k j mrs' e'
              Hm Hk Hj Hk0 ltac:(lia) Hj0 H1) as (Hm' & _ & Hk' & Hj').
  set (m1 := round_nearest_even (shr_m mrs') (loc_of_shr_record mrs')) in *.
  assert (Hm1 : 0 <= m1).
  { pose proof (round_nearest_even_bounds (shr_m mrs') (loc_of_shr_record mrs')).
    unfold m1. lia. }
  destruct (shr_fexp Float64.prec Float64.emax m1 e' loc_Exact) as [mrs'' e''] eqn:H2.
  destruct (shift_round_size m1 e' loc_Exact loc_Exact (k + 1) j mrs'' e''
              Hm1 Hk' Hj' ltac:(lia) ltac:(lia) Hj0 H2) as (Hm'' & Hk'' & _ & Hj'').
  destruct (shr_m mrs'') as [|p|p] eqn:Hp; simpl; [exact I| |lia].
  replace (e'' <=? Float64.emax - Float64.prec) with true
    by (symmetry; apply Z.leb_le; unfold Float64.emax, Float64.prec; lia).
  simpl in Hk''. split; [exact Hk''|exact Hj''].
Qed.

Lemma div_eucl_div (a b : Z) : Z.div_eucl a b = (a / b, a mod b).
Proof. unfold Z.div, Z.modulo. by destruct (Z.div_eucl a b). Qed.

Lemma Zdigits2_mul (a b : Z) :
  0 <= a -> 0 <= b -> Zdigits2 (a * b) <= Zdigits2 a + Zdigits2 b.
Proof.
  intros Ha Hb. pose proof (Zdigits2_nonneg a). pose proof (Zdigits2_nonneg b).
  apply Zdigits2_le; [lia|lia|]. rewrite Z.pow_add_r by lia.
  assert (a < 2 ^ Zdigits2 a) by (apply Zdigits2_le; lia).
  assert (b < 2 ^ Zdigits2 b) by (apply Zdigits2_le; lia).
  nia.
Qed.

Lemma Zdigits2_pow2 (a s : Z) :
  0 <= a -> 0 <= s -> Zdigits2 (a * 2 ^ s) <= Zdigits2 a + s.
Proof.
  intros Ha Hs. pose proof (Zdigits2_nonneg a).
  assert (0 < 2 ^ s) by (apply Z.pow_pos_nonneg; lia).
  apply Zdigits2_le; [lia|lia|]. rewrite Z.pow_add_r by lia.
  assert (a < 2 ^ Zdigits2 a) by (apply Zdigits2_le; lia).
  nia.
Qed.

Lemma sized_finite k j x : sized k j x -> Float64.is_infinite x = false.
Proof. by destruct x. Qed.

(** The quotient of an integer below [2^K] is within one digit of it. *)
Lemma of_ratio_sized (a b K : Z) :
  a <> 0 -> b <> 0 -> Z.abs a < 2 ^ K -> 0 <= K <= 1023 ->
  sized (K + 1) (Z.max 0 (K - 52)) (Float64.of_ratio a b).
Proof.
  intros Ha Hb Hlt HK.
  assert (Hform : Float64.of_ratio a b
          = SFdiv Float64.prec Float64.emax
              (S754_finite (a <? 0) (Z.to_pos (Z.abs a)) 0)
              (S754_finite (b <? 0) (Z.to_pos (Z.abs b)) 0)).
  { unfold Float64.of_ratio. destruct a, b; congruence. }
  rewrite Hform. unfold SFdiv, SFdiv_core_binary.
  set (m1 := Zpos (Z.to_pos (Z.abs a))). set (m2 := Zpos (Z.to_pos (Z.abs b))).
  assert (Hm1 : m1 = Z.abs a) by (unfold m1; lia).
  assert (Hm2 : 0 < m2) by (unfold m2; lia).
  set (e' := Z.min (fexp Float64.prec Float64.emax
                      (Zdigits2 m1 + 0 - (Zdigits2 m2 + 0))) (0 - 0)).
  assert (He' : e' <= 0) by (unfold e'; lia).
  set (m' := match 0 - 0 - e' with
             | 0 => m1
             | Z.pos _ => Z.shiftl m1 (0 - 0 - e')
             | Z.neg _ => 0
             end).
  assert (Hm' : m' = m1 * 2 ^ (- e')).
  { unfold m'. replace (0 - 0 - e') with (- e') by lia.
    destruct (- e') as [|s|s] eqn:Hs; [simpl; lia| |lia].
    apply Z.shiftl_mul_pow2. lia. }
  rewrite div_eucl_div.
  assert (Hd1 : Zdigits2 m1 <= K) by (apply Zdigits2_le; lia).
  assert (Hq : 0 <= m' / m2).
  { apply Z.div_pos; [|exact Hm2]. rewrite Hm'.
    apply Z.mul_nonneg_nonneg; [lia|]. apply Z.pow_nonneg. lia. }
  apply (binary_round_aux_sized _ (m' / m2) e' _ K (Z.max 0 (K - 52)));
    try lia.
  assert (Hqm : m' / m2 <= m').
  { apply Z.div_le_upper_bound; [exact Hm2|].
    assert (0 <= m'); [|nia]. rewrite Hm'.
    apply Z.mul_nonneg_nonneg; [lia|]. apply Z.pow_nonneg. lia. }
  pose proof (Zdigits2_mono (m' / m2) m' (conj Hq Hqm)).
  pose proof (Zdigits2_pow2 m1 (- e') ltac:(lia) ltac:(lia)).
  rewrite <- Hm' in *. lia.
Qed.

Lemma int_true_div_returns (a b K : Z) :
  b <> 0 -> Z.abs a < 2 ^ K -> 0 <= K <= 1023 ->
  exists q, Float64.int_true_div a b = Py.Ok q
            /\ sized (K + 1) (Z.max 0 (K - 52)) q.
Proof.
  intros Hb Hlt HK. unfold Float64.int_true_div.
  destruct (Z.eqb_spec b 0) as [|_]; [contradiction|].
  destruct (Z.eq_dec a 0) as [->|Ha].
  - exists (S754_zero (b <? 0)). by destruct b.
  - pose proof (of_ratio_sized a b K Ha Hb Hlt HK) as Hs.
    rewrite (sized_finite _ _ _ Hs). eauto.
Qed.

Lemma mul_sized (x y : Float64.float) (kx jx ky jy j : Z) :
  sized kx jx x -> sized ky jy y ->
  jx + jy <= j -> kx + ky - 52 <= j -> -1074 <= kx + ky -> -1074 <= j -> j <= 971 ->
  sized (kx + ky + 1) j (Float64.mul x y).
Proof.
  intros Hx Hy Hj1 Hj2 Hk Hj3 Hj4. unfold Float64.mul.
  destruct x as [sx|sx| |sx mx ex], y as [sy|sy| |sy my ey]; simpl in Hx, Hy;
    try contradiction; try exact I.
  unfold SFmul. destruct Hx as [Hkx Hjx], Hy as [Hky Hjy].
  apply binary_round_aux_sized; try lia.
  rewrite Pos2Z.inj_mul.
  pose proof (Zdigits2_mul (Zpos mx) (Zpos my) ltac:(lia) ltac:(lia)).
  simpl Zdigits2 in *. lia.
Qed.

Lemma div_half_even_le (n d : Z) : Float64.div_half_even n d <= n / d + 1.
Proof.
  unfold Float64.div_half_even.
  destruct (2 * (n mod d) ?= d); try destruct (Z.even (n / d)); lia.
Qed.

Lemma div_half_even_nonneg (n d : Z) :
  0 <= n -> 0 < d -> 0 <= Float64.div_half_even n d.
Proof.
  intros Hn Hd. pose proof (Z.div_pos n d Hn Hd).
  unfold Float64.div_half_even.
  destruct (2 * (n mod d) ?= d); try destruct (Z.even (n / d)); lia.
Qed.

Lemma round_returns (x : Float64.float) (k j : Z) :
  sized k j x -> 0 <= k <= 1015 ->
  exists r, Float64.round x 2 = Py.Ok r.
Proof.
  intros Hx Hk. destruct x as [s|s| |s m e]; simpl in Hx; try contradiction.
  { unfold Float64.round. eauto. }
  destruct Hx as [Hd _]. unfold Float64.round.
  change (10 ^ Z.of_nat 2) with 100.
  set (n := match e with
            | Z.neg p => Float64.div_half_even (100 * Z.pos m) (2 ^ Z.pos p)
            | _ => 100 * Z.pos m * 2 ^ e
            end).
  assert (Hm : Zpos m < 2 ^ Zpos (digits2_pos m)).
  { apply (Zdigits2_le (Zpos m)); simpl; lia. }
  assert (Hn : 0 <= n < 2 ^ (k + 8)).
  { assert (Hpow : 2 ^ (7 + (Zpos (digits2_pos m) + e)) <= 2 ^ (k + 7))
      by (apply Z.pow_le_mono_r; lia).
    assert (Hstep : 2 ^ (k + 8) = 2 * 2 ^ (k + 7)).
    { replace (k + 8) with (1 + (k + 7)) by lia. rewrite Z.pow_add_r by lia.
      reflexivity. }
    assert (H7 : forall t, 0 <= t -> 2 ^ (7 + t) = 128 * 2 ^ t).
    { intros t Ht. rewrite Z.pow_add_r by lia. reflexivity. }
    assert (Hone : 1 <= 2 ^ (k + 7)).
    { pose proof (Z.pow_pos_nonneg 2 (k + 7) ltac:(lia) ltac:(lia)). lia. }
    destruct e as [|p|p]; unfold n.
    - rewrite Z.add_0_r, H7 in Hpow by lia. simpl (2 ^ 0). lia.
    - assert (0 < 2 ^ Zpos p) by (apply Z.pow_pos_nonneg; lia).
      replace (7 + (Zpos (digits2_pos m) + Zpos p))
        with (7 + Zpos (digits2_pos m) + Zpos p) in Hpow by lia.
      rewrite Z.pow_add_r, H7 in Hpow by lia. nia.
    - assert (Hp : 0 < 2 ^ Zpos p) by (apply Z.pow_pos_nonneg; lia).
      pose proof (div_half_even_le (100 * Zpos m) (2 ^ Zpos p)).
      pose proof (div_half_even_nonneg (100 * Zpos m) (2 ^ Zpos p)
                    ltac:(lia) Hp).
      assert (100 * Zpos m / 2 ^ Zpos p < 2 ^ (k + 7)); [|lia].
      apply Z.div_lt_upper_bound; [exact Hp|].
      rewrite <- Z.pow_add_r by lia.
      apply Z.lt_le_trans with (2 ^ (7 + Zpos (digits2_pos m))).
      + rewrite H7 by lia. lia.
      + apply Z.pow_le_mono_r; lia. }
  destruct (Z.eqb_spec n 0) as [|Hnz]; [eauto|].
  assert (Hs : sized (k + 8 + 1) (Z.max 0 (k + 8 - 52))
                 (Float64.of_ratio (if s then - n else n) 100)).
  { apply of_ratio_sized; [destruct s; lia|lia|destruct s; lia|lia]. }
  rewrite (sized_finite _ _ _ Hs). eauto.
Qed.

End FloatSize.

(** ** The stable sort *)

Section SortFacts.
Context {A : Type} (precedes : A -> A -> bool).

Lemma insert_stable_perm (x : A) (l : list A) :
  Py.insert_stable precedes x l ≡ₚ x :: l.
Proof.
  induction l as [|y l IH]; simpl; [reflexivity|].
  destruct (precedes y x); [|reflexivity].
  rewrite IH. apply Permutation_swap.
Qed.

Lemma sort_stable_perm (l : list A) : Py.sort_stable precedes l ≡ₚ l.
Proof.
  induction l as [|x l IH]; simpl; [reflexivity|].
  rewrite insert_stable_perm. by rewrite IH.
Qed.

Lemma sort_stable_length (l : list A) :
  length (Py.sort_stable precedes l) = length l.
Proof. apply Permutation_length, sort_stable_perm. Qed.

Hypothesis precedes_asym :
  forall a b, precedes a b = true -> precedes b a = false.
Hypothesis may_precede_trans :
  forall a b c, may_precede precedes a b -> may_precede precedes b c ->
                may_precede precedes a c.

Lemma insert_stable_sorted (x : A) (l : list A) :
  StronglySorted (may_precede precedes) l ->
  StronglySorted (may_precede precedes) (Py.insert_stable precedes x l).
Proof.
  induction 1 as [|y l Hl IH Hy]; simpl.
  - repeat constructor.
  - destruct (precedes y x) eqn:Hyx.
    + constructor; [exact IH|].
      rewrite insert_stable_perm. constructor; [|exact Hy].
      by apply precedes_asym.
    + constructor; [by constructor|].
      constructor; [exact Hyx|].
      eapply Forall_impl; [exact Hy|].
      intros z Hz. by eapply may_precede_trans.
Qed.

Lemma sort_stable_sorted (l : list A) :
  StronglySorted (may_precede precedes) (Py.sort_stable precedes l).
Proof.
  induction l as [|x l IH]; simpl; [constructor|].
  by apply insert_stable_sorted.
Qed.
End SortFacts.

Lemma StronglySorted_weaken {A : Type} (R S : A -> A -> Prop) (l : list A) :
  (forall a b, R a b -> S a b) -> StronglySorted R l -> StronglySorted S l.
Proof.
  intros HRS. induction 1 as [|x l _ IH Hx]; constructor; [exact IH|].
  eapply Forall_impl; [exact Hx|]. intros y. apply HRS.
Qed.

(** Python's [<] on [str] is [String.ltb]; its negation is the converse
    of [String.leb]. *)
Lemma ltb_leb (s t : string) : String.ltb s t = negb (String.leb t s).
Proof.
  unfold String.ltb, String.leb. rewrite (String.compare_antisym t s).
  by destruct (String.compare s t).
Qed.

Lemma ltb_irrefl (s : string) : String.ltb s s = false.
Proof.
  rewrite ltb_leb. destruct (String.leb s s) eqn:E; [done|].
  destruct (String.leb_total s s); congruence.
Qed.

Lemma leb_trans (a b c : string) :
  String.leb a b = true -> String.leb b c = true -> String.leb a c = true.
Proof.
  intros H1 H2. apply Is_true_true.
  apply Is_true_true in H1, H2.
  exact (transitivity (R := String.le) H1 H2).
Qed.

(** ** The trend summary *)

Section Summary.
Import TrendEngineService.

Lemma summary_append_classified (s : summary) (r : trend_record) :
  classified r ->
  exists s', summary_append s (trend r) r = Py.Ok s'
    /\ rising s' = rising s ++ filter (has_trend "rising") [r]
    /\ stable s' = stable s ++ filter (has_trend "stable") [r]
    /\ declining s' = declining s ++ filter (has_trend "declining") [r].
Proof.
  unfold classified, summary_append.
  intros [H|[H|H]]; rewrite H; simpl; eexists; (split; [reflexivity|]); simpl;
    rewrite !filter_cons, !filter_nil;
    repeat case_decide; unfold has_trend in *; try congruence;
    rewrite ?app_nil_r; auto.
Qed.

Lemma summary_loop_classified (values : list trend_record) :
  Forall classified values ->
  forall s, exists s', summary_loop values s = Py.Ok s'
    /\ rising s' = rising s ++ filter (has_trend "rising") values
    /\ stable s' = stable s ++ filter (has_trend "stable") values
    /\ declining s' = declining s ++ filter (has_trend "declining") values.
Proof.
  induction 1 as [|r values Hr _ IH]; intros s; simpl.
  - exists s. rewrite !filter_nil, !app_nil_r. auto.
  - destruct (summary_append_classified s r Hr) as (s1 & -> & Hr1 & Hs1 & Hd1).
    simpl. destruct (IH s1) as (s' & -> & Hr' & Hs' & Hd').
    exists s'. split; [reflexivity|].
    rewrite Hr', Hs', Hd', Hr1, Hs1, Hd1, <- !app_assoc.
    change (r :: values) with ([r] ++ values). by rewrite !filter_app.
Qed.

Lemma three_way_split (values : list trend_record) :
  Forall classified values ->
  filter (has_trend "rising") values
    ++ filter (has_trend "stable") values
    ++ filter (has_trend "declining") values ≡ₚ values.
Proof.
  induction 1 as [|r values Hr _ IH]; [reflexivity|].
  rewrite !filter_cons.
  destruct Hr as [H|[H|H]];
    repeat case_decide; unfold has_trend in *; try congruence; simpl.
  - by rewrite IH.
  - rewrite <- Permutation_middle. by rewrite IH.
  - rewrite app_assoc, <- Permutation_middle, <- app_assoc. by rewrite IH.
Qed.

Lemma sort_by_change_perm (l : list trend_record) : sort_by_change l ≡ₚ l.
Proof. apply sort_stable_perm. Qed.

Lemma sort_by_change_sorted (l : list trend_record) :
  StronglySorted change_desc (sort_by_change l).
Proof.
  unfold sort_by_change.
  eapply StronglySorted_weaken; [|apply sort_stable_sorted].
  - intros a b. unfold may_precede, change_desc. lia.
  - intros a b. lia.
  - intros a b c. unfold may_precede. lia.
Qed.

(** C9: when every input record carries one of the three
    classifications, [get_trend_summary] returns; each of its lists holds
    exactly the input records of that classification, so that every
    record occurs in exactly one list and the three sizes add up to the
    size of the input; and each list is in descending order of the
    absolute value of [absolute_change]. *)
Theorem get_trend_summary_partition (values : list trend_record) :
  Forall classified values ->
  exists s, get_trend_summary values = Py.Ok s
    /\ rising s ≡ₚ filter (has_trend "rising") values
    /\ stable s ≡ₚ filter (has_trend "stable") values
    /\ declining s ≡ₚ filter (has_trend "declining") values
    /\ rising s ++ stable s ++ declining s ≡ₚ values
    /\ (length (rising s) + length (stable s) + length (declining s))%nat
         = length values
    /\ StronglySorted change_desc (rising s)
    /\ StronglySorted change_desc (stable s)
    /\ StronglySorted change_desc (declining s).
Proof.
  intros Hall. unfold get_trend_summary.
  destruct (summary_loop_classified values Hall
              {| rising := []; stable := []; declining := [] |})
    as (s & -> & Hr & Hs & Hd).
  simpl in Hr, Hs, Hd. simpl. eexists. split; [reflexivity|]. simpl.
  assert (Hperm : sort_by_change (rising s) ++ sort_by_change (stable s)
                    ++ sort_by_change (declining s) ≡ₚ values).
  { rewrite !sort_by_change_perm, Hr, Hs, Hd. by apply three_way_split. }
  repeat split.
  - by rewrite sort_by_change_perm, Hr.
  - by rewrite sort_by_change_perm, Hs.
  - by rewrite sort_by_change_perm, Hd.
  - exact Hperm.
  - rewrite <- (Permutation_length Hperm), !length_app. lia.
  - apply sort_by_change_sorted.
  - apply sort_by_change_sorted.
  - apply sort_by_change_sorted.
Qed.

Lemma get_trend_summary_partition_witness :
  Forall classified sample_values
  /\ exists s, get_trend_summary sample_values = Py.Ok s
       /\ (length (rising s) + length (stable s) + length (declining s))%nat
          = 5%nat.
Proof.
  assert (H : Forall classified sample_values).
  { unfold sample_values, classified.
    repeat (apply List.Forall_cons; [simpl; auto|]). apply List.Forall_nil. }
  split; [exact H|].
  destruct (get_trend_summary_partition sample_values H)
    as (s & Hs & _ & _ & _ & _ & Hlen & _).
  exists s. split; [exact Hs|exact Hlen].
Defined.
End Summary.

(** ** The snapshot store *)

Section Store.
Import TrendEngineService.

Lemma load_after_save (st st' : storage) (data : gmap string snapshot) :
  _save_historical_data st data = Py.Ok st' ->
  _load_historical_data st' = data /\ writable st' = true.
Proof.
  unfold _save_historical_data. destruct (writable st) eqn:Hw; [|discriminate].
  by intros [= <-].
Qed.

Lemma save_writable (st : storage) (data : gmap string snapshot) :
  writable st = true ->
  exists st', _save_historical_data st data = Py.Ok st'.
Proof. unfold _save_historical_data. intros ->. eauto. Qed.

Lemma save_skill_frequencies_Ok st counts period today stamp p st' :
  save_skill_frequencies st counts period today stamp = Py.Ok (p, st') ->
  p = period_used period today
  /\ _load_historical_data st'
     = <[p := entry_of counts p stamp]> (_load_historical_data st)
  /\ writable st' = true.
Proof.
  unfold save_skill_frequencies, period_used. intros H.
  apply bind_Ok in H as (st1 & Hsave & [= <- <-]).
  apply load_after_save in Hsave as [Hload Hw].
  split; [by destruct (Py.given period)|].
  split; [|exact Hw]. rewrite Hload. by destruct (Py.given period).
Qed.

Lemma save_skill_frequencies_writable st counts period today stamp :
  writable st = true ->
  exists st', save_skill_frequencies st counts period today stamp
              = Py.Ok (period_used period today, st').
Proof.
  intros Hw. unfold save_skill_frequencies, period_used.
  match goal with
  | |- context [_save_historical_data st ?d] =>
      destruct (save_writable st d Hw) as [st' ->]
  end.
  exists st'. simpl. by destruct (Py.given period).
Qed.

(** [sum_values] is the sum of the values. *)
Lemma sum_values_foldr (m : gmap string Z) :
  sum_values m = foldr Z.add 0 (map_to_list m).*2.
Proof.
  unfold sum_values. rewrite map_fold_foldr.
  induction (map_to_list m) as [|[k v] l IH]; simpl; [reflexivity|].
  rewrite IH. apply Z.add_comm.
Qed.

Lemma sum_values_empty : sum_values ∅ = 0.
Proof. unfold sum_values. apply map_fold_empty. Qed.

Lemma sum_values_insert (m : gmap string Z) (k : string) (v : Z) :
  m !! k = None -> sum_values (<[k := v]> m) = sum_values m + v.
Proof.
  intros Hk. unfold sum_values.
  rewrite map_fold_insert_L; [reflexivity| |exact Hk].
  intros. lia.
Qed.

(** Deleting a list of distinct stored keys. *)
Lemma lookup_delete_all (ps : list string) (h : gmap string snapshot) (q : string) :
  foldl (fun data p => delete p data) h ps !! q
  = if decide (q ∈ ps) then None else h !! q.
Proof.
  revert h. induction ps as [|p ps IH]; intros h; simpl.
  - destruct (decide (q ∈ [])) as [Hin|_]; [|done]. by apply elem_of_nil in Hin.
  - rewrite IH.
    destruct (decide (q ∈ ps)) as [Hin|Hnin];
      destruct (decide (q ∈ p :: ps)) as [Hin'|Hnin']; try done.
    + exfalso. apply Hnin'. by right.
    + apply elem_of_cons in Hin' as [->|Hin']; [|done].
      apply lookup_delete_eq.
    + apply lookup_delete_ne. intros ->. apply Hnin'. by left.
Qed.

Lemma size_delete_all (ps : list string) (h : gmap string snapshot) :
  NoDup ps -> (forall p, p ∈ ps -> is_Some (h !! p)) ->
  (size (foldl (fun data p => delete p data) h ps) + length ps)%nat = size h.
Proof.
  intros Hnd. revert h. induction Hnd as [|p ps Hp Hnd IH]; intros h Hin; simpl.
  - lia.
  - destruct (Hin p) as [x Hx]; [by left|].
    assert (Hrest : forall q, q ∈ ps -> is_Some (delete p h !! q)).
    { intros q Hq. rewrite lookup_delete_ne; [apply Hin; by right|].
      intros ->. contradiction. }
    specialize (IH (delete p h) Hrest).
    rewrite (map_size_delete_Some p h) in IH by eauto.
    assert (size h <> 0%nat); [|lia].
    apply map_size_non_empty_iff. intros ->. by rewrite lookup_empty in Hx.
Qed.

Lemma elem_of_keys (h : gmap string snapshot) (p : string) :
  p ∈ keys h <-> is_Some (h !! p).
Proof.
  unfold keys. rewrite list_elem_of_fmap. split.
  - intros ([k v] & -> & Hkv). apply elem_of_map_to_list in Hkv. eauto.
  - intros [v Hv]. exists (p, v). split; [done|]. by apply elem_of_map_to_list.
Qed.

Lemma keys_NoDup (h : gmap string snapshot) : NoDup (keys h).
Proof. apply NoDup_fst_map_to_list. Qed.

Lemma keys_length (h : gmap string snapshot) : length (keys h) = size h.
Proof. unfold keys. by rewrite length_fmap, length_map_to_list. Qed.
End Store.

Section StoreClaims.
Import TrendEngineService.

Lemma period_used_explicit (p today : string) :
  p <> "" -> period_used (Some p) today = p.
Proof.
  intros Hp. unfold period_used.
  by rewrite (proj2 (given_Some (Some p) p) (conj eq_refl Hp)).
Qed.

(** C7: on a writable store, saving counts under an explicit period id
    returns that id, and the history loaded afterwards holds exactly the
    saved counts under it; the other periods are untouched.  Saving the
    same id again replaces its snapshot: the new counts are loaded, no
    entry is added, and the id is returned again.  (An explicit id is a
    non-empty string: the empty string selects the current date.) *)
Theorem save_then_load (st : storage) (counts : gmap string Z)
    (p today stamp : string) :
  writable st = true ->
  p <> "" ->
  exists st',
    save_skill_frequencies st counts (Some p) today stamp = Py.Ok (p, st')
    /\ skill_counts <$> (_load_historical_data st' !! p) = Some counts
    /\ (forall q, q <> p ->
          _load_historical_data st' !! q = _load_historical_data st !! q)
    /\ forall counts2 today2 stamp2,
         exists st'',
           save_skill_frequencies st' counts2 (Some p) today2 stamp2
           = Py.Ok (p, st'')
           /\ skill_counts <$> (_load_historical_data st'' !! p) = Some counts2
           /\ dom (_load_historical_data st'') = dom (_load_historical_data st')
           /\ (forall q, q <> p ->
                 _load_historical_data st'' !! q
                 = _load_historical_data st' !! q).
Proof.
  intros Hw Hp.
  destruct (save_skill_frequencies_writable st counts (Some p) today stamp Hw)
    as [st' Hsave].
  rewrite (period_used_explicit p today Hp) in Hsave.
  destruct (save_skill_frequencies_Ok _ _ _ _ _ _ _ Hsave) as (_ & Hload & Hw').
  exists st'. split; [exact Hsave|].
  split; [by rewrite Hload, lookup_insert_eq|].
  split; [intros q Hq; by rewrite Hload, lookup_insert_ne|].
  intros counts2 today2 stamp2.
  destruct (save_skill_frequencies_writable st' counts2 (Some p) today2 stamp2 Hw')
    as [st'' Hsave2].
  rewrite (period_used_explicit p today2 Hp) in Hsave2.
  destruct (save_skill_frequencies_Ok _ _ _ _ _ _ _ Hsave2) as (_ & Hload2 & _).
  exists st''. split; [exact Hsave2|].
  split; [by rewrite Hload2, lookup_insert_eq|].
  split; [|intros q Hq; by rewrite Hload2, lookup_insert_ne].
  by rewrite Hload2, Hload, insert_insert_eq, !dom_insert_L.
Qed.

Lemma save_then_load_witness :
  exists st',
    save_skill_frequencies fresh_store january_counts (Some "2024-01-15")
      "2024-02-01" "2024-02-01T09:30:00" = Py.Ok ("2024-01-15", st')
    /\ skill_counts <$> (_load_historical_data st' !! "2024-01-15")
       = Some january_counts.
Proof.
  destruct (save_then_load fresh_store january_counts "2024-01-15"
              "2024-02-01" "2024-02-01T09:30:00") as (st' & H1 & H2 & _).
  - reflexivity.
  - discriminate.
  - exists st'. split; [exact H1|exact H2].
Defined.

(** C10: the snapshot that [save_skill_frequencies] files under the
    period id it returns stores the counts it was given, its
    [total_occurrences] is the sum of the values of the stored counts,
    its [unique_skills] is the number of distinct keys of the stored
    counts, and its [period] is the id returned. *)
Theorem save_snapshot_consistent (st st' : storage) (counts : gmap string Z)
    (period : option string) (today stamp p : string) :
  save_skill_frequencies st counts period today stamp = Py.Ok (p, st') ->
  exists snap,
    _load_historical_data st' !! p = Some snap
    /\ skill_counts snap = counts
    /\ total_occurrences snap = foldr Z.add 0 (map_to_list (skill_counts snap)).*2
    /\ unique_skills snap = Z.of_nat (size (dom (skill_counts snap)))
    /\ TrendEngineService.period snap = p.
Proof.
  intros Hsave.
  destruct (save_skill_frequencies_Ok _ _ _ _ _ _ _ Hsave) as (_ & Hload & _).
  exists (entry_of counts p stamp).
  split; [by rewrite Hload, lookup_insert_eq|]. simpl.
  split; [reflexivity|].
  split; [apply sum_values_foldr|].
  split; [by rewrite size_dom|reflexivity].
Qed.

Lemma save_snapshot_consistent_witness :
  exists st' snap,
    save_skill_frequencies fresh_store january_counts None
      "2024-02-01" "2024-02-01T09:30:00" = Py.Ok ("2024-02-01", st')
    /\ _load_historical_data st' !! "2024-02-01" = Some snap
    /\ total_occurrences snap = 22
    /\ unique_skills snap = 3.
Proof.
  destruct (save_skill_frequencies_writable fresh_store january_counts None
              "2024-02-01" "2024-02-01T09:30:00" eq_refl) as [st' Hsave].
  change (period_used None "2024-02-01") with "2024-02-01" in Hsave.
  destruct (save_snapshot_consistent _ _ _ _ _ _ _ Hsave)
    as (snap & Hsnap & Hcounts & Htotal & Huniq & _).
  exists st', snap. split; [exact Hsave|]. split; [exact Hsnap|].
  rewrite Hcounts in Htotal, Huniq.
  split; [rewrite Htotal|rewrite Huniq]; by vm_compute.
Defined.

Lemma clear_historical_data_Ok st before_period n st' :
  clear_historical_data st before_period = Py.Ok (n, st') ->
  match Py.given before_period with
  | None =>
      n = Z.of_nat (size (_load_historical_data st))
      /\ _load_historical_data st' = ∅
  | Some cutoff =>
      n = Z.of_nat (length (filter (fun p => String.ltb p cutoff = true)
                                   (keys (_load_historical_data st))))
      /\ _load_historical_data st'
         = foldl (fun data p => delete p data) (_load_historical_data st)
             (filter (fun p => String.ltb p cutoff = true)
                     (keys (_load_historical_data st)))
  end.
Proof.
  unfold clear_historical_data. intros H.
  destruct (Py.given before_period) as [cutoff|];
    apply bind_Ok in H as (st1 & Hsave & [= <- <-]);
    apply load_after_save in Hsave as [Hload _]; by rewrite Hload.
Qed.

(** C8: on a writable store [clear_historical_data] returns.  With a
    cutoff, a stored period is removed exactly when its id is strictly
    below the cutoff in the order of [str], and every other period keeps
    its snapshot; with no cutoff, no period is left.  In both cases the
    number returned is the number of periods removed.  (A cutoff is a
    non-empty string: [None] and the empty string both mean no
    cutoff.) *)
Theorem clear_historical_data_removes (st : storage)
    (before_period : option string) :
  writable st = true ->
  exists n st',
    clear_historical_data st before_period = Py.Ok (n, st')
    /\ (forall cutoff, Py.given before_period = Some cutoff ->
          forall p, _load_historical_data st' !! p
                    = if String.ltb p cutoff then None
                      else _load_historical_data st !! p)
    /\ (Py.given before_period = None -> _load_historical_data st' = ∅)
    /\ Z.of_nat (size (_load_historical_data st))
       = n + Z.of_nat (size (_load_historical_data st')).
Proof.
  intros Hw.
  assert (Hrun : exists r, clear_historical_data st before_period = Py.Ok r).
  { unfold clear_historical_data.
    destruct (Py.given before_period); simpl;
      match goal with
      | |- context [_save_historical_data st ?d] =>
          destruct (save_writable st d Hw) as [st' ->]
      end; simpl; eauto. }
  destruct Hrun as [[n st'] Hrun]. exists n, st'. split; [exact Hrun|].
  pose proof (clear_historical_data_Ok _ _ _ _ Hrun) as Hspec. simpl in Hspec.
  destruct (Py.given before_period) as [cutoff|].
  - destruct Hspec as [-> Hload].
    set (h := _load_historical_data st) in *.
    set (removed := filter (fun p => String.ltb p cutoff = true) (keys h)) in *.
    split; [|split; [discriminate|]].
    + intros ? [= <-] p. rewrite Hload, lookup_delete_all.
      destruct (String.ltb p cutoff) eqn:Hlt.
      * destruct (decide (p ∈ removed)) as [_|Hnin]; [done|].
        destruct (h !! p) eqn:Hp; [|done].
        exfalso. apply Hnin. apply list_elem_of_filter.
        split; [exact Hlt|]. apply elem_of_keys. eauto.
      * destruct (decide (p ∈ removed)) as [Hin|_]; [|done].
        apply list_elem_of_filter in Hin as [Hin _]. congruence.
    + rewrite Hload.
      assert (Hsize : (size (foldl (fun data p => delete p data) h removed)
                       + length removed)%nat = size h); [|lia].
      apply size_delete_all.
      * apply NoDup_filter, keys_NoDup.
      * intros p Hp. apply list_elem_of_filter in Hp as [_ Hp].
        by apply elem_of_keys.
  - destruct Hspec as [-> Hload].
    split; [discriminate|]. split; [done|].
    rewrite Hload, map_size_empty. lia.
Qed.

Lemma clear_historical_data_removes_witness :
  exists n st',
    clear_historical_data two_periods (Some "2024-01-10") = Py.Ok (n, st')
    /\ _load_historical_data st' !! "2024-01-09" = None
    /\ _load_historical_data st' !! "2024-01-10"
       = _load_historical_data two_periods !! "2024-01-10".
Proof.
  destruct (clear_historical_data_removes two_periods (Some "2024-01-10") eq_refl)
    as (n & st' & Hrun & Hcut & _).
  exists n, st'. split; [exact Hrun|].
  split; [exact (Hcut "2024-01-10" eq_refl "2024-01-09")
         |exact (Hcut "2024-01-10" eq_refl "2024-01-10")].
Defined.
End StoreClaims.

(** ** The trend analysis *)

Section Analysis.
Import TrendEngineService.

Lemma trends_loop_cons self cur cmp name rest trends :
  trends_loop self cur cmp (name :: rest) trends
  = r ← record_of self name (default 0 (cur !! name)) (default 0 (cmp !! name));
    trends_loop self cur cmp rest (file_record name r trends).
Proof.
  simpl. unfold record_of.
  destruct (change_of self _ _) as [[[pc cls]|]|e]; simpl; try reflexivity.
  destruct (Float64.round _ _) as [rounded|e]; reflexivity.
Qed.

Lemma trends_loop_lookup self cur cmp skills :
  NoDup skills ->
  forall trends out,
    trends_loop self cur cmp skills trends = Py.Ok out ->
    forall name,
      (name ∈ skills ->
       exists r, record_of self name (default 0 (cur !! name))
                   (default 0 (cmp !! name)) = Py.Ok r
                 /\ out !! name = file_record name r trends !! name)
      /\ (name ∉ skills -> out !! name = trends !! name).
Proof.
  induction 1 as [|k skills Hk Hnd IH]; intros trends out Hrun name.
  - simpl in Hrun. injection Hrun as <-. split; [|done].
    intros Hin. by apply elem_of_nil in Hin.
  - rewrite trends_loop_cons in Hrun.
    apply bind_Ok in Hrun as (r & Hr & Hrest).
    destruct (IH _ _ Hrest name) as [Hin Hout]. split.
    + intros Hname. apply elem_of_cons in Hname as [->|Hname].
      * exists r. split; [exact Hr|]. by apply IH with (name := k) in Hrest as [_ ->].
      * destruct (Hin Hname) as (r' & Hr' & Hlook). exists r'. split; [exact Hr'|].
        rewrite Hlook. assert (name <> k) by (intros ->; contradiction).
        destruct r as [x|], r' as [x'|]; simpl;
          rewrite ?lookup_insert_eq, ?lookup_insert_ne by done; try done.
    + intros Hname. rewrite Hout.
      * destruct r as [x|]; simpl; [|done]. apply lookup_insert_ne.
        intros ->. apply Hname. by left.
      * intros Hin'. apply Hname. by right.
Qed.

Lemma trends_loop_total self cur cmp skills :
  (forall name, name ∈ skills ->
     exists r, record_of self name (default 0 (cur !! name))
                 (default 0 (cmp !! name)) = Py.Ok r) ->
  forall trends, exists out, trends_loop self cur cmp skills trends = Py.Ok out.
Proof.
  induction skills as [|k skills IH]; intros Hall trends.
  - simpl. eauto.
  - rewrite trends_loop_cons.
    destruct (Hall k) as [r ->]; [by left|]. simpl.
    apply IH. intros name Hname. apply Hall. by right.
Qed.

Lemma hundred_literal : Float64.literal 1000 1 = Float64.of_int 100.
Proof. vm_compute. reflexivity. Qed.

Lemma classify_all_as_new_lookup (counts : gmap string Z) (name : string) :
  _classify_all_as_new counts !! name = new_record name <$> counts !! name.
Proof.
  unfold _classify_all_as_new. rewrite hundred_literal.
  apply (map_fold_weak_ind
           (fun trends m => trends !! name = new_record name <$> m !! name)).
  - by rewrite !lookup_empty.
  - intros k count m trends Hk IH.
    destruct (decide (k = name)) as [->|Hne].
    + by rewrite !lookup_insert_eq.
    + by rewrite !lookup_insert_ne.
Qed.

Lemma analyze_trends_fallback self st cur cp pb :
  comparison_counts_of (_load_historical_data st) cp pb = Py.Ok None ->
  analyze_trends self st cur cp pb = Py.Ok (_classify_all_as_new cur).
Proof. unfold analyze_trends. by intros ->. Qed.

Lemma analyze_trends_compared self st cur cp pb cmp :
  comparison_counts_of (_load_historical_data st) cp pb = Py.Ok (Some cmp) ->
  analyze_trends self st cur cp pb
  = trends_loop self cur cmp (elements (dom cur ∪ dom cmp)) ∅.
Proof. unfold analyze_trends. by intros ->. Qed.

(** The entry of a skill after a comparison with [cmp]. *)
Lemma analyze_trends_lookup self st cur cp pb cmp trends name :
  comparison_counts_of (_load_historical_data st) cp pb = Py.Ok (Some cmp) ->
  analyze_trends self st cur cp pb = Py.Ok trends ->
  (default 0 (cur !! name) <> 0 \/ default 0 (cmp !! name) <> 0 ->
   exists r, record_of self name (default 0 (cur !! name))
               (default 0 (cmp !! name)) = Py.Ok r
             /\ trends !! name = r)
  /\ (default 0 (cur !! name) = 0 -> default 0 (cmp !! name) = 0 ->
      trends !! name = None).
Proof.
  intros Hcmp Hrun. rewrite (analyze_trends_compared _ _ _ _ _ _ Hcmp) in Hrun.
  destruct (trends_loop_lookup self cur cmp _ (NoDup_elements _) _ _ Hrun name)
    as [Hin Hout].
  split.
  - intros Hne.
    destruct Hin as (r & Hr & Hlook).
    { apply elem_of_elements, elem_of_union. rewrite !elem_of_dom.
      destruct (cur !! name), (cmp !! name); simpl in Hne; eauto;
        destruct Hne; done. }
    exists r. split; [exact Hr|]. rewrite Hlook.
    destruct r; simpl; [apply lookup_insert_eq|apply lookup_empty].
  - intros Hc Hp.
    destruct (decide (name ∈ elements (dom cur ∪ dom cmp))) as [Hel|Hel].
    + destruct (Hin Hel) as (r & Hr & ->).
      rewrite Hc, Hp in Hr. injection Hr as <-. apply lookup_empty.
    + rewrite (Hout Hel). apply lookup_empty.
Qed.
End Analysis.

(** ** Facts on the constants of the classification *)

Section Thresholds.
Import TrendEngineService.

(** The literal [0.15] is the double [5404319552844595 * 2^-55]. *)
Lemma fifteen_percent :
  Float64.literal 15 2 = S754_finite false 5404319552844595 (-55).
Proof. vm_compute. reflexivity. Qed.

Lemma class_thresholds :
  RISING_THRESHOLD class_attributes = Float64.literal 15 2
  /\ DECLINING_THRESHOLD class_attributes = Float64.neg (Float64.literal 15 2).
Proof. split; reflexivity. Qed.

(** [round(1.0 * 100, 2)] is [100.0]. *)
Lemma round_new_skill :
  Float64.round (Float64.mul (Float64.literal 10 1) (Float64.of_int 100)) 2
  = Py.Ok (Float64.of_int 100).
Proof. vm_compute. reflexivity. Qed.

(** A fraction at or below [-0.15] is not at or above [0.15]. *)
Lemma declining_not_rising (x : Float64.float) :
  Float64.le x (Float64.neg (Float64.literal 15 2)) = true ->
  Float64.ge x (Float64.literal 15 2) = false.
Proof.
  rewrite fifteen_percent.
  unfold Float64.le, Float64.ge, Float64.neg, SFleb, SFopp.
  destruct x as [[]|[]| |[] m e]; intros H; try reflexivity; discriminate H.
Qed.

Lemma class_attributes_band :
  class_attributes
  = with_stable_band (Float64.neg (Float64.literal 5 2)) (Float64.literal 5 2).
Proof. reflexivity. Qed.

Lemma classify_trend_cases (low high x : Float64.float) :
  let cls := _classify_trend (with_stable_band low high) x in
  (cls = "rising" <-> Float64.ge x (Float64.literal 15 2) = true)
  /\ (cls = "declining"
      <-> Float64.le x (Float64.neg (Float64.literal 15 2)) = true)
  /\ (cls = "stable"
      <-> Float64.ge x (Float64.literal 15 2) = false
          /\ Float64.le x (Float64.neg (Float64.literal 15 2)) = false).
Proof.
  unfold _classify_trend, with_stable_band.
  cbn [RISING_THRESHOLD DECLINING_THRESHOLD].
  pose proof (declining_not_rising x) as Hexcl.
  destruct (Float64.ge x (Float64.literal 15 2)) eqn:Hge;
    destruct (Float64.le x (Float64.neg (Float64.literal 15 2))) eqn:Hle;
    cbv zeta; repeat split; intros; try reflexivity; try discriminate;
    try (specialize (Hexcl eq_refl); discriminate);
    match goal with
    | H : _ /\ _ |- _ => destruct H; discriminate
    end.
Qed.

(** A change of exactly +15% or -15% yields the threshold itself, so the
    skill is rising, respectively declining: checked for the previous
    counts 20, 40, ..., 20000. *)
Lemma exact_fifteen_percent :
  forallb
    (fun k =>
       match Float64.int_true_div (23 * k - 20 * k) (20 * k),
             Float64.int_true_div (17 * k - 20 * k) (20 * k) with
       | Py.Ok up, Py.Ok down =>
           String.eqb (_classify_trend class_attributes up) "rising"
           && String.eqb (_classify_trend class_attributes down) "declining"
       | _, _ => false
       end)
    (map Z.of_nat (seq 1 1000)) = true.
Proof. vm_compute. reflexivity. Qed.

End Thresholds.

(** ** When the analysis returns *)

Section Returning.
Import TrendEngineService.

Lemma hundred_sized : sized 7 (-46) (Float64.of_int 100).
Proof. vm_compute. split; discriminate. Qed.

(** The loop body returns for counts whose difference is below [2^1000]. *)
Lemma record_of_returns (self : attributes) (name : string) (c p : Z) :
  Z.abs (c - p) < 2 ^ 1000 ->
  exists r, record_of self name c p = Py.Ok r.
Proof.
  intros Hlt. unfold record_of, change_of.
  destruct (Z.eqb_spec p 0) as [->|Hp].
  - destruct (0 <? c); [|by eexists].
    eexists. apply bind_Ok. eexists. split; [reflexivity|].
    apply bind_Ok. eexists. split; [apply round_new_skill|reflexivity].
  - destruct (int_true_div_returns (c - p) p 1000 Hp Hlt ltac:(lia))
      as (q & Hdiv & Hq).
    pose proof (mul_sized q (Float64.of_int 100) 1001 948 7 (-46) 956 Hq
                  hundred_sized ltac:(lia) ltac:(lia) ltac:(lia) ltac:(lia)
                  ltac:(lia)) as Hmul.
    destruct (round_returns _ _ _ Hmul ltac:(lia)) as [r Hr].
    eexists. apply bind_Ok. eexists. split.
    + apply bind_Ok. eexists. split; [exact Hdiv|reflexivity].
    + apply bind_Ok. eexists. split; [exact Hr|reflexivity].
Qed.

Lemma analyze_trends_returns (self : attributes) (st : storage)
    (cur : gmap string Z) (cp : option string) (pb : Z) (cmp : gmap string Z) :
  comparison_counts_of (_load_historical_data st) cp pb = Py.Ok (Some cmp) ->
  (forall name, Z.abs (default 0 (cur !! name) - default 0 (cmp !! name))
                < 2 ^ 1000) ->
  exists trends, analyze_trends self st cur cp pb = Py.Ok trends.
Proof.
  intros Hcmp Hsmall. rewrite (analyze_trends_compared _ _ _ _ _ _ Hcmp).
  apply trends_loop_total. intros name _. apply record_of_returns, Hsmall.
Qed.

End Returning.

Section AnalysisClaims.
Import TrendEngineService.

(** C1: in a comparison against a stored snapshot, a skill whose
    previous count is positive gets a record whose [percentage_change]
    is the fraction [(current - previous) / previous], multiplied by 100
    and rounded to 2 decimals, computed in binary64; its classification
    is rising exactly when the fraction is [>= 0.15], declining exactly
    when it is [<= -0.15] (both bounds included), and stable exactly
    when it is neither.  This holds whatever the values of the two
    stable-band attributes are.  The analysis returns whenever the
    counts differ by less than [2^1000]; beyond the range of binary64 the
    division raises [OverflowError]. *)
Theorem analyze_trends_previous_positive (low high : Float64.float)
    (st : storage) (cur : gmap string Z) (cp : option string) (pb : Z)
    (cmp : gmap string Z) (name : string) :
  comparison_counts_of (_load_historical_data st) cp pb = Py.Ok (Some cmp) ->
  0 < default 0 (cmp !! name) ->
  ((forall n, Z.abs (default 0 (cur !! n) - default 0 (cmp !! n)) < 2 ^ 1000) ->
   exists trends,
     analyze_trends (with_stable_band low high) st cur cp pb = Py.Ok trends)
  /\ forall trends,
       analyze_trends (with_stable_band low high) st cur cp pb = Py.Ok trends ->
       exists fraction pct cls,
         Float64.int_true_div
           (default 0 (cur !! name) - default 0 (cmp !! name))
           (default 0 (cmp !! name)) = Py.Ok fraction
         /\ Float64.round (Float64.mul fraction (Float64.of_int 100)) 2
            = Py.Ok pct
         /\ trends !! name
            = Some {| skill := name;
                      current_count := default 0 (cur !! name);
                      previous_count := default 0 (cmp !! name);
                      absolute_change :=
                        default 0 (cur !! name) - default 0 (cmp !! name);
                      percentage_change := pct;
                      trend := cls |}
         /\ (cls = "rising"
             <-> Float64.ge fraction (Float64.literal 15 2) = true)
         /\ (cls = "declining"
             <-> Float64.le fraction (Float64.neg (Float64.literal 15 2)) = true)
         /\ (cls = "stable"
             <-> Float64.ge fraction (Float64.literal 15 2) = false
                 /\ Float64.le fraction (Float64.neg (Float64.literal 15 2))
                    = false).
Proof.
  intros Hcmp Hpos. split; [by apply analyze_trends_returns|].
  intros trends Hrun.
  destruct (analyze_trends_lookup _ _ _ _ _ _ _ name Hcmp Hrun) as [Hin _].
  destruct Hin as (r & Hr & Hlook); [right; lia|].
  unfold record_of, change_of in Hr.
  destruct (Z.eqb_spec (default 0 (cmp !! name)) 0) as [Hz|_]; [lia|].
  apply bind_Ok in Hr as ([[fraction cls]|] & Hchange & Hr).
  - apply bind_Ok in Hchange as (fraction' & Hdiv & [= <- <-]).
    apply bind_Ok in Hr as (pct & Hround & [= <-]).
    exists fraction', pct, (_classify_trend (with_stable_band low high) fraction').
    split; [exact Hdiv|]. split; [exact Hround|]. split; [exact Hlook|].
    apply classify_trend_cases.
  - apply bind_Ok in Hchange as (fraction' & _ & [=]).
Qed.

(** C3: in a comparison against a stored snapshot, a skill whose
    previous count is 0 and whose current count is positive gets the
    record with [percentage_change = 100.0], classification rising and
    [absolute_change] equal to the current count; a skill whose previous
    and current counts are both 0 has no entry in the result.  The
    analysis returns whenever the counts differ by less than [2^1000]. *)
Theorem analyze_trends_previous_zero (self : attributes)
    (st : storage) (cur : gmap string Z) (cp : option string) (pb : Z)
    (cmp : gmap string Z) (name : string) :
  comparison_counts_of (_load_historical_data st) cp pb = Py.Ok (Some cmp) ->
  default 0 (cmp !! name) = 0 ->
  ((forall n, Z.abs (default 0 (cur !! n) - default 0 (cmp !! n)) < 2 ^ 1000) ->
   exists trends, analyze_trends self st cur cp pb = Py.Ok trends)
  /\ forall trends,
       analyze_trends self st cur cp pb = Py.Ok trends ->
       (0 < default 0 (cur !! name) ->
        trends !! name
        = Some {| skill := name;
                  current_count := default 0 (cur !! name);
                  previous_count := 0;
                  absolute_change := default 0 (cur !! name);
                  percentage_change := Float64.of_int 100;
                  trend := "rising" |})
       /\ (default 0 (cur !! name) = 0 -> trends !! name = None).
Proof.
  intros Hcmp Hprev. split; [by apply analyze_trends_returns|].
  intros trends Hrun.
  destruct (analyze_trends_lookup _ _ _ _ _ _ _ name Hcmp Hrun) as [Hin Hout].
  split.
  - intros Hpos. destruct Hin as (r & Hr & ->); [left; lia|].
    rewrite Hprev in Hr. unfold record_of, change_of in Hr.
    change (0 =? 0) with true in Hr. cbv iota in Hr.
    destruct (Z.ltb_spec 0 (default 0 (cur !! name))) as [_|Hle]; [|lia].
    apply bind_Ok in Hr as (change & [= <-] & Hr).
    apply bind_Ok in Hr as (pct & Hround & [= <-]).
    rewrite round_new_skill in Hround. injection Hround as <-.
    by rewrite Z.sub_0_r.
  - intros Hzero. by apply Hout.
Qed.

(** C6: when no stored history exists (no file, an unreadable one, or an
    empty history), or when the comparison period asked for is not in
    the stored history, [analyze_trends] returns, and its result holds,
    for exactly the skills of the current counts, the record with
    previous count 0, [absolute_change] equal to the current count,
    [percentage_change = 100.0] and classification rising.  (A period
    that is asked for is a non-empty string.) *)
Theorem analyze_trends_without_comparison (self : attributes)
    (st : storage) (cur : gmap string Z) (cp : option string) (pb : Z) :
  _load_historical_data st = ∅
  \/ (exists p, cp = Some p /\ p <> "" /\ _load_historical_data st !! p = None) ->
  exists trends,
    analyze_trends self st cur cp pb = Py.Ok trends
    /\ forall name,
         trends !! name
         = (fun count => {| skill := name;
                            current_count := count;
                            previous_count := 0;
                            absolute_change := count;
                            percentage_change := Float64.of_int 100;
                            trend := "rising" |}) <$> cur !! name.
Proof.
  intros Hcase. exists (_classify_all_as_new cur). split.
  - apply analyze_trends_fallback. unfold comparison_counts_of.
    destruct Hcase as [->|(p & -> & Hp & Hmiss)].
    + by rewrite decide_True.
    + destruct (decide (_load_historical_data st = ∅)); [done|].
      rewrite (proj2 (given_Some (Some p) p) (conj eq_refl Hp)).
      by rewrite Hmiss.
  - intros name. apply classify_all_as_new_lookup.
Qed.

Lemma winter_comparison :
  comparison_counts_of (_load_historical_data winter_store) None 1
  = Py.Ok (Some winter_counts).
Proof. vm_compute. reflexivity. Qed.

Lemma spring_analysis :
  exists trends,
    analyze_trends class_attributes winter_store spring_counts None 1
    = Py.Ok trends.
Proof. vm_compute. eexists. reflexivity. Qed.

Lemma analyze_trends_previous_positive_witness :
  exists trends r,
    analyze_trends class_attributes winter_store spring_counts None 1
    = Py.Ok trends
    /\ trends !! "Python" = Some r
    /\ trend r = "rising"
    /\ percentage_change r = Float64.of_int 15.
Proof.
  destruct spring_analysis as [trends Hrun]. exists trends.
  destruct (analyze_trends_previous_positive
              (Float64.neg (Float64.literal 5 2)) (Float64.literal 5 2)
              winter_store spring_counts None 1 winter_counts "Python"
              winter_comparison) as [_ Hrec].
  - vm_compute. reflexivity.
  - destruct (Hrec trends Hrun)
      as (fraction & pct & cls & Hdiv & Hround & Hlook & Hrise & _).
    vm_compute in Hdiv. injection Hdiv as <-.
    vm_compute in Hround. injection Hround as <-.
    eexists. split; [exact Hrun|]. split; [exact Hlook|].
    split; [|vm_compute; reflexivity].
    apply Hrise. vm_compute. reflexivity.
Defined.

Lemma analyze_trends_previous_zero_witness :
  exists trends r,
    analyze_trends class_attributes winter_store spring_counts None 1
    = Py.Ok trends
    /\ trends !! "Zig" = Some r
    /\ absolute_change r = 5
    /\ trend r = "rising"
    /\ trends !! "Cobol" = None.
Proof.
  destruct spring_analysis as [trends Hrun]. exists trends.
  destruct (analyze_trends_previous_zero class_attributes
              winter_store spring_counts None 1 winter_counts "Zig"
              winter_comparison eq_refl) as [_ Hzig].
  destruct (Hzig trends Hrun) as [Hnew _].
  destruct (analyze_trends_previous_zero class_attributes
              winter_store spring_counts None 1 winter_counts "Cobol"
              winter_comparison eq_refl) as [_ Hcobol].
  destruct (Hcobol trends Hrun) as [_ Hnone].
  eexists. split; [exact Hrun|].
  split; [apply Hnew; vm_compute; reflexivity|].
  split; [vm_compute; reflexivity|].
  split; [reflexivity|]. apply Hnone. reflexivity.
Defined.

Lemma analyze_trends_without_comparison_witness :
  exists trends r,
    analyze_trends class_attributes winter_store spring_counts
      (Some "2023-12-01") 1 = Py.Ok trends
    /\ trends !! "Go" = Some r
    /\ previous_count r = 0
    /\ absolute_change r = 85
    /\ trend r = "rising".
Proof.
  destruct (analyze_trends_without_comparison class_attributes winter_store
              spring_counts (Some "2023-12-01") 1) as (trends & Hrun & Hall).
  - right. exists "2023-12-01". split; [reflexivity|].
    split; [discriminate|]. vm_compute. reflexivity.
  - exists trends. eexists. split; [exact Hrun|].
    split; [rewrite Hall; reflexivity|]. repeat split.
Defined.
End AnalysisClaims.

(** ** Insertion-ordered dicts *)

Section DictFacts.
Context {V : Type}.
Implicit Types (d : list (string * V)) (k : string) (v : V).

Lemma dict_get_elem d k v : Py.dict_get k d = Some v -> (k, v) ∈ d.
Proof.
  induction d as [|[k' v'] d IH]; simpl; [discriminate|].
  destruct (String.eqb_spec k' k) as [->|_].
  - intros [= ->]. by left.
  - intros H. right. by apply IH.
Qed.

Lemma dict_get_is_Some d k : is_Some (Py.dict_get k d) <-> k ∈ d.*1.
Proof.
  induction d as [|[k' v'] d IH]; simpl.
  - split; [by intros [? ?]|]. intros H. by apply elem_of_nil in H.
  - rewrite elem_of_cons. simpl. destruct (String.eqb_spec k' k) as [->|Hne].
    + split; eauto.
    + rewrite IH. split; [by right|]. intros [->|H]; [contradiction|exact H].
Qed.

Lemma elem_of_dict_set d k v a x :
  (a, x) ∈ Py.dict_set k v d -> x = v \/ (a, x) ∈ d.
Proof.
  induction d as [|[k' v'] d IH]; simpl.
  - intros H. apply list_elem_of_singleton in H as [= _ ->]. by left.
  - destruct (String.eqb_spec k' k) as [->|_]; intros H;
      apply elem_of_cons in H as [[= -> ->]|H].
    + by left.
    + right. by right.
    + right. by left.
    + destruct (IH H) as [->|H']; [by left|]. right. by right.
Qed.
End DictFacts.

(** ** The alias map and the extraction loop *)

Section Extraction.
Import SkillExtractionService.

(** Every value of the alias map is a key of the catalog. *)
Lemma add_variations_values (P : string -> Prop) name vs :
  P name ->
  forall map, (forall a n, (a, n) ∈ map -> P n) ->
  forall a n, (a, n) ∈ add_variations name vs map -> P n.
Proof.
  intros Hname. induction vs as [|v vs IH]; intros map Hmap a n; simpl.
  - apply Hmap.
  - apply IH. intros a' n' H.
    destruct (elem_of_dict_set _ _ _ _ _ H) as [->|H']; eauto.
Qed.

Lemma build_loop_values (P : string -> Prop) items :
  (forall name meta, (name, meta) ∈ items -> P name) ->
  forall map, (forall a n, (a, n) ∈ map -> P n) ->
  forall a n, (a, n) ∈ build_loop items map -> P n.
Proof.
  induction items as [|[name meta] items IH]; intros Hitems map Hmap a n; simpl.
  - apply Hmap.
  - apply IH.
    + intros name' meta' H. eapply Hitems. by right.
    + apply add_variations_values.
      * eapply Hitems. by left.
      * intros a' n' H.
        destruct (elem_of_dict_set _ _ _ _ _ H) as [->|H']; eauto.
        eapply Hitems. by left.
Qed.

Lemma skill_map_values (skills_data : list (string * skill_metadata)) a n :
  (a, n) ∈ _build_skill_map skills_data ->
  is_Some (Py.dict_get n skills_data).
Proof.
  unfold _build_skill_map.
  apply (build_loop_values (fun n => is_Some (Py.dict_get n skills_data))).
  - intros name meta H. apply dict_get_is_Some.
    apply list_elem_of_fmap. by exists (name, meta).
  - intros a' n' H. by apply elem_of_nil in H.
Qed.

Lemma init_well_formed skills_data_file self :
  snd (__init__ skills_data_file) = Py.Ok self -> well_formed self.
Proof.
  unfold __init__.
  destruct (_load_skills_data skills_data_file) as [log [sd|e]]; simpl;
    [|discriminate].
  intros [= <-] a n. simpl. apply skill_map_values.
Qed.

Lemma extract_loop_spec (self : service) (text : list ascii) items :
  (forall a n, (a, n) ∈ items -> is_Some (Py.dict_get n (skills_data self))) ->
  forall discovered extracted,
    NoDup (names extracted) ->
    (forall n, n ∈ discovered <-> n ∈ names extracted) ->
    exists out,
      extract_loop self text items discovered extracted = Py.Ok out
      /\ NoDup (names out)
      /\ (forall n, n ∈ names extracted -> n ∈ names out)
      /\ (forall a n, (a, n) ∈ items -> re_search_word a text = true ->
                      n ∈ names out).
Proof.
  induction items as [|[alias name] items IH];
    intros Hitems discovered extracted Hnd Hdisc; simpl.
  - exists extracted. repeat split; auto.
    intros a n H. by apply elem_of_nil in H.
  - assert (Hrest : forall a n, (a, n) ∈ items ->
                                is_Some (Py.dict_get n (skills_data self))).
    { intros a n H. eapply Hitems. by right. }
    destruct (decide (name ∈ discovered)) as [Hseen|Hnew].
    { destruct (IH Hrest discovered extracted Hnd Hdisc)
        as (out & Hout & Hnd' & Hmono & Hfound).
      exists out. repeat split; auto.
      intros a n H Hmatch. apply elem_of_cons in H as [[= -> ->]|H].
      - apply Hmono. by apply Hdisc.
      - by eapply Hfound. }
    destruct (re_search_word alias text) eqn:Hmatch.
    + destruct (Hitems alias name) as [meta Hmeta]; [by left|].
      rewrite Hmeta.
      set (entry := {| skill := name;
                       skill_category := default "Unknown" (category meta) |}).
      destruct (IH Hrest ({[name]} ∪ discovered) (extracted ++ [entry]))
        as (out & Hout & Hnd' & Hmono & Hfound).
      * unfold names. rewrite fmap_app. apply NoDup_app. split; [exact Hnd|].
        split; [|apply NoDup_singleton].
        intros n Hn Hn'. apply list_elem_of_singleton in Hn'. subst n.
        apply Hnew. by apply Hdisc.
      * intros n. unfold names. rewrite fmap_app, elem_of_app, elem_of_union.
        change (skill <$> [entry]) with [name].
        rewrite elem_of_singleton, list_elem_of_singleton, Hdisc.
        unfold names. tauto.
      * exists out. repeat split; auto.
        -- intros n Hn. apply Hmono. unfold names.
           rewrite fmap_app, elem_of_app. by left.
        -- intros a n H Hm. apply elem_of_cons in H as [[= -> ->]|H].
           ++ apply Hmono. unfold names. rewrite fmap_app, elem_of_app.
              right. by apply list_elem_of_singleton.
           ++ by eapply Hfound.
    + destruct (IH Hrest discovered extracted Hnd Hdisc)
        as (out & Hout & Hnd' & Hmono & Hfound).
      exists out. repeat split; auto.
      intros a n H Hm. apply elem_of_cons in H as [[= -> ->]|H].
      * congruence.
      * by eapply Hfound.
Qed.
End Extraction.

Section ExtractionClaims.
Import SkillExtractionService.

Lemma sort_by_name_sorted (l : list extracted_skill) :
  StronglySorted by_name (sort_by_name l).
Proof.
  unfold sort_by_name.
  eapply StronglySorted_weaken; [|apply sort_stable_sorted].
  - intros a b. unfold may_precede, by_name. rewrite ltb_leb.
    by destruct (String.leb (skill a) (skill b)).
  - intros a b. rewrite !ltb_leb.
    destruct (String.leb_total (skill a) (skill b)) as [->| ->]; [|done].
    by destruct (String.leb (skill b) (skill a)).
  - intros a b c. unfold may_precede. rewrite !ltb_leb, !negb_false_iff.
    apply leb_trans.
Qed.

Lemma extract_skills_str (self : service) (s : string) :
  s <> "" ->
  extract_skills self (PyStr s)
  = extracted_skills_list ←
      extract_loop self (normalize_text s)
        (Py.sort_stable
           (fun y x => (String.length (fst x) <? String.length (fst y))%nat)
           (skill_map self)) ∅ [];
    Py.Ok (sort_by_name extracted_skills_list).
Proof.
  intros Hs. unfold extract_skills. simpl.
  destruct (String.eqb_spec s "") as [->|_]; [contradiction|]. reflexivity.
Qed.

Lemma extract_skills_not_text (self : service) (input_text : py_value) :
  isinstance_str input_text = false \/ input_text = PyStr "" ->
  extract_skills self input_text = Py.Ok [].
Proof.
  intros [H| ->]; [|reflexivity].
  unfold extract_skills. rewrite H. simpl. by rewrite orb_true_r.
Qed.

(** The loop run by [extract_skills] on a non-empty string. *)
Lemma extract_skills_run (self : service) (s : string) :
  well_formed self -> s <> "" ->
  exists out,
    extract_skills self (PyStr s) = Py.Ok (sort_by_name out)
    /\ NoDup (names out)
    /\ (forall a n, (a, n) ∈ skill_map self ->
                    re_search_word a (normalize_text s) = true ->
                    n ∈ names out).
Proof.
  intros Hwf Hs. rewrite (extract_skills_str self s Hs).
  destruct (extract_loop_spec self (normalize_text s)
              (Py.sort_stable
                 (fun y x => (String.length (fst x) <? String.length (fst y))%nat)
                 (skill_map self))) with (discovered := (∅ : gset string))
                                          (extracted := @nil extracted_skill)
    as (out & -> & Hnd & _ & Hfound).
  - intros a n H. apply (Hwf a n). by rewrite sort_stable_perm in H.
  - apply NoDup_nil_2.
  - intros n. simpl. rewrite elem_of_nil. set_solver.
  - exists out. split; [reflexivity|]. split; [exact Hnd|].
    intros a n H. apply Hfound. by rewrite sort_stable_perm.
Qed.

(** C5: on a service built by the constructor, [extract_skills] returns
    for every argument; the list it returns is in ascending order of the
    skill names (the order of [str]) and no two of its entries have the
    same skill name; for an argument that is not a string, or is the
    empty string, the list is empty. *)
Theorem extract_skills_sorted_unique (skills_data_file : json_file skills_json)
    (self : service) (input_text : py_value) :
  snd (__init__ skills_data_file) = Py.Ok self ->
  exists l,
    extract_skills self input_text = Py.Ok l
    /\ StronglySorted by_name l
    /\ NoDup (names l)
    /\ (isinstance_str input_text = false \/ input_text = PyStr "" -> l = []).
Proof.
  intros Hinit. apply init_well_formed in Hinit.
  assert (Hempty : forall v, extract_skills self v = Py.Ok [] ->
    exists l, extract_skills self v = Py.Ok l /\ StronglySorted by_name l
              /\ NoDup (names l)
              /\ (isinstance_str v = false \/ v = PyStr "" -> l = [])).
  { intros v ->. exists []. split; [reflexivity|].
    split; [constructor|]. split; [apply NoDup_nil_2|done]. }
  destruct input_text as [|b|n|s|b];
    try (apply Hempty, extract_skills_not_text; by left).
  destruct (decide (s = "")) as [->|Hs].
  { apply Hempty, extract_skills_not_text. by right. }
  destruct (extract_skills_run self s Hinit Hs) as (out & -> & Hnd & _).
  exists (sort_by_name out). split; [reflexivity|].
  split; [apply sort_by_name_sorted|]. split.
  - unfold names, sort_by_name. by rewrite sort_stable_perm.
  - intros [H|[= H]]; [discriminate|contradiction].
Qed.

Lemma node_service_built :
  snd (__init__ (Parsed node_catalog)) = Py.Ok node_service.
Proof. reflexivity. Qed.

Lemma extract_skills_sorted_unique_witness :
  exists l,
    extract_skills node_service (PyStr "We use  PYTHON3 and nodejs") = Py.Ok l
    /\ StronglySorted by_name l
    /\ NoDup (names l).
Proof.
  destruct (extract_skills_sorted_unique (Parsed node_catalog) node_service
              (PyStr "We use  PYTHON3 and nodejs") node_service_built)
    as (l & Hrun & Hsorted & Hnd & _).
  exists l. split; [exact Hrun|]. split; [exact Hsorted|exact Hnd].
Defined.

(** C2 does not hold of the code.  What the code does: on a service built
    by the constructor, whenever the aliases "node" and "node.js" belong
    to two different skills, the extraction from "Node.js developer"
    returns both skills, the one of "node" included: the word boundary
    after "node" is met at the dot, and the longer alias having matched
    first does not remove its text from the search. *)
Theorem shorter_alias_still_matches (skills_data_file : json_file skills_json)
    (self : service) (a b : string) :
  snd (__init__ skills_data_file) = Py.Ok self ->
  Py.dict_get "node" (skill_map self) = Some a ->
  Py.dict_get "node.js" (skill_map self) = Some b ->
  a <> b ->
  exists l,
    extract_skills self (PyStr "Node.js developer") = Py.Ok l
    /\ a ∈ names l /\ b ∈ names l.
Proof.
  intros Hinit Ha Hb _. apply init_well_formed in Hinit.
  destruct (extract_skills_run self "Node.js developer" Hinit)
    as (out & -> & _ & Hfound); [discriminate|].
  exists (sort_by_name out). split; [reflexivity|].
  unfold names, sort_by_name. rewrite sort_stable_perm.
  split; eapply Hfound; eauto using dict_get_elem.
Qed.

Lemma shorter_alias_still_matches_witness :
  extract_skills node_service (PyStr "Node.js developer")
  = Py.Ok [ {| skill := "Node"; skill_category := "Data Structures" |};
            {| skill := "Node.js"; skill_category := "Runtime" |} ]
  /\ exists l,
       extract_skills node_service (PyStr "Node.js developer") = Py.Ok l
       /\ "Node" ∈ names l /\ "Node.js" ∈ names l.
Proof.
  split; [vm_compute; reflexivity|].
  apply (shorter_alias_still_matches (Parsed node_catalog) node_service
           "Node" "Node.js" node_service_built);
    [reflexivity|reflexivity|discriminate].
Defined.
End ExtractionClaims.

(** ** Loading the catalog *)

Section CatalogClaims.
Import SkillExtractionService.

(** C4, as stated, fails: an empty catalog does not make the constructor
    raise. *)
Lemma empty_catalog_does_not_raise :
  ~ raises (snd (__init__ (Parsed empty_skills))).
Proof. intros [e He]. discriminate He. Qed.

(** C4, amended: the constructor raises [FileNotFoundError] when the
    catalog file is missing and [ValueError] when it is not valid JSON;
    when the file decodes to a catalog without skills (an empty
    ['skills'] mapping, or no ['skills'] key) it logs a warning and
    returns a service with an empty catalog and an empty alias map. *)
Theorem init_outcomes :
  __init__ Absent = ([ERROR; ERROR], Py.Raise Py.FileNotFoundError)
  /\ __init__ Corrupt = ([ERROR; ERROR], Py.Raise Py.ValueError)
  /\ __init__ (Parsed empty_skills)
     = ([WARNING; DEBUG; INFO], Py.Ok empty_service)
  /\ __init__ (Parsed no_skills_key)
     = ([WARNING; DEBUG; INFO], Py.Ok empty_service).
Proof. repeat split. Qed.

(** In the model the constructor raises for no other file. *)
Lemma init_raises_iff (skills_data_file : json_file skills_json) :
  raises (snd (__init__ skills_data_file))
  <-> skills_data_file = Absent \/ skills_data_file = Corrupt.
Proof.
  unfold raises. destruct skills_data_file as [| |json_data]; simpl.
  - split; eauto.
  - split; eauto.
  - split.
    + intros [e He]. unfold __init__, _load_skills_data in He.
      destruct (default [] (skills json_data)); discriminate He.
    + intros [H|H]; discriminate H.
Qed.
End CatalogClaims.

(** ** Period ids in order *)

Section Periods.
Import TrendEngineService.

Lemma leb_refl (s : string) : String.leb s s = true.
Proof. destruct (String.leb_total s s); assumption. Qed.

Lemma sorted_desc_perm (l : list string) : sorted_desc l ≡ₚ l.
Proof. apply sort_stable_perm. Qed.

Lemma sorted_desc_sorted (l : list string) :
  StronglySorted (fun a b => String.leb b a = true) (sorted_desc l).
Proof.
  unfold sorted_desc.
  eapply StronglySorted_weaken; [|apply sort_stable_sorted].
  - intros a b. unfold may_precede. rewrite ltb_leb.
    by destruct (String.leb b a).
  - intros a b. rewrite !ltb_leb.
    destruct (String.leb_total a b) as [->| ->]; [done|].
    by destruct (String.leb a b).
  - intros a b c. unfold may_precede. rewrite !ltb_leb, !negb_false_iff.
    intros H1 H2. by apply leb_trans with b.
Qed.

Lemma sorted_NoDup_strict (l : list string) :
  StronglySorted (fun a b => String.leb b a = true) l -> NoDup l ->
  StronglySorted newer_first l.
Proof.
  induction 1 as [|x l Hl IH Hx]; intros Hnd; [constructor|].
  apply NoDup_cons in Hnd as [Hnotin Hnd].
  constructor; [by apply IH|].
  apply Forall_forall. intros y Hy. rewrite Forall_forall in Hx.
  unfold newer_first. rewrite ltb_leb.
  destruct (String.leb x y) eqn:Hxy; [|done].
  exfalso. apply Hnotin.
  rewrite (String.leb_antisym x y Hxy (Hx y Hy)). exact Hy.
Qed.

Lemma newer_first_unique (l1 l2 : list string) :
  StronglySorted newer_first l1 -> StronglySorted newer_first l2 ->
  (forall p, p ∈ l1 <-> p ∈ l2) -> l1 = l2.
Proof.
  assert (Hirr : forall a b, newer_first a b -> a <> b).
  { intros a b H ->. unfold newer_first in H. by rewrite ltb_irrefl in H. }
  assert (Hasym : forall a b, newer_first a b -> newer_first b a -> False).
  { intros a b H1 H2. unfold newer_first in *. rewrite ltb_leb in H1, H2.
    apply negb_true_iff in H1, H2.
    destruct (String.leb_total a b); congruence. }
  revert l2. induction l1 as [|x l1 IH]; intros l2 H1 H2 Hel.
  - destruct l2 as [|y l2]; [done|].
    exfalso. apply (elem_of_nil y). apply Hel. by left.
  - destruct l2 as [|y l2].
    { exfalso. apply (elem_of_nil x). apply Hel. by left. }
    apply StronglySorted_inv in H1 as [H1 Hx], H2 as [H2 Hy].
    rewrite Forall_forall in Hx, Hy.
    assert (x = y) as ->.
    { destruct (decide (x = y)) as [|Hne]; [done|exfalso].
      assert (Hxin : x ∈ l2).
      { assert (Hx' : x ∈ y :: l2) by (apply Hel; by left).
        apply elem_of_cons in Hx' as [|]; [contradiction|done]. }
      assert (Hyin : y ∈ l1).
      { assert (Hy' : y ∈ x :: l1) by (apply Hel; by left).
        apply elem_of_cons in Hy' as [|]; [congruence|done]. }
      exact (Hasym x y (Hx y Hyin) (Hy x Hxin)). }
    f_equal. apply IH; [done|done|].
    intros p. split; intros Hp.
    + assert (Hp' : p ∈ y :: l2) by (apply Hel; by right).
      apply elem_of_cons in Hp' as [->|]; [|done].
      exfalso. exact (Hirr y y (Hx y Hp) eq_refl).
    + assert (Hp' : p ∈ y :: l1) by (apply Hel; by right).
      apply elem_of_cons in Hp' as [->|]; [|done].
      exfalso. exact (Hirr y y (Hy y Hp) eq_refl).
Qed.

Lemma newer_first_filter (P : string -> Prop) `{!forall p, Decision (P p)}
    (l : list string) :
  StronglySorted newer_first l -> StronglySorted newer_first (filter P l).
Proof.
  induction 1 as [|x l Hl IH Hx]; [constructor|].
  rewrite filter_cons. destruct (decide (P x)); [|exact IH].
  constructor; [exact IH|].
  apply Forall_forall. intros y Hy. apply list_elem_of_filter in Hy as [_ Hy].
  rewrite Forall_forall in Hx. by apply Hx.
Qed.

Lemma periods_elem (st : storage) (p : string) :
  p ∈ get_historical_periods st <-> is_Some (_load_historical_data st !! p).
Proof.
  unfold get_historical_periods. rewrite sorted_desc_perm. apply elem_of_keys.
Qed.

Lemma periods_sorted (st : storage) :
  StronglySorted newer_first (get_historical_periods st).
Proof.
  unfold get_historical_periods. apply sorted_NoDup_strict.
  - apply sorted_desc_sorted.
  - rewrite sorted_desc_perm. apply keys_NoDup.
Qed.

(** X1: [get_historical_periods] lists every stored period id exactly
    once, in strictly descending order of [str] (most recent first), and
    nothing else. *)
Theorem get_historical_periods_listing (st : storage) :
  StronglySorted newer_first (get_historical_periods st)
  /\ NoDup (get_historical_periods st)
  /\ length (get_historical_periods st) = size (_load_historical_data st)
  /\ forall p, p ∈ get_historical_periods st
               <-> is_Some (_load_historical_data st !! p).
Proof.
  split; [apply periods_sorted|]. split; [|split; [|apply periods_elem]].
  - unfold get_historical_periods. rewrite sorted_desc_perm. apply keys_NoDup.
  - unfold get_historical_periods.
    by rewrite (Permutation_length (sorted_desc_perm _)), keys_length.
Qed.

(** [seq[i]] *)
Lemma index_nonneg {A : Type} (l : list A) (i : Z) (x : A) :
  0 <= i -> l !! Z.to_nat i = Some x -> Py.index l i = Py.Ok x.
Proof.
  intros Hi Hx. pose proof (lookup_lt_Some _ _ _ Hx) as Hlt.
  unfold Py.index.
  destruct (Z.ltb_spec i 0) as [|_]; [lia|].
  destruct (Z.ltb_spec i 0) as [|_]; [lia|].
  destruct (Z.leb_spec (Z.of_nat (length l)) i) as [|_]; [lia|].
  simpl. by rewrite Hx.
Qed.

Lemma index_negative {A : Type} (l : list A) (i : Z) (x : A) :
  i < 0 -> 0 <= i + Z.of_nat (length l) ->
  l !! Z.to_nat (i + Z.of_nat (length l)) = Some x -> Py.index l i = Py.Ok x.
Proof.
  intros Hi Hlow Hx. pose proof (lookup_lt_Some _ _ _ Hx) as Hlt.
  unfold Py.index.
  destruct (Z.ltb_spec i 0) as [_|]; [|lia].
  destruct (Z.ltb_spec (i + Z.of_nat (length l)) 0) as [|_]; [lia|].
  destruct (Z.leb_spec (Z.of_nat (length l)) (i + Z.of_nat (length l)))
    as [|_]; [lia|].
  simpl. by rewrite Hx.
Qed.

Lemma index_below {A : Type} (l : list A) (i : Z) :
  i < - Z.of_nat (length l) -> Py.index l i = Py.Raise Py.IndexError.
Proof.
  intros Hi. unfold Py.index.
  destruct (Z.ltb_spec i 0) as [_|]; [|lia].
  destruct (Z.ltb_spec (i + Z.of_nat (length l)) 0) as [_|]; [|lia].
  reflexivity.
Qed.

Lemma index_elem {A : Type} (l : list A) (i : Z) (x : A) :
  Py.index l i = Py.Ok x -> x ∈ l.
Proof.
  unfold Py.index. destruct (_ || _); [discriminate|].
  destruct (l !! _) as [y|] eqn:Hy; [|discriminate].
  intros [= <-]. by eapply list_elem_of_lookup_2.
Qed.

Lemma sorted_lookup {A : Type} (R : A -> A -> Prop) (l : list A) :
  StronglySorted R l ->
  forall i j a b, l !! i = Some a -> l !! j = Some b -> (i < j)%nat -> R a b.
Proof.
  induction 1 as [|x l Hl IH Hx]; intros i j a b Ha Hb Hij.
  - by rewrite lookup_nil in Ha.
  - destruct j as [|j]; [lia|]. simpl in Hb. destruct i as [|i]; simpl in Ha.
    + injection Ha as <-. rewrite Forall_forall in Hx.
      apply Hx. by eapply list_elem_of_lookup_2.
    + eapply IH; eauto. lia.
Qed.

(** The first period listed is the most recent one, the last the oldest. *)
Lemma periods_first (st : storage) (key : string) :
  get_historical_periods st !! 0%nat = Some key ->
  most_recent (_load_historical_data st) key.
Proof.
  intros Hkey. split.
  - apply periods_elem. by eapply list_elem_of_lookup_2.
  - intros q Hq. apply periods_elem in Hq.
    apply list_elem_of_lookup_1 in Hq as [i Hi].
    destruct i as [|i]; [rewrite Hi in Hkey; injection Hkey as ->; apply leb_refl|].
    pose proof (sorted_lookup _ _ (periods_sorted st) 0%nat (S i) key q Hkey Hi
                  ltac:(lia)) as Hlt.
    unfold newer_first in Hlt. rewrite ltb_leb in Hlt.
    apply negb_true_iff in Hlt.
    destruct (String.leb_total q key); congruence.
Qed.

Lemma periods_last (st : storage) (key : string) :
  get_historical_periods st !! pred (length (get_historical_periods st))
  = Some key ->
  oldest (_load_historical_data st) key.
Proof.
  intros Hkey. split.
  - apply periods_elem. by eapply list_elem_of_lookup_2.
  - intros q Hq. apply periods_elem in Hq.
    apply list_elem_of_lookup_1 in Hq as [i Hi].
    pose proof (lookup_lt_Some _ _ _ Hi) as Hlt.
    destruct (decide (i = pred (length (get_historical_periods st)))) as [->|Hne].
    { rewrite Hi in Hkey. injection Hkey as ->. apply leb_refl. }
    pose proof (sorted_lookup _ _ (periods_sorted st) i _ q key Hi Hkey
                  ltac:(lia)) as Hord.
    unfold newer_first in Hord. rewrite ltb_leb in Hord.
    apply negb_true_iff in Hord.
    destruct (String.leb_total key q); congruence.
Qed.

(** How [analyze_trends] settles on the comparison snapshot. *)
Lemma comparison_explicit (h : gmap string snapshot) (key : string)
    (snap : snapshot) (pb : Z) :
  key <> "" -> h !! key = Some snap ->
  comparison_counts_of h (Some key) pb = Py.Ok (Some (skill_counts snap)).
Proof.
  intros Hkey Hsnap. unfold comparison_counts_of.
  destruct (decide (h = ∅)) as [->|_]; [by rewrite lookup_empty in Hsnap|].
  rewrite (proj2 (given_Some (Some key) key) (conj eq_refl Hkey)).
  by rewrite Hsnap.
Qed.

Lemma comparison_lookback (st : storage) (cp : option string) (pb : Z) :
  _load_historical_data st <> ∅ -> Py.given cp = None ->
  comparison_counts_of (_load_historical_data st) cp pb
  = key ← Py.index (get_historical_periods st)
            (Z.min (pb - 1) (Z.of_nat (size (_load_historical_data st)) - 1));
    match _load_historical_data st !! key with
    | None => Py.Raise Py.KeyError
    | Some comparison_data => Py.Ok (Some (skill_counts comparison_data))
    end.
Proof.
  intros Hne Hcp. unfold comparison_counts_of, get_historical_periods.
  destruct (decide (_load_historical_data st = ∅)); [contradiction|].
  rewrite Hcp.
  assert (Hlen : length (sorted_desc (keys (_load_historical_data st)))
                 = size (_load_historical_data st)).
  { by rewrite (Permutation_length (sorted_desc_perm _)), keys_length. }
  rewrite <- Hlen.
  destruct (sorted_desc (keys (_load_historical_data st))) eqn:Hs; [|done].
  exfalso. simpl in Hlen. symmetry in Hlen.
  by apply map_size_empty_iff in Hlen.
Qed.

Lemma analyze_trends_same_comparison self st cur cp1 pb1 cp2 pb2 found :
  comparison_counts_of (_load_historical_data st) cp1 pb1 = Py.Ok found ->
  comparison_counts_of (_load_historical_data st) cp2 pb2 = Py.Ok found ->
  analyze_trends self st cur cp1 pb1 = analyze_trends self st cur cp2 pb2.
Proof. unfold analyze_trends. by intros -> ->. Qed.

Lemma analyze_trends_at_index self st cur cp pb key :
  _load_historical_data st <> ∅ -> Py.given cp = None ->
  Py.index (get_historical_periods st)
    (Z.min (pb - 1) (Z.of_nat (size (_load_historical_data st)) - 1))
  = Py.Ok key ->
  key <> "" ->
  forall pb', analyze_trends self st cur cp pb
              = analyze_trends self st cur (Some key) pb'.
Proof.
  intros Hne Hcp Hidx Hkey pb'.
  pose proof (index_elem _ _ _ Hidx) as Hin. apply periods_elem in Hin as [snap Hsnap].
  apply analyze_trends_same_comparison with (found := Some (skill_counts snap)).
  - rewrite (comparison_lookback st cp pb Hne Hcp), Hidx. simpl. by rewrite Hsnap.
  - by apply comparison_explicit.
Qed.

(** X2: when no comparison period is given and the history is not
    empty, [analyze_trends] with [periods_back >= 1] compares against the
    period at position [min(periods_back - 1, n - 1)] of the listing of
    [get_historical_periods]: the most recent period for
    [periods_back = 1], the oldest one as soon as [periods_back] reaches
    the number [n] of stored periods.  The result is the one obtained by
    naming that period explicitly. *)
Theorem analyze_trends_periods_back (self : attributes) (st : storage)
    (cur : gmap string Z) (cp : option string) (pb : Z) :
  _load_historical_data st <> ∅ ->
  Py.given cp = None ->
  1 <= pb ->
  exists key,
    get_historical_periods st
      !! Z.to_nat (Z.min (pb - 1) (Z.of_nat (size (_load_historical_data st)) - 1))
    = Some key
    /\ (pb = 1 -> most_recent (_load_historical_data st) key)
    /\ (Z.of_nat (size (_load_historical_data st)) <= pb ->
        oldest (_load_historical_data st) key)
    /\ (key <> "" ->
        forall pb', analyze_trends self st cur cp pb
                    = analyze_trends self st cur (Some key) pb').
Proof.
  intros Hne Hcp Hpb.
  destruct (get_historical_periods_listing st) as (_ & _ & Hlen & _).
  assert (Hsize : size (_load_historical_data st) <> 0%nat)
    by (by apply map_size_non_empty_iff).
  set (i := Z.min (pb - 1) (Z.of_nat (size (_load_historical_data st)) - 1)).
  destruct (lookup_lt_is_Some_2 (get_historical_periods st) (Z.to_nat i))
    as [key Hkey]; [unfold i; lia|].
  exists key. split; [exact Hkey|]. split; [|split].
  - intros ->. apply periods_first. unfold i in Hkey.
    by replace (Z.to_nat _) with 0%nat in Hkey by lia.
  - intros Hbig. apply periods_last. unfold i in Hkey.
    by replace (Z.to_nat _) with (pred (length (get_historical_periods st)))
      in Hkey by lia.
  - intros Hk pb'. apply analyze_trends_at_index; try done.
    apply index_nonneg; [unfold i; lia|exact Hkey].
Qed.

(** X3: [periods_back <= 0] is not rejected.  With [n] stored periods
    and no comparison period given, a value in [(-n, 0]] counts from the
    end of the listing ([periods_back = 0] selects the oldest period), and
    a value [<= -n] makes [analyze_trends] raise [IndexError]. *)
Theorem analyze_trends_periods_back_nonpositive (self : attributes)
    (st : storage) (cur : gmap string Z) (cp : option string) (pb : Z) :
  _load_historical_data st <> ∅ ->
  Py.given cp = None ->
  pb <= 0 ->
  (- Z.of_nat (size (_load_historical_data st)) < pb ->
   exists key,
     get_historical_periods st
       !! Z.to_nat (Z.of_nat (size (_load_historical_data st)) + pb - 1)
     = Some key
     /\ (pb = 0 -> oldest (_load_historical_data st) key)
     /\ (key <> "" ->
         forall pb', analyze_trends self st cur cp pb
                     = analyze_trends self st cur (Some key) pb'))
  /\ (pb <= - Z.of_nat (size (_load_historical_data st)) ->
      analyze_trends self st cur cp pb = Py.Raise Py.IndexError).
Proof.
  intros Hne Hcp Hpb.
  destruct (get_historical_periods_listing st) as (_ & _ & Hlen & _).
  assert (Hsize : size (_load_historical_data st) <> 0%nat)
    by (by apply map_size_non_empty_iff).
  assert (Hmin : Z.min (pb - 1) (Z.of_nat (size (_load_historical_data st)) - 1)
                 = pb - 1) by lia.
  split.
  - intros Hlow.
    destruct (lookup_lt_is_Some_2 (get_historical_periods st)
                (Z.to_nat (Z.of_nat (size (_load_historical_data st)) + pb - 1)))
      as [key Hkey]; [lia|].
    exists key. split; [exact Hkey|]. split.
    + intros ->. apply periods_last.
      by replace (Z.to_nat _) with (pred (length (get_historical_periods st)))
        in Hkey by lia.
    + intros Hk pb'. apply analyze_trends_at_index; try done.
      rewrite Hmin. apply index_negative; [lia|lia|].
      by replace (pb - 1 + Z.of_nat (length (get_historical_periods st)))
        with (Z.of_nat (size (_load_historical_data st)) + pb - 1) by lia.
  - intros Hlow. unfold analyze_trends.
    rewrite (comparison_lookback st cp pb Hne Hcp), Hmin.
    rewrite index_below by lia. reflexivity.
Qed.

End Periods.

(** ** The records of an analysis *)

Section Records.
Import TrendEngineService.

Lemma classify_trend_classified (self : attributes) (x : Float64.float) :
  _classify_trend self x = "rising" \/ _classify_trend self x = "stable"
  \/ _classify_trend self x = "declining".
Proof.
  unfold _classify_trend.
  destruct (Float64.ge _ _); [by left|].
  destruct (Float64.le _ _); [by right; right|by right; left].
Qed.

Lemma record_of_Some self name c p r :
  record_of self name c p = Py.Ok (Some r) ->
  skill r = name /\ current_count r = c /\ previous_count r = p
  /\ absolute_change r = c - p /\ classified r /\ (p <> 0 \/ 0 < c).
Proof.
  unfold record_of, change_of. intros H.
  apply bind_Ok in H as ([[pc cls]|] & Hchange & H); [|discriminate].
  apply bind_Ok in H as (rounded & _ & [= <-]). simpl.
  repeat split; try reflexivity.
  - unfold classified. simpl.
    destruct (p =? 0).
    + destruct (0 <? c); [|discriminate]. injection Hchange as _ <-. by left.
    + apply bind_Ok in Hchange as (q & _ & [= _ <-]).
      apply classify_trend_classified.
  - destruct (Z.eqb_spec p 0) as [Hp|Hp]; [|by left].
    destruct (Z.ltb_spec 0 c); [by right|discriminate].
Qed.

Lemma record_of_None self name c p :
  record_of self name c p = Py.Ok None -> p = 0 /\ c <= 0.
Proof.
  unfold record_of, change_of. intros H.
  apply bind_Ok in H as ([[pc cls]|] & Hchange & H).
  { apply bind_Ok in H as (rounded & _ & [=]). }
  destruct (Z.eqb_spec p 0) as [Hp|Hp].
  - destruct (Z.ltb_spec 0 c); [discriminate|]. lia.
  - apply bind_Ok in Hchange as (q & _ & [=]).
Qed.

(** Every entry of a result, whichever path produced it. *)
Lemma analyze_trends_entry self st cur cp pb trends name r :
  analyze_trends self st cur cp pb = Py.Ok trends ->
  trends !! name = Some r ->
  skill r = name /\ current_count r = default 0 (cur !! name)
  /\ absolute_change r = current_count r - previous_count r
  /\ classified r.
Proof.
  intros Hrun Hr.
  destruct (comparison_counts_of (_load_historical_data st) cp pb)
    as [[cmp|]|e] eqn:Hcmp.
  - destruct (analyze_trends_lookup _ _ _ _ _ _ _ name Hcmp Hrun) as [Hin Hout].
    destruct (decide (default 0 (cur !! name) = 0
                      /\ default 0 (cmp !! name) = 0)) as [[Hc Hp]|Hne].
    { rewrite (Hout Hc Hp) in Hr. discriminate. }
    destruct Hin as (r' & Hrec & Hlook); [lia|].
    rewrite Hr in Hlook. subst r'.
    apply record_of_Some in Hrec
      as (Hs & Hc & Hp & Ha & Hcls & _).
    rewrite Hc, Hp. auto.
  - rewrite (analyze_trends_fallback self st cur cp pb Hcmp) in Hrun.
    injection Hrun as <-. rewrite classify_all_as_new_lookup in Hr.
    destruct (cur !! name) as [count|]; [|discriminate].
    injection Hr as <-. simpl. repeat split; [lia|]. by left.
  - unfold analyze_trends in Hrun. rewrite Hcmp in Hrun. discriminate.
Qed.

(** X4: in every result of [analyze_trends], the record filed under a
    skill names that skill, carries the current count of the call (0 when
    the skill is absent from the current counts), has
    [absolute_change = current_count - previous_count], and has one of the
    three classifications. *)
Theorem analyze_trends_records (self : attributes) (st : storage)
    (cur : gmap string Z) (cp : option string) (pb : Z)
    (trends : gmap string trend_record) :
  analyze_trends self st cur cp pb = Py.Ok trends ->
  forall name r,
    trends !! name = Some r ->
    skill r = name
    /\ current_count r = default 0 (cur !! name)
    /\ absolute_change r = current_count r - previous_count r
    /\ classified r.
Proof. intros Hrun name r Hr. exact (analyze_trends_entry _ _ _ _ _ _ _ _ Hrun Hr). Qed.

(** X5: which skills get an entry.  After a comparison against a stored
    snapshot, exactly the skills whose previous count is not 0 or whose
    current count is positive; in the fallback without comparison data,
    exactly the keys of the current counts, zero counts included. *)
Theorem analyze_trends_entries (self : attributes) (st : storage)
    (cur : gmap string Z) (cp : option string) (pb : Z)
    (trends : gmap string trend_record) :
  analyze_trends self st cur cp pb = Py.Ok trends ->
  exists found,
    comparison_counts_of (_load_historical_data st) cp pb = Py.Ok found
    /\ match found with
       | None =>
           forall name, is_Some (trends !! name) <-> is_Some (cur !! name)
       | Some cmp =>
           forall name,
             is_Some (trends !! name)
             <-> (default 0 (cmp !! name) <> 0 \/ 0 < default 0 (cur !! name))
       end.
Proof.
  intros Hrun.
  destruct (comparison_counts_of (_load_historical_data st) cp pb)
    as [[cmp|]|e] eqn:Hcmp.
  - exists (Some cmp). split; [reflexivity|]. intros name.
    destruct (analyze_trends_lookup _ _ _ _ _ _ _ name Hcmp Hrun) as [Hin Hout].
    split.
    + intros [r Hr].
      destruct (decide (default 0 (cur !! name) = 0
                        /\ default 0 (cmp !! name) = 0)) as [[Hc Hp]|Hne].
      { rewrite (Hout Hc Hp) in Hr. discriminate. }
      destruct Hin as (r' & Hrec & Hlook); [lia|].
      rewrite Hr in Hlook. subst r'.
      apply record_of_Some in Hrec as (_ & _ & _ & _ & _ & H). exact H.
    + intros Hdom. destruct Hin as (r' & Hrec & Hlook); [lia|].
      destruct r' as [r|]; [by rewrite Hlook|].
      apply record_of_None in Hrec. lia.
  - exists None. split; [reflexivity|]. intros name.
    rewrite (analyze_trends_fallback self st cur cp pb Hcmp) in Hrun.
    injection Hrun as <-. rewrite classify_all_as_new_lookup.
    by rewrite fmap_is_Some.
  - unfold analyze_trends in Hrun. rewrite Hcmp in Hrun. discriminate.
Qed.

(** X6: [get_trend_summary] applied to the values of a result of
    [analyze_trends], in any order, never raises [KeyError], and the sizes
    of its three lists add up to the number of skills analysed. *)
Theorem summary_of_analysis (self : attributes) (st : storage)
    (cur : gmap string Z) (cp : option string) (pb : Z)
    (trends : gmap string trend_record) (values : list trend_record) :
  analyze_trends self st cur cp pb = Py.Ok trends ->
  values ≡ₚ (map_to_list trends).*2 ->
  exists s,
    get_trend_summary values = Py.Ok s
    /\ (length (rising s) + length (stable s) + length (declining s))%nat
       = size trends.
Proof.
  intros Hrun Hvalues.
  assert (Hall : Forall classified values).
  { rewrite Hvalues. apply Forall_forall. intros r Hr.
    apply list_elem_of_fmap in Hr as ([k r'] & -> & Hkr).
    apply elem_of_map_to_list in Hkr.
    by destruct (analyze_trends_entry _ _ _ _ _ _ _ _ Hrun Hkr) as (_ & _ & _ & H). }
  unfold get_trend_summary.
  destruct (summary_loop_classified values Hall
              {| rising := []; stable := []; declining := [] |})
    as (s & -> & Hr & Hs & Hd).
  simpl in Hr, Hs, Hd. simpl. eexists. split; [reflexivity|]. simpl.
  rewrite !(Permutation_length (sort_by_change_perm _)), Hr, Hs, Hd.
  pose proof (Permutation_length (three_way_split values Hall)) as Hlen.
  rewrite !length_app in Hlen.
  assert (Hsize : length values = size trends).
  { by rewrite Hvalues, length_fmap, length_map_to_list. }
  lia.
Qed.

End Records.

(** ** The store and the analysis together *)

Section StoreAndAnalysis.
Import TrendEngineService.

Lemma of_int_hundred :
  Float64.of_int 100 = S754_finite false 7036874417766400 (-46).
Proof. vm_compute. reflexivity. Qed.

(** A count compared with itself. *)
Lemma record_of_unchanged (low high : Float64.float) (name : string) (c : Z) :
  c <> 0 ->
  record_of (with_stable_band low high) name c c
  = Py.Ok (Some (unchanged_record name c)).
Proof.
  intros Hc. unfold record_of, change_of.
  destruct (Z.eqb_spec c 0) as [|_]; [contradiction|].
  replace (c - c) with 0 by lia.
  assert (Hdiv : Float64.int_true_div 0 c = Py.Ok (S754_zero (c <? 0))).
  { unfold Float64.int_true_div.
    destruct (Z.eqb_spec c 0) as [|_]; [contradiction|].
    unfold Float64.of_ratio. by destruct c. }
  rewrite Hdiv.
  assert (Hmul : Float64.mul (S754_zero (c <? 0)) (Float64.of_int 100)
                 = S754_zero (c <? 0)).
  { rewrite of_int_hundred. unfold Float64.mul. by destruct (c <? 0). }
  assert (Hcls : _classify_trend (with_stable_band low high) (S754_zero (c <? 0))
                 = "stable").
  { unfold _classify_trend, with_stable_band.
    cbn [RISING_THRESHOLD DECLINING_THRESHOLD]. rewrite fifteen_percent.
    by destruct (c <? 0). }
  apply bind_Ok. eexists. split; [reflexivity|].
  cbv beta iota. rewrite Hmul, Hcls.
  apply bind_Ok. eexists. split; [reflexivity|]. reflexivity.
Qed.

(** X7: comparing counts with the snapshot just saved from them always
    returns: every skill with a non-zero count is stable with
    [absolute_change = 0] and a zero [percentage_change], and a skill with
    count 0 has no entry. *)
Theorem analyze_trends_against_itself (low high : Float64.float)
    (st st' : storage) (counts : gmap string Z) (p today stamp : string)
    (pb : Z) :
  p <> "" ->
  save_skill_frequencies st counts (Some p) today stamp = Py.Ok (p, st') ->
  exists trends,
    analyze_trends (with_stable_band low high) st' counts (Some p) pb
    = Py.Ok trends
    /\ forall name,
         trends !! name
         = match counts !! name with
           | Some c => if c =? 0 then None else Some (unchanged_record name c)
           | None => None
           end.
Proof.
  intros Hp Hsave.
  destruct (save_skill_frequencies_Ok _ _ _ _ _ _ _ Hsave) as (_ & Hload & _).
  assert (Hcmp : comparison_counts_of (_load_historical_data st') (Some p) pb
                 = Py.Ok (Some counts)).
  { rewrite (comparison_explicit _ p (entry_of counts p stamp) pb Hp);
      [reflexivity|]. by rewrite Hload, lookup_insert_eq. }
  assert (Hrec : forall name,
            record_of (with_stable_band low high) name
              (default 0 (counts !! name)) (default 0 (counts !! name))
            = Py.Ok (match counts !! name with
                     | Some c => if c =? 0 then None
                                 else Some (unchanged_record name c)
                     | None => None
                     end)).
  { intros name. destruct (counts !! name) as [c|]; simpl; [|reflexivity].
    destruct (Z.eqb_spec c 0) as [->|Hc]; [reflexivity|].
    by apply record_of_unchanged. }
  destruct (trends_loop_total (with_stable_band low high) counts counts
              (elements (dom counts ∪ dom counts))) with (trends := (∅ : gmap string trend_record))
    as [trends Hrun].
  { intros name _. rewrite Hrec. eauto. }
  rewrite <- (analyze_trends_compared _ st' _ (Some p) pb _ Hcmp) in Hrun.
  exists trends. split; [exact Hrun|]. intros name.
  destruct (analyze_trends_lookup _ _ _ _ _ _ _ name Hcmp Hrun) as [Hin Hout].
  destruct (decide (default 0 (counts !! name) = 0)) as [Hz|Hnz].
  - rewrite (Hout Hz Hz).
    destruct (counts !! name) as [c|]; [|reflexivity].
    simpl in Hz. subst c. reflexivity.
  - destruct Hin as (r & Hr & ->); [by left|].
    rewrite Hrec in Hr. by injection Hr as <-.
Qed.

(** What is left of the history after [clear_historical_data]. *)
Lemma clear_historical_data_lookup st before_period n st' :
  clear_historical_data st before_period = Py.Ok (n, st') ->
  forall p,
    _load_historical_data st' !! p
    = match Py.given before_period with
      | None => None
      | Some cutoff =>
          if String.ltb p cutoff then None else _load_historical_data st !! p
      end.
Proof.
  intros Hrun p.
  pose proof (clear_historical_data_Ok _ _ _ _ Hrun) as Hspec.
  destruct (Py.given before_period) as [cutoff|].
  - destruct Hspec as [_ ->]. rewrite lookup_delete_all.
    destruct (String.ltb p cutoff) eqn:Hlt.
    + destruct (decide (p ∈ _)) as [_|Hnin]; [done|].
      destruct (_load_historical_data st !! p) eqn:Hp; [|done].
      exfalso. apply Hnin. apply list_elem_of_filter.
      split; [exact Hlt|]. apply elem_of_keys. eauto.
    + destruct (decide (p ∈ _)) as [Hin|_]; [|done].
      apply list_elem_of_filter in Hin as [Hin _]. congruence.
  - destruct Hspec as [_ ->]. apply lookup_empty.
Qed.

(** X8: after [clear_historical_data] with a cutoff,
    [get_historical_periods] lists exactly the periods it listed before
    that are not below the cutoff, in the same order; after a call without
    cutoff it lists nothing.  The number returned is the difference of the
    two listings' lengths. *)
Theorem clear_then_periods (st st' : storage) (before_period : option string)
    (n : Z) :
  clear_historical_data st before_period = Py.Ok (n, st') ->
  get_historical_periods st'
  = match Py.given before_period with
    | None => []
    | Some cutoff =>
        filter (fun p => String.ltb p cutoff = false)
               (get_historical_periods st)
    end
  /\ n = Z.of_nat (length (get_historical_periods st))
         - Z.of_nat (length (get_historical_periods st')).
Proof.
  intros Hrun.
  pose proof (clear_historical_data_lookup _ _ _ _ Hrun) as Hlook.
  assert (Hlist : get_historical_periods st'
                  = match Py.given before_period with
                    | None => []
                    | Some cutoff =>
                        filter (fun p => String.ltb p cutoff = false)
                               (get_historical_periods st)
                    end).
  { apply newer_first_unique.
    - apply periods_sorted.
    - destruct (Py.given before_period); [|constructor].
      apply newer_first_filter, periods_sorted.
    - intros p. rewrite periods_elem, Hlook.
      destruct (Py.given before_period) as [cutoff|].
      + rewrite list_elem_of_filter, periods_elem.
        destruct (String.ltb p cutoff); [|tauto].
        split; [by intros [? ?]|by intros [? _]].
      + rewrite elem_of_nil. split; [by intros [? ?]|done]. }
  split; [exact Hlist|].
  pose proof (clear_historical_data_Ok _ _ _ _ Hrun) as Hspec.
  destruct (get_historical_periods_listing st) as (_ & _ & Hlen & _).
  destruct (get_historical_periods_listing st') as (_ & _ & Hlen' & _).
  rewrite Hlen, Hlen'.
  destruct (Py.given before_period) as [cutoff|].
  - destruct Hspec as [-> Hload]. rewrite Hload.
    set (h := _load_historical_data st).
    set (removed := filter (fun p => String.ltb p cutoff = true) (keys h)).
    assert (Hsize : (size (foldl (fun data p => delete p data) h removed)
                     + length removed)%nat = size h); [|lia].
    apply size_delete_all.
    + apply NoDup_filter, keys_NoDup.
    + intros p Hp. apply list_elem_of_filter in Hp as [_ Hp].
      by apply elem_of_keys.
  - destruct Hspec as [-> Hload]. rewrite Hload, map_size_empty. lia.
Qed.

(** X9: after a successful [save_skill_frequencies],
    [get_historical_periods] lists the period id returned together with
    exactly the ids listed before; the listing grows by one entry when the
    id is new and keeps its length when the id is overwritten. *)
Theorem save_then_periods (st st' : storage) (counts : gmap string Z)
    (period : option string) (today stamp p : string) :
  save_skill_frequencies st counts period today stamp = Py.Ok (p, st') ->
  p ∈ get_historical_periods st'
  /\ (forall q, q ∈ get_historical_periods st'
                <-> q = p \/ q ∈ get_historical_periods st)
  /\ (length (get_historical_periods st')
      = if decide (p ∈ get_historical_periods st)
        then length (get_historical_periods st)
        else S (length (get_historical_periods st))).
Proof.
  intros Hsave.
  destruct (save_skill_frequencies_Ok _ _ _ _ _ _ _ Hsave) as (_ & Hload & _).
  assert (Hel : forall q, q ∈ get_historical_periods st'
                          <-> q = p \/ q ∈ get_historical_periods st).
  { intros q. rewrite !periods_elem, Hload.
    destruct (decide (q = p)) as [->|Hne].
    - rewrite lookup_insert_eq. split; [by left|eauto].
    - rewrite lookup_insert_ne by done. split; [by right|].
      by intros [|]. }
  split; [apply Hel; by left|]. split; [exact Hel|].
  destruct (get_historical_periods_listing st) as (_ & _ & Hlen & _).
  destruct (get_historical_periods_listing st') as (_ & _ & Hlen' & _).
  rewrite Hlen, Hlen', Hload.
  destruct (decide (p ∈ get_historical_periods st)) as [Hin|Hnin].
  - apply periods_elem in Hin as [snap Hsnap].
    rewrite map_size_insert_Some; [done|eauto].
  - rewrite map_size_insert_None; [done|].
    destruct (_load_historical_data st !! p) eqn:Hp; [|done].
    exfalso. apply Hnin, periods_elem. eauto.
Qed.

End StoreAndAnalysis.

Section TrendWitnesses.
Import TrendEngineService.

Lemma two_periods_not_empty : _load_historical_data two_periods <> ∅.
Proof.
  intros H. apply (f_equal (fun h => h !! "2024-01-10")) in H.
  vm_compute in H. discriminate H.
Qed.

Lemma analyze_trends_periods_back_witness :
  exists key,
    get_historical_periods two_periods !! 0%nat = Some key
    /\ most_recent (_load_historical_data two_periods) key.
Proof.
  destruct (analyze_trends_periods_back class_attributes two_periods
              january_counts None 1 two_periods_not_empty eq_refl)
    as (key & Hkey & Hrecent & _); [lia|].
  exists key. split; [exact Hkey|by apply Hrecent].
Defined.

Lemma analyze_trends_periods_back_nonpositive_witness :
  analyze_trends class_attributes two_periods january_counts None (-3)
  = Py.Raise Py.IndexError.
Proof.
  destruct (analyze_trends_periods_back_nonpositive class_attributes
              two_periods january_counts None (-3) two_periods_not_empty
              eq_refl) as [_ Hraise]; [lia|].
  apply Hraise. vm_compute. discriminate.
Defined.

Lemma spring_python :
  exists trends r,
    analyze_trends class_attributes winter_store spring_counts None 1
    = Py.Ok trends /\ trends !! "Python" = Some r.
Proof. vm_compute. eexists. eexists. split; reflexivity. Qed.

Lemma analyze_trends_records_witness :
  exists trends r,
    analyze_trends class_attributes winter_store spring_counts None 1
    = Py.Ok trends
    /\ trends !! "Python" = Some r
    /\ skill r = "Python"
    /\ absolute_change r = current_count r - previous_count r.
Proof.
  destruct spring_python as (trends & r & Hrun & Hr).
  destruct (analyze_trends_records class_attributes winter_store spring_counts
              None 1 trends Hrun "Python" r Hr) as (Hs & _ & Ha & _).
  exists trends, r. auto.
Defined.

Lemma analyze_trends_entries_witness :
  exists trends,
    analyze_trends class_attributes winter_store spring_counts None 1
    = Py.Ok trends
    /\ is_Some (trends !! "Zig") /\ ~ is_Some (trends !! "Cobol").
Proof.
  destruct spring_python as (trends & _ & Hrun & _).
  destruct (analyze_trends_entries class_attributes winter_store spring_counts
              None 1 trends Hrun) as (found & Hfound & Hdom).
  rewrite winter_comparison in Hfound. injection Hfound as <-.
  exists trends. split; [exact Hrun|]. split.
  - apply Hdom. right. vm_compute. reflexivity.
  - intros H. apply Hdom in H as [H|H]; [by apply H|]. vm_compute in H.
    discriminate H.
Defined.

Lemma summary_of_analysis_witness :
  exists trends s,
    analyze_trends class_attributes winter_store spring_counts None 1
    = Py.Ok trends
    /\ get_trend_summary (map_to_list trends).*2 = Py.Ok s
    /\ (length (rising s) + length (stable s) + length (declining s))%nat
       = size trends.
Proof.
  destruct spring_python as (trends & _ & Hrun & _).
  destruct (summary_of_analysis class_attributes winter_store spring_counts
              None 1 trends (map_to_list trends).*2 Hrun (reflexivity _))
    as (s & Hs & Hlen).
  exists trends, s. auto.
Defined.

Lemma analyze_trends_against_itself_witness :
  exists st' trends,
    save_skill_frequencies fresh_store january_counts (Some "2024-01-15")
      "2024-02-01" "2024-02-01T09:30:00" = Py.Ok ("2024-01-15", st')
    /\ analyze_trends class_attributes st' january_counts
         (Some "2024-01-15") 1 = Py.Ok trends
    /\ trends !! "Rust" = Some (unchanged_record "Rust" 3).
Proof.
  destruct (save_skill_frequencies_writable fresh_store january_counts
              (Some "2024-01-15") "2024-02-01" "2024-02-01T09:30:00" eq_refl)
    as [st' Hsave].
  change (period_used (Some "2024-01-15") "2024-02-01") with "2024-01-15"
    in Hsave.
  destruct (analyze_trends_against_itself
              (Float64.neg (Float64.literal 5 2)) (Float64.literal 5 2)
              fresh_store st' january_counts "2024-01-15" "2024-02-01"
              "2024-02-01T09:30:00" 1) as (trends & Hrun & Hall);
    [discriminate|exact Hsave|].
  exists st', trends. split; [exact Hsave|]. split; [exact Hrun|].
  rewrite Hall. reflexivity.
Defined.

Lemma two_periods_cleared :
  exists n st',
    clear_historical_data two_periods (Some "2024-01-10") = Py.Ok (n, st').
Proof. vm_compute. eexists. eexists. reflexivity. Qed.

Lemma clear_then_periods_witness :
  exists n st',
    clear_historical_data two_periods (Some "2024-01-10") = Py.Ok (n, st')
    /\ get_historical_periods st' = ["2024-01-11"; "2024-01-10"]
    /\ n = 1.
Proof.
  destruct two_periods_cleared as (n & st' & Hrun).
  destruct (clear_then_periods two_periods st' (Some "2024-01-10") n Hrun)
    as [Hlist Hn].
  exists n, st'. split; [exact Hrun|].
  assert (Hperiods : get_historical_periods st'
                     = ["2024-01-11"; "2024-01-10"]).
  { rewrite Hlist. vm_compute. reflexivity. }
  split; [exact Hperiods|]. rewrite Hn, Hperiods. vm_compute. reflexivity.
Defined.

Lemma save_then_periods_witness :
  exists st',
    save_skill_frequencies two_periods january_counts (Some "2024-01-12")
      "2024-02-01" "2024-02-01T09:30:00" = Py.Ok ("2024-01-12", st')
    /\ "2024-01-12" ∈ get_historical_periods st'
    /\ length (get_historical_periods st') = 4%nat.
Proof.
  destruct (save_skill_frequencies_writable two_periods january_counts
              (Some "2024-01-12") "2024-02-01" "2024-02-01T09:30:00" eq_refl)
    as [st' Hsave].
  change (period_used (Some "2024-01-12") "2024-02-01") with "2024-01-12"
    in Hsave.
  destruct (save_then_periods two_periods st' january_counts
              (Some "2024-01-12") "2024-02-01" "2024-02-01T09:30:00"
              "2024-01-12" Hsave) as (Hin & _ & Hlen).
  exists st'. split; [exact Hsave|]. split; [exact Hin|].
  rewrite Hlen. vm_compute. reflexivity.
Defined.

End TrendWitnesses.

(** ** Text normalisation *)

Section TextFacts.
Import SkillExtractionService.

Lemma chars_app (s t : string) : chars (s ++ t) = chars s ++ chars t.
Proof.
  unfold chars. induction s as [|c s IH]; simpl; [reflexivity|].
  by rewrite IH.
Qed.

Lemma chars_lower (s : string) : chars (lower s) = map lower_char (chars s).
Proof. unfold lower, chars. apply list_ascii_of_string_of_list_ascii. Qed.

Lemma chars_inj (s t : string) : chars s = chars t -> s = t.
Proof.
  unfold chars. intros H.
  rewrite <- (string_of_list_ascii_of_string s),
          <- (string_of_list_ascii_of_string t).
  by rewrite H.
Qed.

Lemma chars_nil (s : string) : chars s = [] <-> s = "".
Proof.
  split; [|by intros ->]. intros H. by apply chars_inj.
Qed.

Lemma lower_char_idemp (c : ascii) : lower_char (lower_char c) = lower_char c.
Proof. destruct c as [[] [] [] [] [] [] [] []]; reflexivity. Qed.

Lemma is_space_lower_char (c : ascii) : is_space (lower_char c) = is_space c.
Proof. destruct c as [[] [] [] [] [] [] [] []]; reflexivity. Qed.

Lemma lower_idemp (s : string) : lower (lower s) = lower s.
Proof.
  apply chars_inj. rewrite !chars_lower, map_map.
  apply map_ext. apply lower_char_idemp.
Qed.

Lemma lower_empty (s : string) : lower s = "" <-> s = "".
Proof.
  rewrite <- !chars_nil, chars_lower.
  destruct (chars s); simpl; split; intros H; done.
Qed.

Lemma normalize_text_lower (s : string) :
  normalize_text (lower s) = normalize_text s.
Proof.
  unfold normalize_text. rewrite chars_lower, map_map.
  f_equal. f_equal. apply map_ext. apply lower_char_idemp.
Qed.

Lemma lstrip_spaces (ws l : list ascii) :
  Forall (fun c => is_space c = true) ws -> lstrip (ws ++ l) = lstrip l.
Proof.
  induction 1 as [|c ws Hc _ IH]; simpl; [reflexivity|]. by rewrite Hc.
Qed.

Lemma lstrip_app (l r : list ascii) :
  lstrip (l ++ r) = match lstrip l with
                    | [] => lstrip r
                    | _ => lstrip l ++ r
                    end.
Proof.
  induction l as [|c l IH]; simpl; [reflexivity|].
  destruct (is_space c); [exact IH|reflexivity].
Qed.

Lemma strip_spaces (pre l post : list ascii) :
  Forall (fun c => is_space c = true) pre ->
  Forall (fun c => is_space c = true) post ->
  strip (pre ++ l ++ post) = strip l.
Proof.
  intros Hpre Hpost. unfold strip. rewrite (lstrip_spaces pre _ Hpre).
  assert (Hblank : lstrip post = []).
  { rewrite <- (app_nil_r post). by rewrite (lstrip_spaces post [] Hpost). }
  rewrite lstrip_app. destruct (lstrip l) as [|c l'] eqn:Hl.
  - by rewrite Hblank.
  - rewrite rev_app_distr. rewrite lstrip_spaces; [reflexivity|].
    apply Forall_forall. intros x Hx. rewrite Forall_forall in Hpost.
    apply Hpost. apply list_elem_of_In. apply in_rev.
    by apply list_elem_of_In.
Qed.

Lemma blank_lower (ws : list ascii) :
  Forall (fun c => is_space c = true) ws ->
  Forall (fun c => is_space c = true) (map lower_char ws).
Proof.
  induction 1 as [|c ws Hc _ IH]; simpl; constructor; [|exact IH].
  by rewrite is_space_lower_char.
Qed.

Lemma normalize_text_padding (pre s post : string) :
  blank pre -> blank post ->
  normalize_text (pre ++ s ++ post) = normalize_text s.
Proof.
  intros Hpre Hpost. unfold normalize_text.
  rewrite !chars_app, !map_app.
  by rewrite strip_spaces by (by apply blank_lower).
Qed.

(** Nothing is found in the empty text. *)
Lemma re_search_word_nil (variation : string) :
  re_search_word variation [] = false.
Proof.
  unfold re_search_word. by destruct (chars variation).
Qed.

Lemma extract_loop_nil (self : service) items :
  forall discovered extracted,
    extract_loop self [] items discovered extracted = Py.Ok extracted.
Proof.
  induction items as [|[a n] items IH]; intros discovered extracted;
    cbn [extract_loop]; [reflexivity|].
  rewrite re_search_word_nil. destruct (decide (n ∈ discovered)); apply IH.
Qed.

Lemma extract_skills_blank (self : service) (s : string) :
  normalize_text s = [] -> extract_skills self (PyStr s) = Py.Ok [].
Proof.
  intros Hs. destruct (decide (s = "")) as [->|Hne]; [reflexivity|].
  rewrite (extract_skills_str self s Hne), Hs, extract_loop_nil.
  reflexivity.
Qed.
End TextFacts.

(** ** What the extraction finds *)

Section ExtractionFound.
Import SkillExtractionService.

(** Every entry the loop adds comes from an alias that matched, with the
    category the catalog gives. *)
Lemma extract_loop_sound (self : service) (text : list ascii) items :
  forall discovered extracted out,
    extract_loop self text items discovered extracted = Py.Ok out ->
    forall e, e ∈ out ->
      e ∈ extracted
      \/ exists a meta,
           (a, skill e) ∈ items /\ re_search_word a text = true
           /\ Py.dict_get (skill e) (skills_data self) = Some meta
           /\ skill_category e = default "Unknown" (category meta).
Proof.
  induction items as [|[alias name] items IH];
    intros discovered extracted out; simpl.
  - intros [= <-] e He. by left.
  - assert (Hlater : forall e,
      (exists a meta, (a, skill e) ∈ items /\ re_search_word a text = true
         /\ Py.dict_get (skill e) (skills_data self) = Some meta
         /\ skill_category e = default "Unknown" (category meta)) ->
      exists a meta, (a, skill e) ∈ (alias, name) :: items
         /\ re_search_word a text = true
         /\ Py.dict_get (skill e) (skills_data self) = Some meta
         /\ skill_category e = default "Unknown" (category meta)).
    { intros e (a & meta & H & Hrest). exists a, meta. split; [by right|done]. }
    destruct (decide (name ∈ discovered)) as [Hseen|Hnew].
    { intros Hrun e He.
      destruct (IH _ _ _ Hrun e He) as [H|H]; [by left|right; by apply Hlater]. }
    destruct (re_search_word alias text) eqn:Hmatch.
    + destruct (Py.dict_get name (skills_data self)) as [meta|] eqn:Hmeta;
        [|discriminate].
      intros Hrun e He. destruct (IH _ _ _ Hrun e He) as [H|H].
      * apply elem_of_app in H as [H|H]; [by left|].
        apply list_elem_of_singleton in H. subst e. right.
        exists alias, meta. simpl. split; [by left|done].
      * right. by apply Hlater.
    + intros Hrun e He.
      destruct (IH _ _ _ Hrun e He) as [H|H]; [by left|right; by apply Hlater].
Qed.

End ExtractionFound.

(** ** The alias map as a dict *)

Section AliasMap.
Import SkillExtractionService.

Lemma dict_set_keys {V : Type} (d : list (string * V)) k v a :
  a ∈ (Py.dict_set k v d).*1 <-> a = k \/ a ∈ d.*1.
Proof.
  induction d as [|[k' v'] d IH]; simpl.
  - rewrite list_elem_of_singleton, elem_of_nil. tauto.
  - destruct (String.eqb_spec k' k) as [->|Hne]; simpl.
    + rewrite !elem_of_cons. tauto.
    + rewrite !elem_of_cons, IH. tauto.
Qed.

Lemma dict_set_NoDup {V : Type} (d : list (string * V)) k v :
  NoDup d.*1 -> NoDup (Py.dict_set k v d).*1.
Proof.
  induction d as [|[k' v'] d IH]; simpl; intros Hnd.
  - apply NoDup_singleton.
  - apply NoDup_cons in Hnd as [Hnotin Hnd].
    destruct (String.eqb_spec k' k) as [->|Hne]; simpl.
    + by apply NoDup_cons.
    + apply NoDup_cons. split; [|by apply IH].
      rewrite dict_set_keys. intros [->|H]; [done|contradiction].
Qed.

Lemma dict_get_set {V : Type} (d : list (string * V)) k v a :
  Py.dict_get a (Py.dict_set k v d)
  = if String.eqb k a then Some v else Py.dict_get a d.
Proof.
  induction d as [|[k' v'] d IH]; simpl.
  - reflexivity.
  - destruct (String.eqb_spec k' k) as [->|Hne]; simpl.
    + by destruct (String.eqb_spec k a).
    + destruct (String.eqb_spec k' a) as [->|Hne'].
      * by destruct (String.eqb_spec k a) as [->|_].
      * exact IH.
Qed.

Lemma elem_dict_get {V : Type} (d : list (string * V)) k v :
  NoDup d.*1 -> (k, v) ∈ d -> Py.dict_get k d = Some v.
Proof.
  induction d as [|[k' v'] d IH]; simpl; intros Hnd H.
  - by apply elem_of_nil in H.
  - apply NoDup_cons in Hnd as [Hnotin Hnd].
    apply elem_of_cons in H as [[= <- <-]|H].
    + by rewrite String.eqb_refl.
    + destruct (String.eqb_spec k' k) as [->|_]; [|by apply IH].
      exfalso. apply Hnotin. apply list_elem_of_fmap. by exists (k, v).
Qed.

Lemma add_variations_writes name vs map :
  add_variations name vs map
  = foldl write map (List.map (fun v => (lower v, name)) vs).
Proof.
  revert map. induction vs as [|v vs IH]; intros map; simpl; [reflexivity|].
  apply IH.
Qed.

Lemma build_loop_writes items map :
  build_loop items map = foldl write map (alias_entries items).
Proof.
  revert map. induction items as [|[name meta] items IH]; intros map; simpl;
    [reflexivity|].
  rewrite IH, add_variations_writes. by rewrite foldl_app.
Qed.


Lemma writes_keys entries map a :
  a ∈ (foldl write map entries).*1 <-> a ∈ entries.*1 \/ a ∈ map.*1.
Proof.
  revert map. induction entries as [|[k v] entries IH]; intros map; simpl.
  - rewrite elem_of_nil. tauto.
  - rewrite IH. unfold write. simpl. rewrite dict_set_keys, elem_of_cons. tauto.
Qed.


Lemma elem_of_alias_entries skills_data k n :
  (k, n) ∈ alias_entries skills_data
  <-> alias_of skills_data k n.
Proof.
  unfold alias_entries, alias_of. rewrite list_elem_of_In, in_flat_map. split.
  - intros ([name meta] & Hin & H). simpl in H.
    apply list_elem_of_In in Hin.
    destruct H as [[= <- <-]|H].
    + exists meta, name. split; [exact Hin|]. split; [by left|done].
    + apply in_map_iff in H as (v & [= <- <-] & Hv).
      exists meta, v. split; [exact Hin|]. split; [|done].
      right. by apply list_elem_of_In.
  - intros (meta & alias & Hin & Halias & ->).
    exists (n, meta). split; [by apply list_elem_of_In|]. simpl.
    apply elem_of_cons in Halias as [->|Halias]; [by left|].
    right. apply in_map_iff. exists alias. split; [done|].
    by apply list_elem_of_In.
Qed.

Lemma alias_entries_app l1 l2 :
  alias_entries (l1 ++ l2) = alias_entries l1 ++ alias_entries l2.
Proof. unfold alias_entries. apply flat_map_app. Qed.

(** The alias that no later skill of the catalog claims. *)
Lemma skill_map_last (before after : list (string * skill_metadata))
    (name : string) (meta : skill_metadata) (alias : string) :
  alias ∈ name :: default [] (variations meta) ->
  unclaimed after alias ->
  Py.dict_get (lower alias)
    (_build_skill_map (before ++ (name, meta) :: after)) = Some name.
Proof.
  intros Halias Hafter. unfold _build_skill_map.
  rewrite build_loop_writes.
  change (before ++ (name, meta) :: after)
    with (before ++ [(name, meta)] ++ after).
  rewrite !alias_entries_app.
  assert (Hown : exists e1 e2,
    alias_entries [(name, meta)] = e1 ++ (lower alias, name) :: e2
    /\ forall k n, (k, n) ∈ e2 -> n = name).
  { unfold alias_entries. simpl. rewrite app_nil_r.
    apply elem_of_cons in Halias as [->|Halias].
    - exists [], (List.map (fun v => (lower v, name))
                           (default [] (variations meta))).
      split; [reflexivity|]. intros k n H.
      apply list_elem_of_In, in_map_iff in H as (v & [= _ <-] & _). done.
    - apply list_elem_of_split in Halias as (v1 & v2 & ->).
      exists ((lower name, name) :: List.map (fun v => (lower v, name)) v1),
             (List.map (fun v => (lower v, name)) v2).
      split; [by rewrite map_app|]. intros k n H.
      apply list_elem_of_In, in_map_iff in H as (v & [= _ <-] & _). done. }
  destruct Hown as (e1 & e2 & -> & He2).
  (* the writes after the one of [alias] that hit the same key carry the
     same name *)
  assert (Hrest : forall entries map,
    (forall k n, (k, n) ∈ entries -> k = lower alias -> n = name) ->
    Py.dict_get (lower alias) map = Some name ->
    Py.dict_get (lower alias) (foldl write map entries) = Some name).
  { induction entries as [|[k n] entries IH]; intros map Hent Hget; simpl;
      [exact Hget|].
    apply IH.
    - intros k' n' H. apply Hent. by right.
    - unfold write. simpl. rewrite dict_get_set.
      destruct (String.eqb_spec k (lower alias)) as [->|_]; [|exact Hget].
      f_equal. apply (Hent (lower alias) n); [by left|reflexivity]. }
  rewrite !foldl_app. simpl. apply Hrest.
  - intros k n H ->. apply elem_of_alias_entries in H
      as (meta' & alias' & Hin & Ha & Hk).
    exfalso. by apply (Hafter n meta' alias').
  - apply Hrest.
    + intros k n H _. by apply (He2 k n).
    + unfold write. simpl. rewrite dict_get_set. by rewrite String.eqb_refl.
Qed.
End AliasMap.

Section AliasMapEntries.
Import SkillExtractionService.

Lemma elem_of_dict_set_inv {V : Type} (d : list (string * V)) k v a x :
  (a, x) ∈ Py.dict_set k v d -> (a = k /\ x = v) \/ (a, x) ∈ d.
Proof.
  induction d as [|[k' v'] d IH]; simpl.
  - intros H. apply list_elem_of_singleton in H as [= -> ->]. by left.
  - destruct (String.eqb_spec k' k) as [->|_]; intros H;
      apply elem_of_cons in H as [[= -> ->]|H].
    + by left.
    + right. by right.
    + right. by left.
    + destruct (IH H) as [H'|H']; [by left|]. right. by right.
Qed.

Lemma writes_elem entries map k n :
  (k, n) ∈ foldl write map entries -> (k, n) ∈ entries \/ (k, n) ∈ map.
Proof.
  revert map. induction entries as [|[k' n'] entries IH]; intros map; simpl.
  - by right.
  - intros H. destruct (IH _ H) as [H'|H']; [left; by right|].
    unfold write in H'. simpl in H'.
    destruct (elem_of_dict_set_inv _ _ _ _ _ H') as [[-> ->]|H''].
    + left. by left.
    + by right.
Qed.

Lemma skill_map_alias skills_data k n :
  Py.dict_get k (_build_skill_map skills_data) = Some n ->
  alias_of skills_data k n.
Proof.
  intros H. apply dict_get_elem in H. unfold _build_skill_map in H.
  rewrite build_loop_writes in H.
  apply writes_elem in H as [H|H]; [|by apply elem_of_nil in H].
  by apply elem_of_alias_entries.
Qed.

Lemma init_built skills_data_file self :
  snd (__init__ skills_data_file) = Py.Ok self ->
  skill_map self = _build_skill_map (skills_data self).
Proof.
  unfold __init__.
  destruct (_load_skills_data skills_data_file) as [log [sd|e]]; simpl;
    [|discriminate].
  by intros [= <-].
Qed.
End AliasMapEntries.

(** ** [extract_skills], [normalize_skill], [get_all_skills] *)

Section ExtractionExtras.
Import SkillExtractionService SkillLookup.

Lemma get_all_skills_perm (self : service) :
  get_all_skills self ≡ₚ (skills_data self).*1.
Proof. apply sort_stable_perm. Qed.

Lemma get_all_skills_elem (self : service) (n : string) :
  n ∈ get_all_skills self <-> is_Some (Py.dict_get n (skills_data self)).
Proof. by rewrite get_all_skills_perm, dict_get_is_Some. Qed.



(** X11: whatever the service and the argument, every entry of a list
    [extract_skills] returns names a skill of the catalog, listed by
    [get_all_skills], and carries the category the catalog gives for it,
    or "Unknown" when the catalog gives none. *)
Theorem extract_skills_categories (self : service) (input_text : py_value)
    (l : list extracted_skill) (e : extracted_skill) :
  extract_skills self input_text = Py.Ok l ->
  e ∈ l ->
  skill e ∈ get_all_skills self
  /\ exists meta,
       Py.dict_get (skill e) (skills_data self) = Some meta
       /\ skill_category e = default "Unknown" (category meta).
Proof.
  intros Hrun He.
  assert (Hmeta : exists meta,
    Py.dict_get (skill e) (skills_data self) = Some meta
    /\ skill_category e = default "Unknown" (category meta)).
  { destruct input_text as [|b|n|s|b];
      try (rewrite extract_skills_not_text in Hrun by (by left);
           injection Hrun as <-; by apply elem_of_nil in He).
    destruct (decide (s = "")) as [->|Hs].
    { injection Hrun as <-. by apply elem_of_nil in He. }
    rewrite (extract_skills_str self s Hs) in Hrun.
    apply bind_Ok in Hrun as (out & Hloop & [= <-]).
    unfold sort_by_name in He. rewrite sort_stable_perm in He.
    destruct (extract_loop_sound _ _ _ _ _ _ Hloop e He)
      as [H|(a & meta & _ & _ & Hget & Hcat)]; [by apply elem_of_nil in H|].
    by exists meta. }
  split; [|exact Hmeta]. destruct Hmeta as (meta & Hget & _).
  apply get_all_skills_elem. by rewrite Hget.
Qed.

Lemma extract_skills_categories_witness :
  skill {| skill := "Node.js"; skill_category := "Runtime" |}
    ∈ get_all_skills node_service
  /\ exists meta,
       Py.dict_get "Node.js" (skills_data node_service) = Some meta
       /\ "Runtime" = default "Unknown" (category meta).
Proof.
  apply (extract_skills_categories node_service (PyStr "We use nodejs")
           [ {| skill := "Node.js"; skill_category := "Runtime" |} ]).
  - vm_compute. reflexivity.
  - by left.
Defined.

(** X12: [extract_skills] does not see the case of the letters: two
    strings that are equal once lowercased give the same result, on any
    service. *)
Theorem extract_skills_ignores_case (self : service) (s t : string) :
  lower s = lower t ->
  extract_skills self (PyStr s) = extract_skills self (PyStr t).
Proof.
  assert (Hlow : forall u,
    extract_skills self (PyStr u) = extract_skills self (PyStr (lower u))).
  { intros u. destruct (decide (u = "")) as [->|Hu]; [reflexivity|].
    assert (Hlu : lower u <> "") by (by rewrite lower_empty).
    rewrite (extract_skills_str self u Hu), (extract_skills_str self _ Hlu).
    by rewrite normalize_text_lower. }
  intros H. by rewrite (Hlow s), (Hlow t), H.
Qed.

Lemma extract_skills_ignores_case_witness :
  extract_skills node_service (PyStr "PYTHON and NodeJS")
  = extract_skills node_service (PyStr "Python and nodejs").
Proof.
  apply (extract_skills_ignores_case node_service
           "PYTHON and NodeJS" "Python and nodejs").
  reflexivity.
Defined.

(** X13: white space around the text does not change what
    [extract_skills] returns, and a text of white space only gives the
    empty list, on any service. *)
Theorem extract_skills_ignores_padding (self : service) (pre s post : string) :
  blank pre -> blank post ->
  extract_skills self (PyStr (pre ++ s ++ post))
  = extract_skills self (PyStr s)
  /\ extract_skills self (PyStr (pre ++ post)) = Py.Ok [].
Proof.
  intros Hpre Hpost.
  assert (Hnone : extract_skills self (PyStr (pre ++ post)) = Py.Ok []).
  { apply extract_skills_blank.
    exact (normalize_text_padding pre "" post Hpre Hpost). }
  split; [|exact Hnone].
  destruct (decide (s = "")) as [->|Hs]; [exact Hnone|].
  assert (Hne : (pre ++ s ++ post)%string <> "").
  { intros H. apply chars_nil in H. rewrite !chars_app in H.
    apply app_eq_nil in H as [_ H]. apply app_eq_nil in H as [H _].
    by apply chars_nil in H. }
  rewrite (extract_skills_str self _ Hne), (extract_skills_str self s Hs).
  by rewrite normalize_text_padding.
Qed.

Lemma extract_skills_ignores_padding_witness :
  extract_skills node_service (PyStr ("  " ++ "Python" ++ " "))
  = extract_skills node_service (PyStr "Python")
  /\ extract_skills node_service (PyStr ("  " ++ " ")) = Py.Ok [].
Proof.
  apply (extract_skills_ignores_padding node_service "  " "Python" " ").
  - repeat constructor.
  - repeat constructor.
Defined.

(** X14: the keys of the alias map [_build_skill_map] returns are the
    lowercased names and variations of the catalog, and nothing else: a
    key is its own lowercase form, its value is a skill having the key as
    lowercased name or variation, and every lowercased name or variation
    is a key. *)
Theorem skill_map_entries (skills_data : list (string * skill_metadata))
    (k : string) :
  (forall n, Py.dict_get k (_build_skill_map skills_data) = Some n ->
             alias_of skills_data k n /\ lower k = k)
  /\ (forall n, alias_of skills_data k n ->
                is_Some (Py.dict_get k (_build_skill_map skills_data))).
Proof.
  split.
  - intros n H. apply skill_map_alias in H. split; [exact H|].
    destruct H as (meta & alias & _ & _ & ->). apply lower_idemp.
  - intros n H. apply dict_get_is_Some.
    unfold _build_skill_map. rewrite build_loop_writes, writes_keys. left.
    apply list_elem_of_fmap. exists (k, n). split; [done|].
    by apply elem_of_alias_entries.
Qed.

(** X15: last write wins in the alias map: a name or variation of a
    skill that no later skill of the catalog has, whatever the case of
    the letters, is mapped (lowercased) to that skill, also when earlier
    skills have it too. *)
Theorem skill_map_last_write_wins (before after : list (string * skill_metadata))
    (name : string) (meta : skill_metadata) (alias : string) :
  alias ∈ name :: default [] (variations meta) ->
  unclaimed after alias ->
  Py.dict_get (lower alias)
    (_build_skill_map (before ++ (name, meta) :: after)) = Some name.
Proof. apply skill_map_last. Qed.

Lemma skill_map_last_write_wins_witness :
  Py.dict_get (lower "PY")
    (_build_skill_map
       ([ ("Pyramid", {| category := None; variations := Some ["py"] |}) ]
        ++ ("Python", {| category := None; variations := Some ["Py"; "PY"] |})
        :: [ ("Go", {| category := None; variations := None |}) ]))
  = Some "Python".
Proof.
  apply (skill_map_last_write_wins
           [ ("Pyramid", {| category := None; variations := Some ["py"] |}) ]
           [ ("Go", {| category := None; variations := None |}) ]
           "Python" {| category := None; variations := Some ["Py"; "PY"] |}
           "PY").
  - simpl. right. right. by left.
  - intros name meta alias' Hin Halias.
    apply list_elem_of_singleton in Hin as [= -> ->]. simpl in Halias.
    apply list_elem_of_singleton in Halias as ->. vm_compute. discriminate.
Defined.

(** X16: on a service built by the constructor, [normalize_skill] maps a
    non-empty string to the skill name [name], when the string,
    lowercased and stripped of surrounding white space, is the lowercase
    form of a name or variation of that skill which no later skill of the
    catalog has, and [name] is not the empty string. *)
Theorem normalize_skill_alias (skills_data_file : json_file skills_json)
    (self : service) (before after : list (string * skill_metadata))
    (name : string) (meta : skill_metadata) (alias s : string) :
  snd (__init__ skills_data_file) = Py.Ok self ->
  skills_data self = before ++ (name, meta) :: after ->
  alias ∈ name :: default [] (variations meta) ->
  unclaimed after alias ->
  name <> "" -> s <> "" ->
  lower_strip s = lower alias ->
  normalize_skill self (PyStr s) = PyStr name.
Proof.
  intros Hinit Hsd Halias Hafter Hname Hs Hkey.
  apply init_built in Hinit. unfold normalize_skill. simpl.
  destruct (String.eqb_spec s "") as [->|_]; [contradiction|]. simpl.
  rewrite Hkey, Hinit, Hsd, (skill_map_last _ _ _ _ _ Halias Hafter). simpl.
  by destruct (String.eqb_spec name "") as [->|_].
Qed.

Lemma normalize_skill_alias_witness :
  normalize_skill node_service (PyStr "  PYTHON3 ") = PyStr "Python".
Proof.
  apply (normalize_skill_alias (Parsed node_catalog) node_service
           [ ("Node.js", {| category := Some "Runtime";
                            variations := Some ["nodejs"] |});
             ("Node", {| category := Some "Data Structures";
                         variations := None |}) ]
           []
           "Python" {| category := Some "Programming Language";
                       variations := Some ["py"; "python3"] |}
           "python3" "  PYTHON3 " node_service_built).
  - reflexivity.
  - simpl. right. right. by left.
  - intros name meta alias' Hin. by apply elem_of_nil in Hin.
  - discriminate.
  - discriminate.
  - vm_compute. reflexivity.
Defined.



(** X18: [get_all_skills] returns the keys of the catalog, each as often
    as the catalog has it, in ascending order of [str]. *)
Theorem get_all_skills_listing (self : service) :
  StronglySorted (fun a b => String.leb a b = true) (get_all_skills self)
  /\ get_all_skills self ≡ₚ (skills_data self).*1
  /\ forall n, n ∈ get_all_skills self
               <-> is_Some (Py.dict_get n (skills_data self)).
Proof.
  split; [|split; [apply get_all_skills_perm|apply get_all_skills_elem]].
  unfold get_all_skills.
  eapply StronglySorted_weaken; [|apply sort_stable_sorted].
  - intros a b. unfold may_precede. rewrite ltb_leb.
    by destruct (String.leb a b).
  - intros a b. rewrite !ltb_leb.
    destruct (String.leb_total a b) as [->| ->]; [|done].
    by destruct (String.leb b a).
  - intros a b c. unfold may_precede. rewrite !ltb_leb, !negb_false_iff.
    apply leb_trans.
Qed.
End ExtractionExtras.

(** ** Counting with [Counter] *)

Section CounterFacts.
Import Builtins.

Lemma occurrences_nil (n : string) : occurrences n [] = 0.
Proof. reflexivity. Qed.

Lemma occurrences_cons (n x : string) (l : list string) :
  occurrences n (x :: l)
  = (if String.eqb n x then 1 else 0) + occurrences n l.
Proof.
  unfold occurrences. simpl. destruct (String.eqb n x); simpl; lia.
Qed.

Lemma occurrences_app (n : string) (l1 l2 : list string) :
  occurrences n (l1 ++ l2) = occurrences n l1 + occurrences n l2.
Proof.
  unfold occurrences. rewrite List.filter_app, length_app. lia.
Qed.

Lemma occurrences_nonneg (n : string) (l : list string) : 0 <= occurrences n l.
Proof. unfold occurrences. lia. Qed.

Lemma occurrences_NoDup (n : string) (l : list string) :
  NoDup l -> occurrences n l = if bool_decide (n ∈ l) then 1 else 0.
Proof.
  induction 1 as [|x l Hx _ IH]; [reflexivity|].
  rewrite occurrences_cons, IH.
  destruct (String.eqb_spec n x) as [->|Hne].
  - rewrite (bool_decide_eq_false_2 _ Hx).
    rewrite bool_decide_eq_true_2; [reflexivity|by left].
  - destruct (bool_decide (n ∈ l)) eqn:Hin.
    + apply bool_decide_eq_true_1 in Hin.
      rewrite bool_decide_eq_true_2; [reflexivity|by right].
    + apply bool_decide_eq_false_1 in Hin.
      rewrite bool_decide_eq_false_2; [reflexivity|].
      intros H. apply elem_of_cons in H as [H|H]; contradiction.
Qed.

Lemma Counter_loop_get (elements : list string) :
  forall (counts : list (string * Z)) (n : string),
    Py.dict_get n
      (foldl (fun counts x =>
                Py.dict_set x (default 0 (Py.dict_get x counts) + 1) counts)
             counts elements)
    = match Py.dict_get n counts with
      | Some c => Some (c + occurrences n elements)
      | None => if occurrences n elements =? 0 then None
                else Some (occurrences n elements)
      end.
Proof.
  induction elements as [|x elements IH]; intros counts n; simpl.
  - rewrite occurrences_nil. destruct (Py.dict_get n counts) as [c|];
      [apply (f_equal Some); lia|reflexivity].
  - rewrite IH, dict_get_set, occurrences_cons.
    pose proof (occurrences_nonneg n elements) as Hpos.
    destruct (String.eqb_spec x n) as [->|Hne].
    + rewrite String.eqb_refl.
      destruct (Py.dict_get n counts) as [c|]; simpl.
      * apply (f_equal Some); lia.
      * destruct (Z.eqb_spec (1 + occurrences n elements) 0) as [H|_]; [lia|].
        apply (f_equal Some); lia.
    + destruct (String.eqb_spec n x) as [->|_]; [contradiction|].
      reflexivity.
Qed.

Lemma Counter_get (elements : list string) (n : string) :
  Py.dict_get n (Counter elements)
  = if occurrences n elements =? 0 then None
    else Some (occurrences n elements).
Proof. unfold Counter. by rewrite Counter_loop_get. Qed.

Lemma Counter_NoDup (elements : list string) : NoDup (Counter elements).*1.
Proof.
  unfold Counter.
  assert (H : forall counts : list (string * Z), NoDup counts.*1 ->
    NoDup (foldl (fun counts x =>
                    Py.dict_set x (default 0 (Py.dict_get x counts) + 1) counts)
                 counts elements).*1).
  { induction elements as [|x elements IH]; intros counts Hnd; simpl;
      [exact Hnd|].
    apply IH. by apply dict_set_NoDup. }
  apply H. apply NoDup_nil_2.
Qed.

Lemma dict_set_fresh {V : Type} (d : list (string * V)) k v :
  k ∉ d.*1 -> Py.dict_set k v d = d ++ [(k, v)].
Proof.
  induction d as [|[k' v'] d IH]; simpl; intros Hk; [reflexivity|].
  destruct (String.eqb_spec k' k) as [->|_].
  - exfalso. apply Hk. by left.
  - rewrite IH; [reflexivity|]. intros H. apply Hk. by right.
Qed.

Lemma dict_loop_NoDup {V : Type} (pairs : list (string * V)) :
  forall d, NoDup (d ++ pairs).*1 ->
    foldl (fun d pair => Py.dict_set (fst pair) (snd pair) d) d pairs
    = d ++ pairs.
Proof.
  induction pairs as [|[k v] pairs IH]; intros d Hnd; simpl.
  - by rewrite app_nil_r.
  - rewrite dict_set_fresh.
    + rewrite IH; rewrite <- app_assoc; [reflexivity|exact Hnd].
    + rewrite fmap_app in Hnd. apply NoDup_app in Hnd as (_ & Hdisj & _).
      intros H. apply (Hdisj k H). by left.
Qed.

Lemma dict_NoDup {V : Type} (pairs : list (string * V)) :
  NoDup pairs.*1 -> dict pairs = pairs.
Proof. intros H. unfold dict. by rewrite dict_loop_NoDup. Qed.

Lemma dict_get_perm {V : Type} (d d' : list (string * V)) (n : string) :
  NoDup d.*1 -> d ≡ₚ d' -> Py.dict_get n d = Py.dict_get n d'.
Proof.
  intros Hnd Hperm.
  assert (Hnd' : NoDup d'.*1) by (by rewrite <- Hperm).
  destruct (Py.dict_get n d) as [v|] eqn:Hget.
  - symmetry. apply elem_dict_get; [exact Hnd'|].
    rewrite <- Hperm. by apply dict_get_elem.
  - destruct (Py.dict_get n d') as [v'|] eqn:Hget'; [|reflexivity].
    assert (H : is_Some (Py.dict_get n d)).
    { apply dict_get_is_Some. rewrite Hperm. apply dict_get_is_Some. eauto. }
    rewrite Hget in H. by destruct H.
Qed.

Lemma by_count_sorted (l : list (string * Z)) :
  StronglySorted by_count_desc
    (Py.sort_stable (fun y x => snd x <? snd y) l).
Proof.
  eapply StronglySorted_weaken; [|apply sort_stable_sorted].
  - intros a b. unfold may_precede, by_count_desc. lia.
  - intros a b. lia.
  - intros a b c. unfold may_precede. lia.
Qed.

(** What [dict(sorted(Counter(all_skills).items(), ...))] holds. *)
Lemma sorted_by_count_Counter (all_skills : list string) :
  (forall n, Py.dict_get n (sorted_by_count (Counter all_skills))
             = if occurrences n all_skills =? 0 then None
               else Some (occurrences n all_skills))
  /\ StronglySorted by_count_desc (sorted_by_count (Counter all_skills))
  /\ NoDup (sorted_by_count (Counter all_skills)).*1.
Proof.
  pose proof (Counter_NoDup all_skills) as Hnd.
  assert (Hperm : Py.sort_stable (fun y x => snd x <? snd y)
                    (Counter all_skills) ≡ₚ Counter all_skills)
    by apply sort_stable_perm.
  assert (Hnd' : NoDup (Py.sort_stable (fun y x => snd x <? snd y)
                          (Counter all_skills)).*1) by (by rewrite Hperm).
  unfold sorted_by_count. rewrite (dict_NoDup _ Hnd').
  split; [|split; [apply by_count_sorted|exact Hnd']].
  intros n. rewrite (dict_get_perm _ _ n Hnd' Hperm). apply Counter_get.
Qed.
End CounterFacts.

(** ** Aggregated skill counts *)

Section Aggregation.
Import SkillExtractionService Builtins.

Lemma extract_skills_NoDup (self : service) (input_text : py_value) :
  well_formed self ->
  exists l, extract_skills self input_text = Py.Ok l /\ NoDup (names l).
Proof.
  intros Hwf.
  assert (Hempty : extract_skills self input_text = Py.Ok [] ->
    exists l, extract_skills self input_text = Py.Ok l /\ NoDup (names l)).
  { intros ->. exists []. split; [reflexivity|apply NoDup_nil_2]. }
  destruct input_text as [|b|n|s|b];
    try (apply Hempty, extract_skills_not_text; by left).
  destruct (decide (s = "")) as [->|Hs].
  { apply Hempty, extract_skills_not_text. by right. }
  destruct (extract_skills_run self s Hwf Hs) as (out & -> & Hnd & _).
  exists (sort_by_name out). split; [reflexivity|].
  unfold names, sort_by_name. by rewrite sort_stable_perm.
Qed.

Lemma filter_length_cons {A : Type} (f : A -> bool) (x : A) (l : list A) :
  Z.of_nat (length (List.filter f (x :: l)))
  = (if f x then 1 else 0) + Z.of_nat (length (List.filter f l)).
Proof. simpl. destruct (f x); simpl; lia. Qed.

Lemma job_loop_spec (self : JobPostingIngestionService.job_posting_service)
    (job_descriptions : list py_value) :
  well_formed (JobPostingIngestionService.skill_extractor self) ->
  forall all_skills,
    exists all,
      JobPostingIngestionService.aggregate_loop self job_descriptions all_skills
      = Py.Ok all
      /\ forall n,
           occurrences n all
           = occurrences n all_skills
             + Z.of_nat (length (List.filter (job_mentions self n)
                                             job_descriptions)).
Proof.
  intros Hwf.
  induction job_descriptions as [|jd rest IH]; intros all_skills.
  - exists all_skills. split; [reflexivity|]. intros n. simpl. lia.
  - cbn [JobPostingIngestionService.aggregate_loop].
    assert (Hjd : forall n, job_mentions self n jd
      = match JobPostingIngestionService.extract_skills_from_job_description
                self jd with
        | Py.Ok l => bool_decide (n ∈ names l)
        | Py.Raise _ => false
        end) by reflexivity.
    unfold JobPostingIngestionService.extract_skills_from_job_description
      in Hjd |- *.
    destruct (negb (truth jd) || negb (isinstance_str jd)) eqn:Hskip.
    + destruct (IH all_skills) as (all & Hrun & Hall).
      exists all. split; [exact Hrun|]. intros n.
      rewrite Hall, filter_length_cons, Hjd.
      rewrite bool_decide_eq_false_2; [lia|]. simpl. apply not_elem_of_nil.
    + destruct (extract_skills_NoDup
                  (JobPostingIngestionService.skill_extractor self) jd Hwf)
        as (l & Hl & Hnd).
      rewrite Hl in Hjd |- *.
      destruct (IH (all_skills ++ List.map skill l)) as (all & Hrun & Hall).
      exists all. split; [exact Hrun|]. intros n.
      rewrite Hall, filter_length_cons, Hjd, occurrences_app.
      change (List.map skill l) with (names l).
      rewrite (occurrences_NoDup n _ Hnd).
      destruct (bool_decide (n ∈ names l)); lia.
Qed.

Lemma repo_loop_spec (self : GitHubIngestionService.github_ingestion_service)
    (repositories : list GitHubIngestionService.repository) :
  well_formed (GitHubIngestionService.skill_extractor self) ->
  forall all_skills,
    exists all,
      GitHubIngestionService.repos_loop self repositories all_skills
      = Py.Ok all
      /\ forall n,
           occurrences n all
           = occurrences n all_skills
             + Z.of_nat (length (List.filter (repo_mentions self n)
                                             repositories)).
Proof.
  intros Hwf.
  assert (Hrepo : forall repo, exists l,
    GitHubIngestionService._extract_skills_from_repo self repo = Py.Ok l
    /\ NoDup l).
  { intros repo. unfold GitHubIngestionService._extract_skills_from_repo.
    match goal with
    | |- context [Py.truthy (Some ?t)] =>
        match t with
        | Builtins.join _ _ => set (combined_text := t)
        end
    end.
    destruct (Py.truthy (Some combined_text)).
    - destruct (extract_skills_NoDup
                  (GitHubIngestionService.skill_extractor self)
                  (PyStr combined_text) Hwf) as (l & -> & Hnd).
      exists (names l). split; [reflexivity|exact Hnd].
    - exists []. split; [reflexivity|apply NoDup_nil_2]. }
  induction repositories as [|repo rest IH]; intros all_skills.
  - exists all_skills. split; [reflexivity|]. intros n. simpl. lia.
  - cbn [GitHubIngestionService.repos_loop].
    destruct (Hrepo repo) as (l & Hl & Hnd).
    assert (Hm : forall n, repo_mentions self n repo = bool_decide (n ∈ l)).
    { intros n. unfold repo_mentions. by rewrite Hl. }
    rewrite Hl.
    destruct (IH (all_skills ++ l)) as (all & Hrun & Hall).
    exists all. split; [exact Hrun|]. intros n.
    rewrite Hall, filter_length_cons, Hm, occurrences_app.
    rewrite (occurrences_NoDup n _ Hnd).
    destruct (bool_decide (n ∈ l)); lia.
Qed.

(** X19: on an extraction service built by the constructor,
    [aggregate_skill_counts] returns for every list of job descriptions;
    the count it gives a skill is the number of descriptions whose
    extraction returns the skill (not the number of times the skill is
    written), a skill that no description mentions has no entry, the
    entries are in descending order of the counts, and no skill has two
    entries. *)
Theorem aggregate_skill_counts_spec (skills_data_file : json_file skills_json)
    (self : JobPostingIngestionService.job_posting_service)
    (job_descriptions : list py_value) :
  snd (__init__ skills_data_file)
  = Py.Ok (JobPostingIngestionService.skill_extractor self) ->
  exists counts,
    JobPostingIngestionService.aggregate_skill_counts self job_descriptions
    = Py.Ok counts
    /\ (forall n,
          Py.dict_get n counts
          = let c := Z.of_nat (length (List.filter (job_mentions self n)
                                                   job_descriptions)) in
            if c =? 0 then None else Some c)
    /\ StronglySorted by_count_desc counts
    /\ NoDup counts.*1.
Proof.
  intros Hinit. apply init_well_formed in Hinit.
  destruct (job_loop_spec self job_descriptions Hinit []) as (all & Hrun & Hall).
  unfold JobPostingIngestionService.aggregate_skill_counts.
  rewrite Hrun. simpl.
  destruct (sorted_by_count_Counter all) as (Hget & Hsorted & Hnd).
  eexists. split; [reflexivity|]. split; [|split; [exact Hsorted|exact Hnd]].
  intros n. rewrite Hget, Hall, occurrences_nil. reflexivity.
Qed.

Lemma aggregate_skill_counts_spec_witness :
  exists counts,
    JobPostingIngestionService.aggregate_skill_counts
      {| JobPostingIngestionService.skill_extractor := node_service |}
      [PyStr "Python, python and py"; PyNone; PyStr "nodejs with Python"]
    = Py.Ok counts
    /\ Py.dict_get "Python" counts = Some 2
    /\ Py.dict_get "Node.js" counts = Some 1
    /\ Py.dict_get "Node" counts = None.
Proof.
  destruct (aggregate_skill_counts_spec (Parsed node_catalog)
              {| JobPostingIngestionService.skill_extractor := node_service |}
              [PyStr "Python, python and py"; PyNone;
               PyStr "nodejs with Python"] node_service_built)
    as (counts & Hrun & Hget & _).
  exists counts. split; [exact Hrun|].
  rewrite !Hget. repeat split; vm_compute; reflexivity.
Defined.

(** X20: on an extraction service built by the constructor,
    [extract_skills_from_repos] returns for every role, industry and
    limit; the count it gives a skill is the number of repositories of
    the search result in whose texts the skill is found, a skill found in
    none has no entry, the entries are in descending order of the
    counts, and no skill has two entries. *)
Theorem extract_skills_from_repos_spec (skills_data_file : json_file skills_json)
    (self : GitHubIngestionService.github_ingestion_service)
    (role industry : string) (max_repos : Z) :
  snd (__init__ skills_data_file)
  = Py.Ok (GitHubIngestionService.skill_extractor self) ->
  exists counts,
    GitHubIngestionService.extract_skills_from_repos self role industry max_repos
    = Py.Ok counts
    /\ (forall n,
          Py.dict_get n counts
          = let c :=
              Z.of_nat
                (length
                   (List.filter (repo_mentions self n)
                      (GitHubIngestionService.items
                         (GitHubIngestionService.search_repositories
                            self role industry max_repos)))) in
            if c =? 0 then None else Some c)
    /\ StronglySorted by_count_desc counts
    /\ NoDup counts.*1.
Proof.
  intros Hinit. apply init_well_formed in Hinit.
  unfold GitHubIngestionService.extract_skills_from_repos.
  destruct (repo_loop_spec self
              (GitHubIngestionService.items
                 (GitHubIngestionService.search_repositories
                    self role industry max_repos)) Hinit [])
    as (all & Hrun & Hall).
  rewrite Hrun. simpl.
  destruct (sorted_by_count_Counter all) as (Hget & Hsorted & Hnd).
  eexists. split; [reflexivity|]. split; [|split; [exact Hsorted|exact Hnd]].
  intros n. rewrite Hget, Hall, occurrences_nil. reflexivity.
Qed.

Lemma extract_skills_from_repos_spec_witness :
  exists counts,
    GitHubIngestionService.extract_skills_from_repos
      {| GitHubIngestionService.skill_extractor := node_service |}
      "Backend Engineer" "FinTech" 10
    = Py.Ok counts
    /\ Py.dict_get "Python" counts = Some 1
    /\ Py.dict_get "Node.js" counts = Some 1
    /\ Py.dict_get "Node" counts = Some 1.
Proof.
  destruct (extract_skills_from_repos_spec (Parsed node_catalog)
              {| GitHubIngestionService.skill_extractor := node_service |}
              "Backend Engineer" "FinTech" 10 node_service_built)
    as (counts & Hrun & Hget & _).
  exists counts. split; [exact Hrun|].
  rewrite !Hget. repeat split; vm_compute; reflexivity.
Defined.
End Aggregation.

(** ** Slices and filters *)

Section SliceFacts.
Import Builtins.
Context {A : Type}.

Lemma filter_sublist (f : A -> bool) (l : list A) :
  sublist (List.filter f l) l.
Proof.
  induction l as [|x l IH]; simpl; [constructor|].
  destruct (f x); by constructor.
Qed.

Lemma slice_to_sublist (l : list A) (stop : Z) : sublist (slice_to l stop) l.
Proof. unfold slice_to. destruct (stop <? 0); apply sublist_take. Qed.

Lemma slice_to_length (l : list A) (stop : Z) :
  0 <= stop -> Z.of_nat (length (slice_to l stop)) <= stop.
Proof.
  intros H. unfold slice_to. destruct (Z.ltb_spec stop 0) as [?|_]; [lia|].
  rewrite length_take. lia.
Qed.

Lemma slice_to_nonempty (l : list A) (stop : Z) :
  1 <= stop -> l <> [] -> slice_to l stop <> [].
Proof.
  intros H Hl. unfold slice_to. destruct (Z.ltb_spec stop 0) as [?|_]; [lia|].
  destruct l as [|x l]; [contradiction|].
  destruct (Z.to_nat stop) as [|n] eqn:Hn; [lia|]. discriminate.
Qed.
End SliceFacts.

(** ** The mock data *)

Section MockData.
Import SkillExtractionService Builtins.

(** X21: whatever the role, the industry and the limit,
    [search_repositories] returns repositories of the built-in list, in
    the order of that list, and reports their number as [total_count];
    with a limit of at least 0 it returns at most that many, with a limit
    of at least 1 it returns at least one; and for a financial industry
    (one whose lowercased name has "fintech" or "finance") the role has
    no effect on the result. *)
Theorem search_repositories_mock
    (self : GitHubIngestionService.github_ingestion_service)
    (role industry : string) (max_results : Z) :
  let r := GitHubIngestionService.search_repositories
             self role industry max_results in
  sublist (GitHubIngestionService.items r) GitHubIngestionService.base_repos
  /\ GitHubIngestionService.total_count r
     = Z.of_nat (length (GitHubIngestionService.items r))
  /\ GitHubIngestionService.incomplete_results r = false
  /\ (0 <= max_results ->
      GitHubIngestionService.total_count r <= max_results)
  /\ (1 <= max_results -> GitHubIngestionService.items r <> [])
  /\ (financial industry = true ->
      forall role',
        GitHubIngestionService.search_repositories
          self role' industry max_results = r).
Proof.
  assert (Hsel : forall role0, exists selected,
    selected <> []
    /\ sublist selected GitHubIngestionService.base_repos
    /\ GitHubIngestionService.search_repositories
         self role0 industry max_results
       = {| GitHubIngestionService.total_count :=
              Z.of_nat (length (slice_to selected max_results));
            GitHubIngestionService.incomplete_results := false;
            GitHubIngestionService.items := slice_to selected max_results |}
    /\ (financial industry = true ->
        selected
        = List.filter
            (fun r => contains "fintech"
                        (lower (GitHubIngestionService.description r))
                      || contains "fintech"
                           (join " " (GitHubIngestionService.topics r)))
            GitHubIngestionService.base_repos)).
  { intros role0.
    unfold GitHubIngestionService.search_repositories,
      GitHubIngestionService._get_mock_repositories, financial.
    set (fintech_repos := List.filter _ GitHubIngestionService.base_repos).
    assert (Hfin : fintech_repos <> []) by (vm_compute; discriminate).
    assert (Hfin_sub : sublist fintech_repos GitHubIngestionService.base_repos)
      by apply filter_sublist.
    set (backend_repos :=
           List.filter
             (GitHubIngestionService.mentions_any
                ["backend"; "api"; "service"; "server"])
             GitHubIngestionService.base_repos).
    assert (Hback : backend_repos <> []) by (vm_compute; discriminate).
    assert (Hback_sub : sublist backend_repos GitHubIngestionService.base_repos)
      by apply filter_sublist.
    set (frontend_repos :=
           List.filter
             (GitHubIngestionService.mentions_any
                ["react"; "frontend"; "dashboard"; "ui"])
             GitHubIngestionService.base_repos).
    assert (Hfront : frontend_repos <> []) by (vm_compute; discriminate).
    assert (Hfront_sub :
      sublist frontend_repos GitHubIngestionService.base_repos)
      by apply filter_sublist.
    assert (Hbase : GitHubIngestionService.base_repos <> [])
      by (vm_compute; discriminate).
    destruct (contains "fintech" (lower industry)
              || contains "finance" (lower industry)).
    - exists fintech_repos. split; [exact Hfin|]. split; [exact Hfin_sub|].
      split; [|reflexivity].
      destruct fintech_repos as [|x l] eqn:E; [contradiction|]. reflexivity.
    - destruct (contains "backend" (lower role0)
                || contains "engineer" (lower role0)).
      + exists backend_repos. split; [exact Hback|]. split; [exact Hback_sub|].
        split; [|discriminate].
        destruct backend_repos as [|x l] eqn:E; [contradiction|]. reflexivity.
      + destruct (contains "frontend" (lower role0)).
        * exists frontend_repos. split; [exact Hfront|].
          split; [exact Hfront_sub|]. split; [|discriminate].
          destruct frontend_repos as [|x l] eqn:E; [contradiction|].
          reflexivity.
        * exists GitHubIngestionService.base_repos. split; [exact Hbase|].
          split; [reflexivity|]. split; [|discriminate].
          destruct GitHubIngestionService.base_repos as [|x l] eqn:E;
            [contradiction|]. reflexivity. }
  intros r. subst r.
  destruct (Hsel role) as (selected & Hne & Hsub & Hrun & Hfin).
  rewrite Hrun. cbn [GitHubIngestionService.items
                     GitHubIngestionService.total_count
                     GitHubIngestionService.incomplete_results].
  split; [by etransitivity; [apply slice_to_sublist|]|].
  split; [reflexivity|]. split; [reflexivity|].
  split; [apply slice_to_length|]. split; [intros H; by apply slice_to_nonempty|].
  intros Hindustry role'.
  destruct (Hsel role') as (selected' & _ & _ & Hrun' & Hfin').
  rewrite Hrun', (Hfin Hindustry), (Hfin' Hindustry). reflexivity.
Qed.

Lemma search_repositories_mock_witness :
  (0 <= 2 ->
   GitHubIngestionService.total_count
     (GitHubIngestionService.search_repositories
        {| GitHubIngestionService.skill_extractor := node_service |}
        "Frontend Developer" "Finance" 2) <= 2)
  /\ (financial "Finance" = true ->
      forall role',
        GitHubIngestionService.search_repositories
          {| GitHubIngestionService.skill_extractor := node_service |}
          role' "Finance" 2
        = GitHubIngestionService.search_repositories
            {| GitHubIngestionService.skill_extractor := node_service |}
            "Frontend Developer" "Finance" 2).
Proof.
  destruct (search_repositories_mock
              {| GitHubIngestionService.skill_extractor := node_service |}
              "Frontend Developer" "Finance" 2)
    as (_ & _ & _ & Hle & _ & Hrole).
  split; [exact Hle|exact Hrole].
Defined.

(** X22: whatever the role, the industry and the count,
    [get_mock_job_descriptions] returns descriptions of the built-in
    list, in the order of that list; with a count of at least 0 it
    returns at most that many, and with a count of at least 1 it returns
    at least one, also when no description passes the two filters. *)
Theorem get_mock_job_descriptions_result (role industry : option string)
    (count : Z) :
  let jobs := JobPostingIngestionService.get_mock_job_descriptions
                role industry count in
  sublist jobs JobPostingIngestionService.mock_jobs
  /\ (0 <= count -> Z.of_nat (length jobs) <= count)
  /\ (1 <= count -> jobs <> []).
Proof.
  unfold JobPostingIngestionService.get_mock_job_descriptions.
  assert (Hmock : JobPostingIngestionService.mock_jobs <> []).
  { unfold JobPostingIngestionService.mock_jobs. discriminate. }
  generalize dependent JobPostingIngestionService.mock_jobs.
  intros mock_jobs Hmock.
  set (by_role := match Py.given role with
                  | Some role0 => _
                  | None => mock_jobs
                  end).
  assert (Hrole : sublist by_role mock_jobs).
  { subst by_role. destruct (Py.given role) as [role0|]; [|reflexivity].
    repeat match goal with
           | |- sublist (if ?b then _ else _) _ => destruct b
           end; try apply filter_sublist; reflexivity. }
  clearbody by_role.
  set (by_industry := match Py.given industry with
                      | Some industry0 => _
                      | None => by_role
                      end).
  assert (Hindustry : sublist by_industry mock_jobs).
  { subst by_industry. destruct (Py.given industry) as [industry0|];
      [|exact Hrole].
    match goal with
    | |- sublist (if ?b then _ else _) _ => destruct b
    end; [|exact Hrole].
    etransitivity; [apply filter_sublist|exact Hrole]. }
  clearbody by_industry.
  set (filtered_jobs := match by_industry with
                        | [] => mock_jobs
                        | _ => by_industry
                        end).
  assert (Hsub : sublist filtered_jobs mock_jobs).
  { subst filtered_jobs. destruct by_industry; [reflexivity|exact Hindustry]. }
  assert (Hne : filtered_jobs <> []).
  { subst filtered_jobs. destruct by_industry; [exact Hmock|discriminate]. }
  clearbody filtered_jobs.
  split; [by etransitivity; [apply slice_to_sublist|]|].
  split; [apply slice_to_length|].
  intros H. by apply slice_to_nonempty.
Qed.

Lemma get_mock_job_descriptions_result_witness :
  (0 <= 3 ->
   Z.of_nat (length (JobPostingIngestionService.get_mock_job_descriptions
                       (Some "Frontend Developer") (Some "FinTech") 3)) <= 3)
  /\ (1 <= 3 ->
      JobPostingIngestionService.get_mock_job_descriptions
        (Some "Frontend Developer") (Some "FinTech") 3 <> []).
Proof.
  destruct (get_mock_job_descriptions_result
              (Some "Frontend Developer") (Some "FinTech") 3)
    as (_ & Hle & Hne).
  split; [exact Hle|exact Hne].
Defined.
End MockData.

(** ** Keywords and the search query *)

Section Keywords.
Import SkillExtractionService Builtins.










(** X24: [_build_search_query] never returns the empty string, and it
    returns the default query "stars:>100" exactly when neither the role
    nor the industry has a keyword. *)
Theorem build_search_query_default (role industry : string) :
  GitHubIngestionService._build_search_query role industry <> ""
  /\ (GitHubIngestionService._build_search_query role industry = "stars:>100"
      <-> GitHubIngestionService._extract_keywords role = []
          /\ GitHubIngestionService._extract_keywords industry = []).
Proof.
  (* every part begins with a character other than "s" *)
  pose (P := fun part : string =>
               exists c q, part = String c q /\ c <> "s"%char).
  assert (Hjoin : forall part parts,
    P part ->
    join " " (part :: parts) <> ""
    /\ join " " (part :: parts) <> "stars:>100"%string).
  { intros part parts (c & q & -> & Hc).
    assert (Hq : exists q', join " " (String c q :: parts) = String c q').
    { destruct parts as [|p' ps]; simpl; eauto. }
    destruct Hq as (q' & ->). split; [discriminate|].
    intros [= H _]. contradiction. }
  unfold GitHubIngestionService._build_search_query. cbv zeta.
  set (ik := GitHubIngestionService._extract_keywords industry).
  set (rk := GitHubIngestionService._extract_keywords role).
  set (topic_parts := match ik with
                      | [] => []
                      | _ :: _ => [] ++ List.map _ (slice_to ik 2)
                      end).
  assert (Htopics : Forall P topic_parts /\ (topic_parts = [] <-> ik = [])).
  { subst topic_parts. destruct ik as [|k ks]; [split; [constructor|done]|].
    rewrite app_nil_l. split.
    - apply Forall_forall. intros part Hpart.
      apply list_elem_of_In, in_map_iff in Hpart as (k' & <- & _).
      exists "t"%char, ("opic:" ++ lower k')%string.
      split; [reflexivity|discriminate].
    - split; [|discriminate]. intros H. apply map_eq_nil in H.
      by apply (slice_to_nonempty (k :: ks) 2) in H. }
  clearbody topic_parts.
  set (query_parts := match rk with
                      | [] => topic_parts
                      | _ :: _ => topic_parts ++ [_]
                      end).
  assert (Hparts : Forall P query_parts
                   /\ (query_parts = [] <-> rk = [] /\ ik = [])).
  { destruct Htopics as [Hall Hnil]. subst query_parts.
    destruct rk as [|k ks].
    - split; [exact Hall|]. rewrite Hnil. tauto.
    - split.
      + apply Forall_app. split; [exact Hall|].
        apply List.Forall_cons; [|constructor].
        eexists "("%char, _. split; [reflexivity|discriminate].
      + split; [|intros [H _]; discriminate H].
        intros H. by apply app_eq_nil in H as [_ H]. }
  clearbody query_parts. destruct Hparts as [Hall Hnil].
  destruct query_parts as [|part parts].
  - split; [discriminate|]. split; [intros _; by apply Hnil|reflexivity].
  - apply Forall_cons in Hall as [Hpart _].
    destruct (Hjoin part parts Hpart) as [Hne Hdef].
    split; [exact Hne|]. split; [contradiction|].
    intros H. apply Hnil in H. discriminate H.
Qed.
End Keywords.

(** ** The mock analysis *)

Section Analysis.
Import SkillExtractionService Builtins.

Lemma elem_of_existsb (x : string) (l : list string) :
  x ∈ l <-> existsb (String.eqb x) l = true.
Proof.
  rewrite existsb_exists, list_elem_of_In. split.
  - intros H. exists x. split; [exact H|apply String.eqb_refl].
  - intros (y & Hy & Heq). apply String.eqb_eq in Heq. by subst y.
Qed.

(** X25: the industry has no effect on the top skills: the skills a
    financial industry adds to those of a backend role come after the
    fifth entry, where the list is cut; and the list always has five
    entries. *)
Theorem top_skills_ignore_industry (role industry industry' : string) :
  AnalysisService._get_top_skills role industry
  = AnalysisService._get_top_skills role industry'
  /\ length (AnalysisService._get_top_skills role industry) = 5%nat.
Proof.
  unfold AnalysisService._get_top_skills. cbv zeta.
  destruct (contains "backend" (lower role)
            || contains "engineer" (lower role)
               && negb (contains "frontend" (lower role))).
  { destruct (contains "fintech" (lower industry)
              || contains "finance" (lower industry));
      destruct (contains "fintech" (lower industry')
                || contains "finance" (lower industry'));
      split; reflexivity. }
  repeat match goal with
         | |- context [if ?b then _ else _] => destruct b
         end; split; reflexivity.
Qed.

(** X26: the trending skills begin with the three universal ones and
    have between three and five entries; the entry of the region,
    "Remote Collaboration Tools", is in the list only when the region
    has "global" and neither the industry is a financial one nor the
    role a backend or engineering one: with either of them the list is
    cut before the entry of the region. *)
Theorem trending_skills_region (role industry region : string) :
  let trending :=
    AnalysisService._get_trending_skills role industry region in
  take 3 trending = ["AI/ML Integration"; "Cloud Architecture"; "DevOps"]
  /\ (3 <= length trending <= 5)%nat
  /\ ("Remote Collaboration Tools" ∈ trending
      <-> contains "global" (lower region) = true
          /\ financial industry = false
          /\ engineering role = false).
Proof.
  unfold AnalysisService._get_trending_skills, financial, engineering.
  cbv zeta. rewrite elem_of_existsb.
  destruct (contains "fintech" (lower industry)
            || contains "finance" (lower industry));
    destruct (contains "backend" (lower role)
              || contains "engineer" (lower role));
    destruct (contains "global" (lower region));
    (split; [reflexivity|]); (split; [simpl; lia|]);
    vm_compute; intuition discriminate.
Qed.

(** X27: [analyze_skills] sees the role, the industry and the region
    through their lowercase forms only: arguments that are equal once
    lowercased give the same three lists and the same [role_recognized];
    and a message is given exactly when the role is not recognised. *)
Theorem analyze_skills_ignores_case
    (role industry region role' industry' region' : string) :
  lower role = lower role' ->
  lower industry = lower industry' ->
  lower region = lower region' ->
  let r := AnalysisService.analyze_skills role industry region in
  let r' := AnalysisService.analyze_skills role' industry' region' in
  AnalysisService.top_skills r = AnalysisService.top_skills r'
  /\ AnalysisService.trending_skills r = AnalysisService.trending_skills r'
  /\ AnalysisService.recommended_skills r
     = AnalysisService.recommended_skills r'
  /\ AnalysisService.role_recognized r = AnalysisService.role_recognized r'
  /\ (is_Some (AnalysisService.message r)
      <-> AnalysisService.role_recognized r = false).
Proof.
  intros Hrole Hindustry Hregion.
  unfold AnalysisService.analyze_skills. cbv zeta.
  cbn [AnalysisService.top_skills AnalysisService.trending_skills
       AnalysisService.recommended_skills AnalysisService.role_recognized
       AnalysisService.message].
  unfold AnalysisService._get_top_skills, AnalysisService._get_trending_skills,
    AnalysisService._get_recommended_skills, AnalysisService._is_role_recognized.
  cbv zeta. rewrite Hrole, Hindustry, Hregion.
  repeat split.
  - destruct (existsb _ AnalysisService.known_patterns); [|done].
    intros [m Hm]. discriminate Hm.
  - destruct (existsb _ AnalysisService.known_patterns); [discriminate|].
    intros _. simpl. eauto.
Qed.

Lemma analyze_skills_ignores_case_witness :
  AnalysisService.top_skills
    (AnalysisService.analyze_skills "DEVOPS Lead" "Retail" "Global")
  = AnalysisService.top_skills
      (AnalysisService.analyze_skills "DevOps lead" "retail" "GLOBAL")
  /\ is_Some (AnalysisService.message
                (AnalysisService.analyze_skills "SRE" "Retail" "Global")).
Proof.
  split.
  - apply (analyze_skills_ignores_case "DEVOPS Lead" "Retail" "Global"
             "DevOps lead" "retail" "GLOBAL"); reflexivity.
  - apply (analyze_skills_ignores_case "SRE" "Retail" "Global"
             "sre" "retail" "global"); reflexivity.
Defined.
End Analysis.

(** ** Sanitised input *)

Section Sanitized.
Import SkillExtractionService Builtins.







(** X29: [_validate_positive_integer] returns its argument when that is
    an [int] (a [bool] counts as one) between [min_value] and
    [max_value], and [default] in every other case; so with a default
    between the bounds the result always is an integer between the
    bounds. *)
Theorem validate_positive_integer_spec (value : py_value)
    (default min_value max_value : Z) :
  let r := Helpers._validate_positive_integer
             value default min_value max_value in
  (forall n, Helpers.int_value value = Some n ->
             min_value <= n <= max_value -> r = value)
  /\ ((forall n, Helpers.int_value value = Some n ->
                 ~ min_value <= n <= max_value) -> r = PyInt default)
  /\ (min_value <= default <= max_value ->
      exists n, Helpers.int_value r = Some n /\ min_value <= n <= max_value).
Proof.
  unfold Helpers._validate_positive_integer. cbv zeta.
  destruct (Helpers.int_value value) as [n|] eqn:Hn.
  - destruct (Z.ltb_spec n min_value) as [Hlo|Hlo];
      [|destruct (Z.ltb_spec max_value n) as [Hhi|Hhi]]; simpl.
    + split; [intros m [= <-] H; lia|]. split; [reflexivity|].
      intros H. exists default. split; [reflexivity|exact H].
    + split; [intros m [= <-] H; lia|]. split; [reflexivity|].
      intros H. exists default. split; [reflexivity|exact H].
    + split; [reflexivity|]. split.
      * intros H. exfalso. apply (H n eq_refl). lia.
      * intros _. exists n. split; [exact Hn|lia].
  - split; [intros m H; discriminate H|]. split; [reflexivity|].
    intros H. exists default. split; [reflexivity|exact H].
Qed.

Lemma validate_positive_integer_spec_witness :
  (forall n, Helpers.int_value (PyBool true) = Some n ->
             1 <= n <= 100 ->
             Helpers._validate_positive_integer (PyBool true) 10 1 100
             = PyBool true)
  /\ (1 <= 10 <= 100 ->
      exists n,
        Helpers.int_value
          (Helpers._validate_positive_integer (PyInt 500) 10 1 100) = Some n
        /\ 1 <= n <= 100).
Proof.
  split.
  - apply (validate_positive_integer_spec (PyBool true) 10 1 100).
  - apply (validate_positive_integer_spec (PyInt 500) 10 1 100).
Defined.
End Sanitized.

(** ** The order in which the aliases are tried *)

Section AliasOrder.
Import SkillExtractionService.

Lemma ascending_unique (l1 l2 : list string) :
  StronglySorted ascending l1 -> StronglySorted ascending l2 ->
  (forall p, p ∈ l1 <-> p ∈ l2) -> l1 = l2.
Proof.
  assert (Hirr : forall a b, ascending a b -> a <> b).
  { intros a b H ->. unfold ascending in H. by rewrite ltb_irrefl in H. }
  assert (Hasym : forall a b, ascending a b -> ascending b a -> False).
  { intros a b H1 H2. unfold ascending in *. rewrite ltb_leb in H1, H2.
    apply negb_true_iff in H1, H2.
    destruct (String.leb_total a b); congruence. }
  revert l2. induction l1 as [|x l1 IH]; intros l2 H1 H2 Hel.
  - destruct l2 as [|y l2]; [done|].
    exfalso. apply (elem_of_nil y). apply Hel. by left.
  - destruct l2 as [|y l2].
    { exfalso. apply (elem_of_nil x). apply Hel. by left. }
    apply StronglySorted_inv in H1 as [H1 Hx], H2 as [H2 Hy].
    rewrite Forall_forall in Hx, Hy.
    assert (x = y) as ->.
    { destruct (decide (x = y)) as [|Hne]; [done|exfalso].
      assert (Hxin : x ∈ l2).
      { assert (Hx' : x ∈ y :: l2) by (apply Hel; by left).
        apply elem_of_cons in Hx' as [|]; [contradiction|done]. }
      assert (Hyin : y ∈ l1).
      { assert (Hy' : y ∈ x :: l1) by (apply Hel; by left).
        apply elem_of_cons in Hy' as [|]; [congruence|done]. }
      exact (Hasym x y (Hx y Hyin) (Hy x Hxin)). }
    f_equal. apply IH; [done|done|].
    intros p. split; intros Hp.
    + assert (Hp' : p ∈ y :: l2) by (apply Hel; by right).
      apply elem_of_cons in Hp' as [->|]; [|done].
      exfalso. exact (Hirr y y (Hx y Hp) eq_refl).
    + assert (Hp' : p ∈ y :: l1) by (apply Hel; by right).
      apply elem_of_cons in Hp' as [->|]; [|done].
      exfalso. exact (Hirr y y (Hy y Hp) eq_refl).
Qed.

Lemma names_ascending (l : list extracted_skill) :
  StronglySorted by_name l -> NoDup (names l) ->
  StronglySorted ascending (names l).
Proof.
  induction 1 as [|e l Hl IH He]; intros Hnd; [constructor|].
  change (names (e :: l)) with (skill e :: names l) in Hnd |- *.
  apply NoDup_cons in Hnd as [Hnotin Hnd].
  constructor; [by apply IH|].
  apply Forall_forall. intros n Hn.
  apply list_elem_of_fmap in Hn as (e' & -> & He').
  rewrite Forall_forall in He. pose proof (He e' He') as Hle.
  unfold by_name in Hle. unfold ascending. rewrite ltb_leb.
  destruct (String.leb (skill e') (skill e)) eqn:Hge; [|done].
  exfalso. apply Hnotin. rewrite (String.leb_antisym _ _ Hle Hge).
  apply list_elem_of_fmap. by exists e'.
Qed.

(** A list of entries that all carry the category of the catalog is
    determined by its names. *)
Lemma entries_of_names (self : service) (l : list extracted_skill) :
  (forall e, e ∈ l ->
     exists meta, Py.dict_get (skill e) (skills_data self) = Some meta
                  /\ skill_category e = default "Unknown" (category meta)) ->
  l = List.map
        (fun n => {| skill := n;
                     skill_category :=
                       match Py.dict_get n (skills_data self) with
                       | Some meta => default "Unknown" (category meta)
                       | None => ""
                       end |})
        (names l).
Proof.
  induction l as [|e l IH]; intros H; [reflexivity|].
  simpl. f_equal.
  - destruct (H e) as (meta & -> & Hcat); [by left|].
    destruct e as [n c]. simpl in *. by rewrite Hcat.
  - apply IH. intros e' He'. apply H. by right.
Qed.

(** X30: the order in which the aliases are tried has no effect on what
    [extract_skills] returns: on a service built by the constructor, the
    loop run over the entries of the alias map in any order, followed by
    the final sort, gives the result of [extract_skills], which tries
    the longest aliases first. *)
Theorem extract_skills_order_irrelevant
    (skills_data_file : json_file skills_json) (self : service) (s : string)
    (sorted_skill_variations : list (string * string)) :
  snd (__init__ skills_data_file) = Py.Ok self ->
  s <> "" ->
  sorted_skill_variations ≡ₚ skill_map self ->
  (extracted_skills_list ←
     extract_loop self (normalize_text s) sorted_skill_variations ∅ [];
   Py.Ok (sort_by_name extracted_skills_list))
  = extract_skills self (PyStr s).
Proof.
  intros Hinit Hs Hperm. apply init_well_formed in Hinit.
  assert (Hrun : forall items, items ≡ₚ skill_map self ->
    exists out,
      extract_loop self (normalize_text s) items ∅ [] = Py.Ok out
      /\ NoDup (names out)
      /\ (forall n, n ∈ names out
            <-> exists a, (a, n) ∈ skill_map self
                          /\ re_search_word a (normalize_text s) = true)
      /\ (forall e, e ∈ out ->
            exists meta,
              Py.dict_get (skill e) (skills_data self) = Some meta
              /\ skill_category e = default "Unknown" (category meta))).
  { intros items Hitems.
    destruct (extract_loop_spec self (normalize_text s) items)
      with (discovered := (∅ : gset string))
           (extracted := @nil extracted_skill)
      as (out & Hout & Hnd & _ & Hfound).
    - intros a n H. apply (Hinit a n). by rewrite Hitems in H.
    - apply NoDup_nil_2.
    - intros n. simpl. rewrite elem_of_nil. set_solver.
    - exists out. split; [exact Hout|]. split; [exact Hnd|]. split.
      + intros n. split.
        * intros Hn. apply list_elem_of_fmap in Hn as (e & -> & He).
          destruct (extract_loop_sound _ _ _ _ _ _ Hout e He)
            as [H|(a & meta & H & Hm & _)]; [by apply elem_of_nil in H|].
          exists a. split; [by rewrite Hitems in H|exact Hm].
        * intros (a & Ha & Hm). apply (Hfound a n); [|exact Hm].
          by rewrite Hitems.
      + intros e He.
        destruct (extract_loop_sound _ _ _ _ _ _ Hout e He)
          as [H|(a & meta & _ & _ & Hget & Hcat)]; [by apply elem_of_nil in H|].
        by exists meta. }
  assert (Hsorted : forall out,
    NoDup (names out) ->
    StronglySorted ascending (names (sort_by_name out))).
  { intros out Hnd. apply names_ascending; [apply sort_by_name_sorted|].
    unfold names, sort_by_name. by rewrite sort_stable_perm. }
  assert (Hin : forall out e, e ∈ sort_by_name out <-> e ∈ out).
  { intros out e. unfold sort_by_name. by rewrite sort_stable_perm. }
  rewrite (extract_skills_str self s Hs).
  destruct (Hrun sorted_skill_variations Hperm)
    as (out1 & -> & Hnd1 & Hnames1 & Hcat1).
  destruct (Hrun (Py.sort_stable
                    (fun y x => (String.length (fst x) <? String.length (fst y))%nat)
                    (skill_map self)))
    as (out2 & -> & Hnd2 & Hnames2 & Hcat2); [apply sort_stable_perm|].
  simpl. f_equal.
  rewrite (entries_of_names self (sort_by_name out1)),
          (entries_of_names self (sort_by_name out2)).
  - f_equal. apply ascending_unique; [by apply Hsorted|by apply Hsorted|].
    intros n. unfold names. rewrite !list_elem_of_fmap.
    assert (Hmem : forall out,
      (exists e, n = skill e /\ e ∈ sort_by_name out) <-> n ∈ names out).
    { intros out. unfold names. rewrite list_elem_of_fmap.
      split; intros (e & He & Hel); exists e; (split; [exact He|]);
        by apply Hin. }
    rewrite !Hmem, Hnames1, Hnames2. reflexivity.
  - intros e He. apply Hcat2. by apply Hin.
  - intros e He. apply Hcat1. by apply Hin.
Qed.

Lemma extract_skills_order_irrelevant_witness :
  (extracted_skills_list ←
     extract_loop node_service (normalize_text "Node.js and py")
       (reverse (skill_map node_service)) ∅ [];
   Py.Ok (sort_by_name extracted_skills_list))
  = extract_skills node_service (PyStr "Node.js and py").
Proof.
  apply (extract_skills_order_irrelevant (Parsed node_catalog) node_service
           "Node.js and py" (reverse (skill_map node_service))
           node_service_built).
  - discriminate.
  - apply reverse_Permutation.
Defined.
End AliasOrder.
